(** * AdversaryPilot: a shallow embedding of the planner, the campaign
      manager, the snapshot replayer and the weakest-layer analyzer

    Python floats are IEEE-754 binary64 values and are modelled by Rocq's
    primitive floats; dictionaries are finite maps, sets are finite sets,
    lists are lists.  Every definition of Part I transcribes one function of
    the Python sources and keeps its name.  Part II defines the terms in
    which the properties are stated, Part III states and proves them. *)

From Stdlib Require Import ZArith Ascii String List Floats Uint63 Lia.
From stdpp Require Import base option gmap strings list pretty sorting.

Set Warnings "-inexact-float".
Local Open Scope string_scope.
Local Open Scope list_scope.

(* ===================================================================== *)
(** * Part I: the program                                                 *)
(* ===================================================================== *)

(** ** Python built-ins on floats *)

Module Py.

(** [max(a, b)]: the first argument is kept unless the second is strictly
    greater. *)
Definition max (a b : float) : float := if (a <? b)%float then b else a.

(** [min(a, b)]: the first argument is kept unless the second is strictly
    smaller. *)
Definition min (a b : float) : float := if (b <? a)%float then b else a.

(** [float(n)] for a non-negative machine-size integer. *)
Definition float_of_nat (n : nat) : float :=
  PrimFloat.of_uint63 (Uint63.of_Z (Z.of_nat n)).

(** [a <= x <= b] *)
Definition between (a x b : float) : bool := ((a <=? x) && (x <=? b))%float.

(** Exceptions raised by the modelled code. *)
Inductive exn : Type :=
  | ValueError (msg : string)
  | KeyError (msg : string)
  | ValidationError (msg : string)
  | OSError (msg : string)
  | ZeroDivisionError (msg : string)
  | OverflowError (msg : string).

Inductive result (A : Type) : Type :=
  | Ok (a : A)
  | Raise (e : exn).
Arguments Ok {A} a.
Arguments Raise {A} e.

Definition is_ok {A} (r : result A) : bool :=
  match r with Ok _ => true | Raise _ => false end.

(** A call that may raise, followed by the rest of the body. *)
Definition bind {A B} (r : result A) (f : A → result B) : result B :=
  match r with Ok a => f a | Raise e => Raise e end.

(** A loop that collects what each call returns and stops at the first
    call that raises. *)
Fixpoint traverse {A B} (f : A → result B) (l : list A) : result (list B) :=
  match l with
  | [] => Ok []
  | x :: l => bind (f x) (λ y, bind (traverse f l) (λ ys, Ok (y :: ys)))
  end.

(** [float(z)] for an integer of machine size. *)
Definition float_of_Z (z : Z) : float :=
  if (z <? 0)%Z then (- PrimFloat.of_uint63 (Uint63.of_Z (- z)))%float
  else PrimFloat.of_uint63 (Uint63.of_Z z).

(** [x ** 2] for a float: the product, except that a finite [x] whose
    square is too large for a float raises [OverflowError] (the product
    itself would be infinite). *)
Definition pow2 (x : float) : result float :=
  let y := (x * x)%float in
  if PrimFloat.is_finite x && PrimFloat.is_infinity y
  then Raise (OverflowError "(34, 'Numerical result out of range')")
  else Ok y.

End Py.

(** ** models/enums.py *)

Module Enums.

Inductive TargetType :=
  | CLASSIFIER | CHATBOT | RAG | AGENT_T | MODERATION | EMBEDDING
  | MULTI_AGENT_SYSTEM | MCP_CLIENT.
Inductive AccessLevel := WHITE_BOX | GRAY_BOX | BLACK_BOX.
Inductive Domain := AML | LLM | AGENT.
Inductive Phase := RECON | PROBE_P | EXPLOIT_P | PERSISTENCE | EVALUATION.
Inductive Surface := MODEL | DATA | RETRIEVAL | TOOL | ACTION | GUARDRAIL.
Inductive Goal :=
  | EVASION | JAILBREAK | EXFIL_SIM | EXTRACTION | TOOL_MISUSE | POISONING | DOS.
Inductive StealthLevel := OVERT | MODERATE | COVERT.
Inductive CampaignPhase := PROBE | EXPLOIT.
Inductive CampaignStatus := PLANNING | ACTIVE | PAUSED | COMPLETED | ABORTED.

Global Instance TargetType_eq_dec : EqDecision TargetType.
Proof. solve_decision. Defined.
Global Instance AccessLevel_eq_dec : EqDecision AccessLevel.
Proof. solve_decision. Defined.
Global Instance Domain_eq_dec : EqDecision Domain.
Proof. solve_decision. Defined.
Global Instance Phase_eq_dec : EqDecision Phase.
Proof. solve_decision. Defined.
Global Instance Surface_eq_dec : EqDecision Surface.
Proof. solve_decision. Defined.
Global Instance Goal_eq_dec : EqDecision Goal.
Proof. solve_decision. Defined.
Global Instance StealthLevel_eq_dec : EqDecision StealthLevel.
Proof. solve_decision. Defined.
Global Instance CampaignPhase_eq_dec : EqDecision CampaignPhase.
Proof. solve_decision. Defined.
Global Instance CampaignStatus_eq_dec : EqDecision CampaignStatus.
Proof. solve_decision. Defined.

(** The [.value] of each [StrEnum] member. *)
Definition TargetType_value (t : TargetType) : string :=
  match t with
  | CLASSIFIER => "classifier" | CHATBOT => "chatbot" | RAG => "rag"
  | AGENT_T => "agent" | MODERATION => "moderation" | EMBEDDING => "embedding"
  | MULTI_AGENT_SYSTEM => "multi_agent_system" | MCP_CLIENT => "mcp_client"
  end.

Definition Domain_value (d : Domain) : string :=
  match d with AML => "aml" | LLM => "llm" | AGENT => "agent" end.

Definition Phase_value (p : Phase) : string :=
  match p with
  | RECON => "recon" | PROBE_P => "probe" | EXPLOIT_P => "exploit"
  | PERSISTENCE => "persistence" | EVALUATION => "evaluation"
  end.

Definition Surface_value (s : Surface) : string :=
  match s with
  | MODEL => "model" | DATA => "data" | RETRIEVAL => "retrieval"
  | TOOL => "tool" | ACTION => "action" | GUARDRAIL => "guardrail"
  end.

Definition Goal_value (g : Goal) : string :=
  match g with
  | EVASION => "evasion" | JAILBREAK => "jailbreak" | EXFIL_SIM => "exfil_sim"
  | EXTRACTION => "extraction" | TOOL_MISUSE => "tool_misuse"
  | POISONING => "poisoning" | DOS => "dos"
  end.

Definition StealthLevel_value (s : StealthLevel) : string :=
  match s with OVERT => "overt" | MODERATE => "moderate" | COVERT => "covert" end.

Definition CampaignPhase_value (p : CampaignPhase) : string :=
  match p with PROBE => "probe" | EXPLOIT => "exploit" end.

(** [CampaignPhase(s)]: the member whose value is [s]. *)
Definition CampaignPhase_of_value (s : string) : Py.result CampaignPhase :=
  if decide (s = "probe") then Py.Ok PROBE
  else if decide (s = "exploit") then Py.Ok EXPLOIT
  else Py.Raise (Py.ValueError "not a valid CampaignPhase").

(** Iteration over [Surface], in definition order; [len(Surface)] is its
    length. *)
Definition all_Surface : list Surface :=
  [MODEL; DATA; RETRIEVAL; TOOL; ACTION; GUARDRAIL].

End Enums.
Export Enums.

(** ** models/technique.py, models/target.py, models/results.py *)

Module Models.

(** [AttackTechnique]; the descriptive fields that no modelled function
    reads (description, references, execution mode, prerequisites, tool
    support) are left out. *)
Record AttackTechnique := {
  id : string;
  name : string;
  domain : Domain;
  phase : Phase;
  surface : Surface;
  access_required : AccessLevel;
  goals_supported : list Goal;
  target_types : list TargetType;
  base_cost : float;
  stealth_profile : StealthLevel;
  tags : list string;
}.

Record DefenseProfile := {
  has_moderation : bool;
  has_input_filtering : bool;
  has_output_filtering : bool;
  has_prompt_injection_detection : bool;
  has_schema_validation : bool;
  has_rate_limiting : bool;
}.

(** [ConstraintSpec]: the stealth priority and the one custom constraint the
    filters read, [custom_constraints.get("max_technique_cost")]. *)
Record ConstraintSpec := {
  stealth_priority : StealthLevel;
  max_technique_cost : option float;
}.

Record TargetProfile := {
  target_name : string;
  target_type : TargetType;
  access_level : AccessLevel;
  goals : list Goal;
  constraints : ConstraintSpec;
  defenses : DefenseProfile;
}.

(** [AttemptResult]: identifier and technique. *)
Record AttemptResult := {
  attempt_result_id : string;
  attempt_technique_id : string;
}.

(** [EvaluationResult] with the [technique_id] of its
    [ComparabilityMetadata]; [success = None] is an inconclusive result. *)
Record EvaluationResult := {
  attempt_id : string;
  success : option bool;
  score : option float;
  evidence_quality : float;
  comparability_technique_id : string;
}.

End Models.
Export Models.

(** ** planner/posterior.py *)

Module Posterior.

Record TechniquePosterior := {
  technique_id : string;
  alpha : float;
  beta : float;
  observations : nat;
}.

(** [TechniquePosterior.mean] *)
Definition mean (p : TechniquePosterior) : float :=
  (alpha p / (alpha p + beta p))%float.

(** [TechniquePosterior.update] *)
Definition update (p : TechniquePosterior) (reward : float)
  : Py.result TechniquePosterior :=
  if negb (Py.between 0 reward 1) then
    Py.Raise (Py.ValueError "Reward must be in [0.0, 1.0]")
  else
    Py.Ok {| technique_id := technique_id p;
             alpha := (alpha p + reward)%float;
             beta := (beta p + (1 - reward))%float;
             observations := S (observations p) |}.

Record PosteriorState := {
  posteriors : gmap string TechniquePosterior;
  prior_strength : float;
}.

Definition with_posteriors (st : PosteriorState)
    (m : gmap string TechniquePosterior) : PosteriorState :=
  {| posteriors := m; prior_strength := prior_strength st |}.

(** [PosteriorState.get_or_init]: the returned posterior, and the state
    after the call (the dictionary is updated in place). *)
Definition get_or_init (st : PosteriorState) (tid : string)
    (base_score : float) (benchmark_prior : option float)
  : TechniquePosterior * PosteriorState :=
  match posteriors st !! tid with
  | Some p => (p, st)
  | None =>
      let p := match benchmark_prior with Some b => b | None => base_score end in
      let k := prior_strength st in
      let a := (1 + k * p)%float in
      let b := (1 + k * (1 - p))%float in
      let post := {| technique_id := tid; alpha := a; beta := b;
                     observations := 0 |} in
      (post, with_posteriors st (<[tid := post]> (posteriors st)))
  end.

End Posterior.
Export Posterior.

(** ** planner/correlation.py *)

Module Correlation.

Record FamilyCorrelation := {
  spillover_rate : float;
  _families : gmap string (gset string);
  _id_to_family : gmap string string;
}.

(** [FamilyCorrelation(spillover_rate=0.3)] *)
Definition new (rate : float) : FamilyCorrelation :=
  {| spillover_rate := rate; _families := ∅; _id_to_family := ∅ |}.

Definition default_spillover_rate : float := 0.3%float.

(** [_family_key]: [domain:surface:primary_tag], the surface value standing
    in for a missing first tag. *)
Definition _family_key (t : AttackTechnique) : string :=
  let primary_tag :=
    match tags t with tag :: _ => tag | [] => Surface_value (surface t) end in
  Domain_value (domain t) +:+ ":" +:+ Surface_value (surface t)
    +:+ ":" +:+ primary_tag.

(** One round of the loop of [register_techniques]. *)
Definition register_one (c : FamilyCorrelation) (t : AttackTechnique)
  : FamilyCorrelation :=
  let family := _family_key t in
  {| spillover_rate := spillover_rate c;
     _families :=
       <[family := {[ id t ]} ∪ default ∅ (_families c !! family)]> (_families c);
     _id_to_family := <[id t := family]> (_id_to_family c) |}.

Definition register_techniques (c : FamilyCorrelation)
    (catalog : list AttackTechnique) : FamilyCorrelation :=
  foldl register_one (new (spillover_rate c)) catalog.

(** [get_siblings]: an unknown id, or an empty family key, has none. *)
Definition get_siblings (c : FamilyCorrelation) (tid : string) : gset string :=
  match _id_to_family c !! tid with
  | None => ∅
  | Some family =>
      if decide (family = "") then ∅
      else default ∅ (_families c !! family) ∖ {[ tid ]}
  end.

(** The body of the loop of [propagate_update] for one sibling. *)
Definition spill_one (rate reward : float) (st : PosteriorState)
    (sibling_id : string) : PosteriorState :=
  let st1 :=
    match posteriors st !! sibling_id with
    | Some _ => st
    | None => snd (get_or_init st sibling_id 0.5%float None)
    end in
  match posteriors st1 !! sibling_id with
  | Some p =>
      let p' := {| technique_id := technique_id p;
                   alpha := (alpha p + reward * rate)%float;
                   beta := (beta p + (1 - reward) * rate)%float;
                   observations := observations p |} in
      with_posteriors st1 (<[sibling_id := p']> (posteriors st1))
  | None => st1
  end.

(** [propagate_update]; the set of siblings is visited in the order of
    [elements]. *)
Definition propagate_update (c : FamilyCorrelation) (observed_id : string)
    (reward : float) (st : PosteriorState) : PosteriorState :=
  let siblings := get_siblings c observed_id in
  if decide (siblings = ∅) then st
  else foldl (spill_one (spillover_rate c) reward) st (elements siblings).

End Correlation.

(** ** The Python runtime the planner calls into

    [random.Random], [Random.betavariate], [hashlib.sha256] and the
    [:.2f] float format are library code; the planner is modelled over any
    implementation of them. *)

Class Runtime := {
  (** the state of a [random.Random] generator *)
  rng : Type;
  (** [random.Random(seed)] *)
  Random : Z → rng;
  (** [rng.betavariate(alpha, beta)]: the sample and the generator after it *)
  betavariate : rng → float → float → float * rng;
  (** [int(hashlib.sha256(s.encode()).hexdigest()[:8], 16)]: the first 32
      bits of the digest *)
  sha256_hex8 : string → Z;
  (** [f"{x:.2f}"] *)
  fmt_2f : float → string;
  (** [str(x)] of a float *)
  float_str : float → string;
  (** the built-in [hash] of a string, which is salted per process *)
  str_hash : string → Z;
  (** the built-in [int] of a string; [None] stands for [ValueError] *)
  py_int : string → option Z;
  (** [utils.hashing.hash_target_profile]: a SHA-256 digest of the
      serialized profile *)
  hash_target_profile : TargetProfile → string;
}.

(** ** planner/priors.py *)

Module Priors.

Definition BENCHMARK_ASR : gmap string float :=
  list_to_map [
    ("llm:guardrail:jailbreak", 0.55); ("llm:guardrail:pair", 0.60);
    ("llm:guardrail:tap", 0.65); ("llm:guardrail:crescendo", 0.55);
    ("llm:guardrail:encoding", 0.40); ("llm:guardrail:multilingual", 0.45);
    ("llm:guardrail:persona", 0.50); ("llm:guardrail:few-shot", 0.50);
    ("llm:guardrail:prefix", 0.35); ("llm:guardrail:gcg", 0.25);
    ("llm:guardrail:injection", 0.50);
    ("llm:model:extraction", 0.30); ("llm:model:memorization", 0.35);
    ("agent:tool:agent", 0.35); ("agent:tool:injection", 0.40);
    ("agent:action:agent", 0.30); ("agent:data:agent", 0.35);
    ("rag:retrieval:rag", 0.40); ("rag:retrieval:injection", 0.45);
    ("rag:data:poisoning", 0.50);
    ("aml:model:adversarial-examples", 0.70); ("aml:model:evasion", 0.60);
    ("aml:model:poisoning", 0.55); ("aml:model:backdoor", 0.45);
    ("aml:model:inversion", 0.20); ("aml:model:membership-inference", 0.25);
    ("agent:action:a2a", 0.25); ("agent:tool:a2a", 0.30);
    ("agent:data:a2a", 0.25);
    ("agent:tool:mcp", 0.35); ("agent:tool:mcp-schema", 0.30);
    ("agent:tool:mcp-squat", 0.20);
    ("agent:action:delegation", 0.30); ("agent:data:memory-poisoning", 0.35);
    ("agent:data:observation", 0.25)
  ]%float.

Definition _DEFAULT_ASR : float := 0.40%float.

(** [get_benchmark_prior]: the table value, or the default, clamped to
    [0.05, 0.95]. *)
Definition get_benchmark_prior (family_key : string) : float :=
  let raw := default _DEFAULT_ASR (BENCHMARK_ASR !! family_key) in
  Py.max 0.05 (Py.min 0.95 raw).

End Priors.

(** ** prioritizer/filters.py *)

Module Filters.

Definition ACCESS_ORDER (a : AccessLevel) : nat :=
  match a with BLACK_BOX => 0 | GRAY_BOX => 1 | WHITE_BOX => 2 end.

Definition is_target_type_compatible (t : AttackTechnique) (target : TargetProfile)
  : bool :=
  match target_types t with
  | [] => true
  | _ => bool_decide (target_type target ∈ target_types t)
  end.

Definition is_access_sufficient (t : AttackTechnique) (target : TargetProfile)
  : bool :=
  (ACCESS_ORDER (access_required t) <=? ACCESS_ORDER (access_level target))%nat.

Definition is_within_budget (t : AttackTechnique) (target : TargetProfile) : bool :=
  match max_technique_cost (constraints target) with
  | Some max_cost => negb (max_cost <? base_cost t)%float
  | None => true
  end.

Definition is_goal_relevant (t : AttackTechnique) (target : TargetProfile) : bool :=
  match goals target with
  | [] => true
  | _ => existsb (λ g, bool_decide (g ∈ goals target)) (goals_supported t)
  end.

Definition passes_all_filters (t : AttackTechnique) (target : TargetProfile) : bool :=
  is_target_type_compatible t target
  && is_access_sufficient t target
  && is_within_budget t target
  && is_goal_relevant t target.

End Filters.

(** ** prioritizer/scorers.py *)

Module Scorers.
Import Filters.

(** A [scorer_thresholds] dictionary: section, then key. *)
Abbreviation Thresholds := (gmap string (gmap string float)).

Definition DEFAULT_THRESHOLDS : Thresholds :=
  list_to_map [
    ("defense_bypass",
      list_to_map [("no_defenses_baseline", 0.8); ("min_bypass_likelihood", 0.1);
                   ("defense_impact_factor", 0.7)]);
    ("signal_gain",
      list_to_map [("untried_score", 1.0); ("default_score", 0.7);
                   ("inconclusive_score", 0.5); ("already_tested_score", 0.1)]);
    ("compatibility",
      list_to_map [("exact_match", 1.0); ("no_types_listed", 0.5);
                   ("no_match", 0.0)]);
    ("access_fit",
      list_to_map [("exact_match", 1.0); ("overqualified_floor", 0.5);
                   ("overqualified_decay", 0.2)]);
    ("stealth_penalty",
      list_to_map [("overt", 1.0); ("moderate", 0.5); ("covert", 0.1)]);
    ("detection_risk", list_to_map [("moderate_multiplier", 0.5)])
  ]%float.

(** [_get]: the configured value when the section has the key, the default
    otherwise.  A missing or empty [thresholds] reaches the default the same
    way.  The default lookup raises [KeyError] on an unknown key; every call
    below passes a key of [DEFAULT_THRESHOLDS], and the model returns NaN in
    the case that cannot arise. *)
Definition lookup2 (th : Thresholds) (section key : string) : option float :=
  match th !! section with
  | Some sec => sec !! key
  | None => None
  end.

Definition _get (thresholds : option Thresholds) (section key : string) : float :=
  match
    match thresholds with Some th => lookup2 th section key | None => None end
  with
  | Some v => v
  | None => default PrimFloat.nan (lookup2 DEFAULT_THRESHOLDS section key)
  end.

Definition score_compatibility (t : AttackTechnique) (target : TargetProfile)
    (th : option Thresholds) : float :=
  match target_types t with
  | [] => _get th "compatibility" "no_types_listed"
  | _ =>
      if bool_decide (target_type target ∈ target_types t)
      then _get th "compatibility" "exact_match"
      else _get th "compatibility" "no_match"
  end.

Definition score_access_fit (t : AttackTechnique) (target : TargetProfile)
    (th : option Thresholds) : float :=
  let available := ACCESS_ORDER (access_level target) in
  let required := ACCESS_ORDER (access_required t) in
  if (available <? required)%nat then 0%float
  else if (available =? required)%nat then _get th "access_fit" "exact_match"
  else
    let floor := _get th "access_fit" "overqualified_floor" in
    let decay := _get th "access_fit" "overqualified_decay" in
    Py.max floor (1 - decay * Py.float_of_nat (available - required))%float.

(** [len(set(a) & set(b))] *)
Definition overlap_count {A} `{EqDecision A} (a b : list A) : nat :=
  length (filter (λ x, x ∈ b) (remove_dups a)).

Definition score_goal_fit (t : AttackTechnique) (target : TargetProfile) : float :=
  match goals target, goals_supported t with
  | [], _ => 0.5%float
  | _, [] => 0%float
  | _, _ =>
      (Py.float_of_nat (overlap_count (goals_supported t) (goals target))
       / Py.float_of_nat (length (goals target)))%float
  end.

Definition DEFENSE_SURFACE_MAP : list ((DefenseProfile → bool) * Surface) :=
  [ (has_moderation, GUARDRAIL);
    (has_input_filtering, GUARDRAIL);
    (has_output_filtering, GUARDRAIL);
    (has_prompt_injection_detection, MODEL);
    (has_schema_validation, TOOL);
    (has_rate_limiting, MODEL) ].

Definition score_defense_bypass_likelihood (t : AttackTechnique)
    (target : TargetProfile) (th : option Thresholds) : float :=
  let relevant :=
    filter (λ e, e.2 = surface t) DEFENSE_SURFACE_MAP in
  let relevant_defenses := length relevant in
  let active_defenses :=
    length (filter (λ e, e.1 (defenses target) = true) relevant) in
  if (relevant_defenses =? 0)%nat then _get th "defense_bypass" "no_defenses_baseline"
  else
    let min_val := _get th "defense_bypass" "min_bypass_likelihood" in
    let impact := _get th "defense_bypass" "defense_impact_factor" in
    Py.max min_val
      (1 - (Py.float_of_nat active_defenses / Py.float_of_nat relevant_defenses)
           * impact)%float.

(** [score_signal_gain] *)
Definition score_signal_gain (t : AttackTechnique)
    (prior_results : option (list EvaluationResult)) (th : option Thresholds)
  : float :=
  match prior_results with
  | None | Some [] => _get th "signal_gain" "default_score"
  | Some results =>
      let tried_techniques : gset string :=
        list_to_set (comparability_technique_id <$> results) in
      if bool_decide (id t ∉ tried_techniques)
      then _get th "signal_gain" "untried_score"
      else
        let technique_results :=
          filter (λ r, comparability_technique_id r = id t) results in
        let inconclusive :=
          length (filter (λ r, success r = None) technique_results) in
        if (0 <? inconclusive)%nat then _get th "signal_gain" "inconclusive_score"
        else _get th "signal_gain" "already_tested_score"
  end.

Definition score_cost_penalty (t : AttackTechnique) : float := base_cost t.

Definition score_detection_risk_penalty (t : AttackTechnique)
    (target : TargetProfile) (th : option Thresholds) : float :=
  match stealth_priority (constraints target) with
  | OVERT => 0%float
  | priority =>
      let technique_risk :=
        match stealth_profile t with
        | OVERT => _get th "stealth_penalty" "overt"
        | MODERATE => _get th "stealth_penalty" "moderate"
        | COVERT => _get th "stealth_penalty" "covert"
        end in
      match priority with
      | COVERT => technique_risk
      | _ => (technique_risk * _get th "detection_risk" "moderate_multiplier")%float
      end
  end.

End Scorers.

(** ** models/plan.py *)

Module Plan.

Record ScoreBreakdown := {
  compatibility : float;
  access_fit : float;
  goal_fit : float;
  defense_bypass_likelihood : float;
  signal_gain : float;
  cost_penalty : float;
  detection_risk_penalty : float;
  diversity_bonus : float;
  thompson_sample : option float;
  utility : option float;
  total : float;
  confidence_interval : option (float * float);
  posterior_variance : option float;
  sb_observations : nat;
}.

(** The [structured_rationale] dictionary the adaptive planner fills in. *)
Record StructuredRationale := {
  prior_source : string;
  prior_asr : float;
  sr_observations : nat;
  posterior_mean : float;
  sr_confidence_interval : list float;
  family : string;
  siblings_observed : nat;
  key_factors : list string;
}.

Record PlanEntry := {
  rank : nat;
  entry_technique_id : string;
  technique_name : string;
  entry_score : ScoreBreakdown;
  rationale : string;
  entry_tags : list string;
  structured_rationale : option StructuredRationale;
}.

(** A value of a [dict[str, Any]] configuration. *)
Inductive ConfigValue :=
  | VBool (b : bool)
  | VInt (z : Z)
  | VFloat (f : float)
  | VStr (s : string).

(** [AttackPlan]; [generated_at] is the wall-clock reading taken when the
    plan object is built. *)
Record AttackPlan := {
  plan_target : TargetProfile;
  entries : list PlanEntry;
  generated_at : Z;
  config_used : gmap string ConfigValue;
}.

(** [AttackPlan.technique_ids] *)
Definition technique_ids (p : AttackPlan) : list string :=
  entry_technique_id <$> entries p.

End Plan.
Export Plan.

(** ** List operations of Python used by the planners *)

Module PyList.

(** [l.sort(key=key, reverse=True)]: a stable sort into descending key
    order; elements whose keys are not in strict order keep their relative
    position.  Keys are compared with [<] only. *)
Fixpoint insert_desc {A} (key : A → float) (x : A) (l : list A) : list A :=
  match l with
  | [] => [x]
  | y :: l' =>
      if (key x <? key y)%float then y :: insert_desc key x l' else x :: l
  end.

Definition sort_desc {A} (key : A → float) (l : list A) : list A :=
  foldr (insert_desc key) [] l.

(** [l[:n]] *)
Definition slice_to {A} (n : Z) (l : list A) : list A :=
  if (0 <=? n)%Z then take (Z.to_nat n) l
  else take (length l - Z.to_nat (- n)) l.

(** [enumerate(l, start=1)] *)
Definition enumerate1 {A} (l : list A) : list (nat * A) :=
  imap (λ i x, (S i, x)) l.

(** [sep.join(parts)] *)
Fixpoint join (sep : string) (parts : list string) : string :=
  match parts with
  | [] => ""
  | [p] => p
  | p :: rest => p +:+ sep +:+ join sep rest
  end.

End PyList.

(** ** taxonomy/registry.py *)

Module Registry.

(** [TechniqueRegistry]: the techniques in insertion order; the dictionary
    keeps one technique per id. *)
Record TechniqueRegistry := {
  _techniques : list AttackTechnique;
}.

Definition get (r : TechniqueRegistry) (technique_id : string)
  : option AttackTechnique :=
  List.find (λ t, bool_decide (id t = technique_id)) (_techniques r).

Definition get_all (r : TechniqueRegistry) : list AttackTechnique :=
  _techniques r.

End Registry.
Export Registry.

(** ** prioritizer/engine.py *)

Module Engine.
Import Scorers Filters PyList.

(** [PrioritizerEngine]: the loaded configuration, and the sections read
    from it ([weights], [scorer_thresholds], [filters.max_cost],
    [diversity.same_triple_penalty]). *)
Record PrioritizerEngine := {
  _config : gmap string ConfigValue;
  _weights : gmap string float;
  _scorer_thresholds : option Thresholds;
  filters_max_cost : option float;
  same_triple_penalty : option float;
}.

Definition w_get (e : PrioritizerEngine) (k : string) (d : float) : float :=
  default d (_weights e !! k).

Definition positive_keys : list string :=
  ["compatibility"; "access_fit"; "goal_fit"; "defense_bypass_likelihood";
   "signal_gain"].
Definition penalty_keys : list string :=
  ["cost_penalty"; "detection_risk_penalty"].

(** [_compute_score_range] *)
Definition _compute_score_range (e : PrioritizerEngine) : float * float :=
  let pos_sum := foldl (λ acc k, (acc + w_get e k 0)%float) 0%float positive_keys in
  let neg_sum := foldl (λ acc k, (acc + w_get e k 0)%float) 0%float penalty_keys in
  ((- neg_sum)%float, pos_sum).

Definition _score_lo (e : PrioritizerEngine) : float := (_compute_score_range e).1.
Definition _score_hi (e : PrioritizerEngine) : float := (_compute_score_range e).2.

(** [normalize_score] *)
Definition normalize_score (e : PrioritizerEngine) (raw : float) : float :=
  let span := (_score_hi e - _score_lo e)%float in
  if (span <=? 0)%float then 0.5%float
  else Py.max 0 (Py.min 1 ((raw - _score_lo e) / span))%float.

(** [score_technique] *)
Definition score_technique (e : PrioritizerEngine) (t : AttackTechnique)
    (target : TargetProfile) (prior_results : option (list EvaluationResult))
  : ScoreBreakdown :=
  let th := _scorer_thresholds e in
  let compatibility := score_compatibility t target th in
  let access_fit := score_access_fit t target th in
  let goal_fit := score_goal_fit t target in
  let defense_bypass := score_defense_bypass_likelihood t target th in
  let signal := score_signal_gain t prior_results th in
  let cost := score_cost_penalty t in
  let detection := score_detection_risk_penalty t target th in
  let total :=
    (w_get e "compatibility" 1.0 * compatibility
     + w_get e "access_fit" 0.8 * access_fit
     + w_get e "goal_fit" 1.0 * goal_fit
     + w_get e "defense_bypass_likelihood" 0.7 * defense_bypass
     + w_get e "signal_gain" 0.5 * signal
     - w_get e "cost_penalty" 0.4 * cost
     - w_get e "detection_risk_penalty" 0.3 * detection)%float in
  {| compatibility := compatibility;
     access_fit := access_fit;
     goal_fit := goal_fit;
     defense_bypass_likelihood := defense_bypass;
     signal_gain := signal;
     cost_penalty := cost;
     detection_risk_penalty := detection;
     diversity_bonus := 0;
     thompson_sample := None;
     utility := None;
     total := total;
     confidence_interval := None;
     posterior_variance := None;
     sb_observations := 0 |}.

(** [_apply_hard_filters] *)
Definition _apply_hard_filters (e : PrioritizerEngine)
    (techniques : list AttackTechnique) (target : TargetProfile)
  : list AttackTechnique :=
  let max_cost := default 1.0%float (filters_max_cost e) in
  filter (λ t, passes_all_filters t target = true
               ∧ (base_cost t <=? max_cost)%float = true) techniques.

(** [ScoredTechnique] *)
Definition ScoredTechnique : Type := AttackTechnique * ScoreBreakdown.

(** [_score_techniques]: the same formula as [score_technique], for each
    technique. *)
Definition _score_techniques (e : PrioritizerEngine)
    (techniques : list AttackTechnique) (target : TargetProfile)
    (prior_results : option (list EvaluationResult)) : list ScoredTechnique :=
  (λ t, (t, score_technique e t target prior_results)) <$> techniques.

Definition with_diversity (b : ScoreBreakdown) (bonus : float) : ScoreBreakdown :=
  {| compatibility := compatibility b;
     access_fit := access_fit b;
     goal_fit := goal_fit b;
     defense_bypass_likelihood := defense_bypass_likelihood b;
     signal_gain := signal_gain b;
     cost_penalty := cost_penalty b;
     detection_risk_penalty := detection_risk_penalty b;
     diversity_bonus := bonus;
     thompson_sample := thompson_sample b;
     utility := utility b;
     total := (total b + bonus)%float;
     confidence_interval := confidence_interval b;
     posterior_variance := posterior_variance b;
     sb_observations := sb_observations b |}.

(** One round of the loop of [_apply_diversity_bonus]: the techniques
    handled so far and the [seen_triples] counters. *)
Definition diversity_step (penalty : float)
    (acc : list ScoredTechnique * gmap (string * string * string) nat)
    (s : ScoredTechnique)
  : list ScoredTechnique * gmap (string * string * string) nat :=
  let triple := (Domain_value (domain s.1), Phase_value (phase s.1),
                 Surface_value (surface s.1)) in
  let count : nat := default 0%nat (acc.2 !! triple) in
  let s' : ScoredTechnique :=
    if (0 <? count)%nat
    then (s.1, with_diversity s.2 (- penalty * Py.float_of_nat count)%float)
    else s in
  (acc.1 ++ [s'], <[triple := S count]> acc.2).

(** [_apply_diversity_bonus] *)
Definition _apply_diversity_bonus (e : PrioritizerEngine)
    (scored : list ScoredTechnique) : list ScoredTechnique :=
  let penalty := default 0.15%float (same_triple_penalty e) in
  let sorted := sort_desc (λ s : ScoredTechnique, total s.2) scored in
  (foldl (diversity_step penalty) ([], ∅) sorted).1.

Section WithRuntime.
Context `{Runtime}.

(** [_generate_rationale] *)
Definition _generate_rationale (s : ScoredTechnique) (target : TargetProfile)
  : string :=
  let t := s.1 in
  let b := s.2 in
  let parts :=
    (if (0.8 <=? compatibility b)%float
     then ["strong fit for " +:+ TargetType_value (target_type target)
           +:+ " targets"] else [])
    ++ (if (0.8 <=? goal_fit b)%float
        then ["directly addresses goal(s): "
              +:+ join ", " (Goal_value <$>
                    filter (λ g, g ∈ goals target) (goals_supported t))]
        else [])
    ++ (if (0.7 <=? defense_bypass_likelihood b)%float
        then ["likely to bypass observed defenses on "
              +:+ Surface_value (surface t) +:+ " layer"] else [])
    ++ (if (0.8 <=? signal_gain b)%float
        then ["high information gain (untried technique)"] else [])
    ++ (if (cost_penalty b <=? 0.3)%float then ["low cost"] else [])
    ++ (if (0.7 <=? cost_penalty b)%float
        then ["high cost — consider budget"] else []) in
  let parts :=
    match parts with
    | [] => ["moderate fit across scoring dimensions"]
    | _ => parts
    end in
  join "; " parts +:+ " [total=" +:+ fmt_2f (total b) +:+ "]".

(** [_build_plan] *)
Definition _build_plan (e : PrioritizerEngine) (now : Z)
    (scored : list ScoredTechnique) (target : TargetProfile) : AttackPlan :=
  {| plan_target := target;
     entries :=
       (λ rs : nat * ScoredTechnique,
          {| rank := rs.1;
             entry_technique_id := id rs.2.1;
             technique_name := name rs.2.1;
             entry_score := rs.2.2;
             rationale := _generate_rationale rs.2 target;
             entry_tags := tags rs.2.1;
             structured_rationale := None |}) <$> enumerate1 scored;
     generated_at := now;
     config_used := _config e |}.

(** [PrioritizerEngine.plan]; [max_techniques] is [None] or an integer,
    and truncates when it is truthy. *)
Definition plan (e : PrioritizerEngine) (now : Z) (target : TargetProfile)
    (registry : TechniqueRegistry)
    (prior_results : option (list EvaluationResult))
    (max_techniques : option Z) : AttackPlan :=
  let candidates := get_all registry in
  let filtered := _apply_hard_filters e candidates target in
  let scored := _score_techniques e filtered target prior_results in
  let scored := _apply_diversity_bonus e scored in
  let scored := sort_desc (λ s, total s.2) scored in
  let scored :=
    match max_techniques with
    | Some n => if (n =? 0)%Z then scored else slice_to n scored
    | None => scored
    end in
  _build_plan e now scored target.

End WithRuntime.

End Engine.

(** ** planner/diversity.py *)

Module Diversity.

(** [FamilyTracker]; [_surface_counts] is a [defaultdict(int)] keyed by the
    [Surface] member, which is its string value. *)
Record FamilyTracker := {
  min_surface_coverage : Z;
  untested_layer_bonus : float;
  repeat_family_penalty : float;
  below_coverage_bonus : float;
  _tried_families : gset string;
  _surface_counts : gmap string nat;
}.

(** [FamilyTracker(...)] with the keyword defaults of [__init__]. *)
Definition new (min_cov : option Z) (untested repeat below : option float)
  : FamilyTracker :=
  {| min_surface_coverage := default 1%Z min_cov;
     untested_layer_bonus := default 0.3%float untested;
     repeat_family_penalty := default 0.15%float repeat;
     below_coverage_bonus := default 0.15%float below;
     _tried_families := ∅;
     _surface_counts := ∅ |}.

(** [_get_family_key]: here a missing first tag reads ["none"]. *)
Definition _get_family_key (t : AttackTechnique) : string :=
  let primary_tag := match tags t with tag :: _ => tag | [] => "none" end in
  Domain_value (domain t) +:+ ":" +:+ Surface_value (surface t)
    +:+ ":" +:+ primary_tag.

Definition mark_tried (f : FamilyTracker) (t : AttackTechnique) : FamilyTracker :=
  let key := Surface_value (surface t) in
  {| min_surface_coverage := min_surface_coverage f;
     untested_layer_bonus := untested_layer_bonus f;
     repeat_family_penalty := repeat_family_penalty f;
     below_coverage_bonus := below_coverage_bonus f;
     _tried_families := {[ _get_family_key t ]} ∪ _tried_families f;
     _surface_counts :=
       <[key := S (default 0%nat (_surface_counts f !! key))]> (_surface_counts f) |}.

Definition compute_diversity_bonus (f : FamilyTracker) (t : AttackTechnique)
  : float :=
  let bonus := 0%float in
  let bonus :=
    match _surface_counts f !! Surface_value (surface t) with
    | None => (bonus + untested_layer_bonus f)%float
    | Some n =>
        if (Z.of_nat n <? min_surface_coverage f)%Z
        then (bonus + below_coverage_bonus f)%float
        else bonus
    end in
  if bool_decide (_get_family_key t ∈ _tried_families f)
  then (bonus - repeat_family_penalty f)%float
  else bonus.

End Diversity.

(** ** planner/cost_aware.py *)

Module CostAware.

(** A severity or criticality table, keyed by the member's string value. *)
Definition GOAL_SEVERITY : gmap string float :=
  list_to_map [
    (Goal_value EXFIL_SIM, 1.0); (Goal_value TOOL_MISUSE, 0.95);
    (Goal_value EXTRACTION, 0.9); (Goal_value JAILBREAK, 0.8);
    (Goal_value EVASION, 0.7); (Goal_value POISONING, 1.0);
    (Goal_value DOS, 0.6) ]%float.

Definition SURFACE_CRITICALITY : gmap string float :=
  list_to_map [
    (Surface_value ACTION, 0.95); (Surface_value DATA, 0.9);
    (Surface_value TOOL, 0.85); (Surface_value RETRIEVAL, 0.8);
    (Surface_value MODEL, 0.7); (Surface_value GUARDRAIL, 0.6) ]%float.

(** [d or fallback] for an optional dictionary: [None] and the empty
    dictionary are both falsy. *)
Definition dict_or (d : option (gmap string float)) (fallback : gmap string float)
  : gmap string float :=
  match d with
  | Some m => if bool_decide (dom m = (∅ : gset string)) then fallback else m
  | None => fallback
  end.

(** [compute_impact_weight]; the set of relevant goals is visited in the
    order of the target's goals. *)
Definition compute_impact_weight (t : AttackTechnique) (target_goals : list Goal)
    (goal_severity surface_criticality : option (gmap string float)) : float :=
  let goal_sev := dict_or goal_severity GOAL_SEVERITY in
  let surf_crit := dict_or surface_criticality SURFACE_CRITICALITY in
  let relevant_goals :=
    filter (λ g, g ∈ goals_supported t) (remove_dups target_goals) in
  let max_goal_sev :=
    match (λ g, default 0.5%float (goal_sev !! Goal_value g)) <$> relevant_goals with
    | [] => 0%float
    | v :: vs => foldl Py.max v vs
    end in
  let surf_weight := default 0.5%float (surf_crit !! Surface_value (surface t)) in
  (max_goal_sev * surf_weight)%float.

(** [compute_cost] *)
Definition compute_cost (t : AttackTechnique) (max_cost : float) : float :=
  Py.min (base_cost t / Py.max max_cost 0.01)%float 1%float.

(** [compute_utility] *)
Definition compute_utility (success_prob impact_weight cost cost_weight
    info_gain_bonus detection_penalty diversity_bonus : float) : float :=
  (success_prob * impact_weight
   + info_gain_bonus
   + diversity_bonus
   - detection_penalty
   - cost_weight * cost)%float.

End CostAware.

(** ** planner/reward.py *)

Module Reward.

(** [RewardPolicy]: an object with [compute_reward]. *)
Class RewardPolicy := compute_reward : EvaluationResult → option float.

Definition BinaryRewardPolicy : RewardPolicy :=
  λ evaluation,
    match success evaluation with
    | None => None
    | Some true => Some 1%float
    | Some false => Some 0%float
    end.

Definition WeightedRewardPolicy : RewardPolicy :=
  λ evaluation,
    match score evaluation with
    | Some s => Some (Py.max 0 (Py.min 1 s))
    | None =>
        match success evaluation with
        | None => None
        | Some true => Some 1%float
        | Some false => Some 0%float
        end
    end.

End Reward.

(** ** planner/adaptive.py *)

Module Adaptive.
Import PyList Filters CostAware Reward.

(** The [diversity_v2] section, passed as keyword arguments to
    [FamilyTracker]. *)
Record DiversityConfig := {
  cfg_min_surface_coverage : option Z;
  cfg_untested_layer_bonus : option float;
  cfg_repeat_family_penalty : option float;
  cfg_below_coverage_bonus : option float;
}.

(** The keys of the configuration file that [AdaptivePlanner.__init__] and
    [plan] read; [None] is an absent key. *)
Record PlannerConfig := {
  cfg_prior_strength : option float;
  cfg_info_gain_weight : option float;
  cfg_detection_penalty_weight : option float;
  cfg_cost_weight : option float;
  cfg_use_benchmark_priors : option bool;
  cfg_benchmark_blend_weight : option float;
  cfg_goal_severity : option (gmap string float);
  cfg_surface_criticality : option (gmap string float);
  cfg_correlation_enabled : option bool;
  cfg_spillover_rate : option float;
  cfg_diversity_v2 : option DiversityConfig;
  cfg_filters_max_cost : option float;
}.

Record AdaptivePlanner := {
  engine : Engine.PrioritizerEngine;
  reward_policy : RewardPolicy;
  campaign_seed : Z;
  prior_strength : float;
  info_gain_weight : float;
  detection_penalty_weight : float;
  cost_weight : float;
  use_benchmark_priors : bool;
  benchmark_blend_weight : float;
  goal_severity : gmap string float;
  surface_criticality : gmap string float;
  correlation : option Correlation.FamilyCorrelation;
  diversity_config : DiversityConfig;
  filters_max_cost : option float;
}.

Definition empty_diversity_config : DiversityConfig :=
  {| cfg_min_surface_coverage := None; cfg_untested_layer_bonus := None;
     cfg_repeat_family_penalty := None; cfg_below_coverage_bonus := None |}.

(** [AdaptivePlanner.__init__].  [campaign_seed or random.randint(0, 2**31 - 1)]
    keeps a seed that is truthy: [None] and [0] both draw a random one,
    [randint] being the draw the global generator would give. *)
Definition __init__ (config : PlannerConfig) (engine : Engine.PrioritizerEngine)
    (reward_policy : option RewardPolicy) (campaign_seed : option Z)
    (correlation : option Correlation.FamilyCorrelation) (randint : Z)
  : AdaptivePlanner :=
  {| engine := engine;
     reward_policy := default BinaryRewardPolicy reward_policy;
     campaign_seed :=
       match campaign_seed with
       | Some s => if (s =? 0)%Z then randint else s
       | None => randint
       end;
     prior_strength := default 3.0%float (cfg_prior_strength config);
     info_gain_weight := default 0.3%float (cfg_info_gain_weight config);
     detection_penalty_weight :=
       default 0.2%float (cfg_detection_penalty_weight config);
     cost_weight := default 0.4%float (cfg_cost_weight config);
     use_benchmark_priors := default true (cfg_use_benchmark_priors config);
     benchmark_blend_weight :=
       default 0.6%float (cfg_benchmark_blend_weight config);
     goal_severity := default ∅ (cfg_goal_severity config);
     surface_criticality := default ∅ (cfg_surface_criticality config);
     correlation :=
       match correlation with
       | Some c => Some c
       | None =>
           if default true (cfg_correlation_enabled config)
           then Some (Correlation.new
                        (default 0.3%float (cfg_spillover_rate config)))
           else None
       end;
     diversity_config := default empty_diversity_config (cfg_diversity_v2 config);
     filters_max_cost := cfg_filters_max_cost config |}.

Definition with_correlation (p : AdaptivePlanner)
    (c : option Correlation.FamilyCorrelation) : AdaptivePlanner :=
  {| engine := engine p;
     reward_policy := reward_policy p;
     campaign_seed := campaign_seed p;
     prior_strength := prior_strength p;
     info_gain_weight := info_gain_weight p;
     detection_penalty_weight := detection_penalty_weight p;
     cost_weight := cost_weight p;
     use_benchmark_priors := use_benchmark_priors p;
     benchmark_blend_weight := benchmark_blend_weight p;
     goal_severity := goal_severity p;
     surface_criticality := surface_criticality p;
     correlation := c;
     diversity_config := diversity_config p;
     filters_max_cost := filters_max_cost p |}.

(** A scored candidate: the dictionary [plan] builds for each technique. *)
Record Candidate := {
  c_technique : AttackTechnique;
  c_base_score : float;
  c_thompson_sample : float;
  c_impact : float;
  c_cost : float;
  c_info_gain : float;
  c_detection : float;
  c_diversity : float;
  c_repeat_penalty : float;
  c_utility : float;
  c_posterior : TechniquePosterior;
}.

(** [_compute_v1_base_score] *)
Definition _compute_v1_base_score (p : AdaptivePlanner) (t : AttackTechnique)
    (target : TargetProfile) (prior_results : list EvaluationResult) : float :=
  let breakdown := Engine.score_technique (engine p) t target (Some prior_results) in
  Engine.normalize_score (engine p) (total breakdown).

(** [_family_key] *)
Definition _family_key (t : AttackTechnique) : string :=
  let primary_tag :=
    match tags t with tag :: _ => tag | [] => Surface_value (surface t) end in
  Domain_value (domain t) +:+ ":" +:+ Surface_value (surface t)
    +:+ ":" +:+ primary_tag.

(** [_compute_blended_prior] *)
Definition _compute_blended_prior (p : AdaptivePlanner) (t : AttackTechnique)
    (base_score : float) : option float :=
  if negb (use_benchmark_priors p) then None
  else
    let family := _family_key t in
    let benchmark := Priors.get_benchmark_prior family in
    let w := benchmark_blend_weight p in
    Some (w * benchmark + (1 - w) * base_score)%float.

(** [_compute_info_gain]; [x ** 2] is the product [x * x]. *)
Definition _compute_info_gain (posterior : TechniquePosterior) : float :=
  let a := alpha posterior in
  let b := beta posterior in
  let variance := ((a * b) / (((a + b) * (a + b)) * (a + b + 1)))%float in
  Py.min (variance * 12)%float 1%float.

(** [_compute_detection_penalty] *)
Definition _compute_detection_penalty (t : AttackTechnique) : float :=
  match stealth_profile t with
  | OVERT => 0.5%float
  | MODERATE => 0.2%float
  | COVERT => 0%float
  end.

(** [_beta_ci] with [z = 1.96] *)
Definition _beta_ci (a b : float) : float * float :=
  let z := 1.96%float in
  let total := (a + b)%float in
  let mean := (a / total)%float in
  let variance := ((a * b) / ((total * total) * (total + 1)))%float in
  let std := PrimFloat.sqrt variance in
  let lo := Py.max 0 (mean - z * std)%float in
  let hi := Py.min 1 (mean + z * std)%float in
  (lo, hi).

(** [_extract_key_factors] *)
Definition _extract_key_factors (c : Candidate) : list string :=
  (if (0.2 <? c_diversity c)%float then ["targets untested attack surface"] else [])
  ++ (if (0.15 <? c_info_gain c)%float
      then ["high information gain (uncertain outcome)"] else [])
  ++ (if (c_cost c <? 0.3)%float then ["low execution cost"] else [])
  ++ (if (0.7 <? c_cost c)%float then ["high execution cost"] else [])
  ++ (if (0.7 <? c_thompson_sample c)%float
      then ["high estimated success probability"] else [])
  ++ (if (c_thompson_sample c <? 0.3)%float
      then ["low estimated success probability"] else [])
  ++ (if (0 <? c_repeat_penalty c)%float
      then ["repeat technique (penalty applied)"] else []).

(** [tried_ids]: the technique ids of the prior results. *)
Definition tried_ids (prior_results : list EvaluationResult) : gset string :=
  list_to_set (comparability_technique_id <$> prior_results).

Definition or_None (m : gmap string float) : option (gmap string float) :=
  if bool_decide (dom m = (∅ : gset string)) then None else Some m.

Section WithRuntime.
Context `{Runtime}.

(** [_derive_step_seed] *)
Definition _derive_step_seed (p : AdaptivePlanner) (step_number : Z) : Z :=
  let seed_str := pretty (campaign_seed p) +:+ ":" +:+ pretty step_number in
  sha256_hex8 seed_str.

(** [_build_rationale] *)
Definition _build_rationale (c : Candidate) (target : TargetProfile) : string :=
  let thompson := c_thompson_sample c in
  let observations := observations (c_posterior c) in
  let parts :=
    [ if (observations =? 0)%nat
      then "sampled p=" +:+ fmt_2f thompson +:+ " from prior"
      else "sampled p=" +:+ fmt_2f thompson +:+ " (" +:+ pretty observations
           +:+ " obs)" ]
    ++ [ "utility=" +:+ fmt_2f (c_utility c) ]
    ++ (if (0.2 <? c_diversity c)%float then ["untested surface"] else [])
    ++ (if (0 <? c_repeat_penalty c)%float then ["repeat penalty applied"] else [])
    ++ (if (0.2 <? c_info_gain c)%float then ["high info gain"] else []) in
  join "; " parts.

(** The state the scoring loop of [plan] threads: the generator, the
    posterior state, the candidates appended so far. *)
Definition LoopState : Type := rng * PosteriorState * list Candidate.

(** One round of the scoring loop of [plan]. *)
Definition score_candidate (p : AdaptivePlanner) (target : TargetProfile)
    (prior_results : list EvaluationResult) (exclude_tried : bool)
    (repeat_penalty : float) (family_tracker : Diversity.FamilyTracker)
    (info_gain_weight cost_weight max_cost : float)
    (st : LoopState) (technique : AttackTechnique) : LoopState :=
  let '(g, posterior_state, scored_candidates) := st in
  let tried := tried_ids prior_results in
  if exclude_tried && bool_decide (id technique ∈ tried) then st
  else
    let base_score := _compute_v1_base_score p technique target prior_results in
    let blended_prior := _compute_blended_prior p technique base_score in
    let '(posterior, posterior_state) :=
      get_or_init posterior_state (id technique) base_score blended_prior in
    let '(thompson_sample, g) := betavariate g (alpha posterior) (beta posterior) in
    let impact :=
      compute_impact_weight technique (goals target)
        (or_None (goal_severity p)) (or_None (surface_criticality p)) in
    let cost := compute_cost technique max_cost in
    let info_gain := (_compute_info_gain posterior * info_gain_weight)%float in
    let detection :=
      (_compute_detection_penalty technique * detection_penalty_weight p)%float in
    let diversity := Diversity.compute_diversity_bonus family_tracker technique in
    let repeat_pen :=
      if bool_decide (id technique ∈ tried) then repeat_penalty else 0%float in
    let utility :=
      (compute_utility thompson_sample impact cost cost_weight info_gain
         detection diversity - repeat_pen)%float in
    (g, posterior_state,
     scored_candidates ++
     [ {| c_technique := technique;
          c_base_score := base_score;
          c_thompson_sample := thompson_sample;
          c_impact := impact;
          c_cost := cost;
          c_info_gain := info_gain;
          c_detection := detection;
          c_diversity := diversity;
          c_repeat_penalty := repeat_pen;
          c_utility := utility;
          c_posterior := posterior |} ]).

(** The plan entry built for one ranked candidate. *)
Definition build_entry (p : AdaptivePlanner) (target : TargetProfile)
    (posterior_state : PosteriorState) (rc : nat * Candidate) : PlanEntry :=
  let '(rank, candidate) := rc in
  let technique := c_technique candidate in
  let posterior := c_posterior candidate in
  let rationale := _build_rationale candidate target in
  let ci := _beta_ci (alpha posterior) (beta posterior) in
  let variance :=
    ((alpha posterior * beta posterior)
     / (((alpha posterior + beta posterior) * (alpha posterior + beta posterior))
        * (alpha posterior + beta posterior + 1)))%float in
  let score_breakdown :=
    {| compatibility := 0; access_fit := 0; goal_fit := 0;
       defense_bypass_likelihood := 0; signal_gain := 0;
       cost_penalty := c_cost candidate;
       detection_risk_penalty := c_detection candidate;
       diversity_bonus := c_diversity candidate;
       thompson_sample := Some (c_thompson_sample candidate);
       utility := Some (c_utility candidate);
       total := c_base_score candidate;
       confidence_interval := Some ci;
       posterior_variance := Some variance;
       sb_observations := observations posterior |} in
  let family := _family_key technique in
  let siblings_observed :=
    match correlation p with
    | Some c =>
        foldl
          (λ acc sib_id,
             match posteriors posterior_state !! sib_id with
             | Some sp => (acc + observations sp)%nat
             | None => acc
             end)
          0%nat (elements (Correlation.get_siblings c (id technique)))
    | None => 0%nat
    end in
  let structured :=
    {| prior_source :=
         if use_benchmark_priors p then "benchmark" else "v1_heuristic";
       prior_asr := c_base_score candidate;
       sr_observations := observations posterior;
       posterior_mean := mean posterior;
       sr_confidence_interval := [ci.1; ci.2];
       family := family;
       siblings_observed := siblings_observed;
       key_factors := _extract_key_factors candidate |} in
  {| rank := rank;
     entry_technique_id := id technique;
     technique_name := name technique;
     entry_score := score_breakdown;
     rationale := rationale;
     entry_tags := tags technique;
     structured_rationale := Some structured |}.

(** [AdaptivePlanner.plan].  The posterior state is updated in place and
    returned; the planner's correlation index is rebuilt in place, so the
    planner after the call is returned as well.  [now] is the clock
    reading stamped on the plan. *)
Definition plan (p : AdaptivePlanner) (now : Z) (target : TargetProfile)
    (registry : TechniqueRegistry) (posterior_state : option PosteriorState)
    (prior_results : option (list EvaluationResult)) (max_techniques : Z)
    (exclude_tried : bool) (repeat_penalty : float)
    (family_tracker : option Diversity.FamilyTracker) (step_number : Z)
    (campaign_phase : CampaignPhase)
  : AttackPlan * PosteriorState * AdaptivePlanner :=
  let posterior_state :=
    default {| posteriors := ∅; Posterior.prior_strength := prior_strength p |}
            posterior_state in
  let family_tracker :=
    default (Diversity.new
               (cfg_min_surface_coverage (diversity_config p))
               (cfg_untested_layer_bonus (diversity_config p))
               (cfg_repeat_family_penalty (diversity_config p))
               (cfg_below_coverage_bonus (diversity_config p)))
            family_tracker in
  let prior_results := default [] prior_results in
  let step_seed := _derive_step_seed p step_number in
  let g := Random step_seed in
  let '(info_gain_weight, cost_weight) :=
    match campaign_phase with
    | PROBE => ((info_gain_weight p * 1.5)%float, (cost_weight p * 0.7)%float)
    | EXPLOIT => ((info_gain_weight p * 0.3)%float, (cost_weight p * 1.2)%float)
    end in
  let all_techniques := get_all registry in
  let p' :=
    with_correlation p
      ((λ c, Correlation.register_techniques c all_techniques) <$> correlation p) in
  let max_cost := default 1.0%float (filters_max_cost p) in
  let filtered :=
    filter (λ t, passes_all_filters t target = true
                 ∧ (base_cost t <=? max_cost)%float = true) all_techniques in
  let '(_, posterior_state, scored_candidates) :=
    foldl (score_candidate p' target prior_results exclude_tried repeat_penalty
             family_tracker info_gain_weight cost_weight max_cost)
          (g, posterior_state, []) filtered in
  let scored_candidates := sort_desc c_utility scored_candidates in
  let entries :=
    build_entry p' target posterior_state
      <$> enumerate1 (slice_to max_techniques scored_candidates) in
  let plan :=
    {| plan_target := target;
       entries := entries;
       generated_at := now;
       config_used :=
         list_to_map [
           ("adaptive", VBool true);
           ("step_number", VInt step_number);
           ("step_seed", VInt step_seed);
           ("prior_strength", VFloat (prior_strength p));
           ("cost_weight", VFloat (Adaptive.cost_weight p));
           ("exclude_tried", VBool exclude_tried);
           ("repeat_penalty", VFloat repeat_penalty);
           ("campaign_phase", VStr (CampaignPhase_value campaign_phase)) ] |} in
  (plan, posterior_state, p').

(** One round of the loop of [update_posteriors]: the posterior state so
    far, and the exception once one was raised.  A reward outside [0, 1]
    raises from [posterior.update], after [get_or_init] has run. *)
Definition update_one (p : AdaptivePlanner) (registry : TechniqueRegistry)
    (target : TargetProfile) (acc : PosteriorState * option Py.exn)
    (evaluation : EvaluationResult) : PosteriorState * option Py.exn :=
  match acc with
  | (posterior_state, Some e) => (posterior_state, Some e)
  | (posterior_state, None) =>
      let technique_id := comparability_technique_id evaluation in
      if bool_decide (technique_id = "") then (posterior_state, None)
      else
        match compute_reward (RewardPolicy := reward_policy p) evaluation with
        | None => (posterior_state, None)
        | Some reward =>
            match Registry.get registry technique_id with
            | None => (posterior_state, None)
            | Some technique =>
                let base_score := _compute_v1_base_score p technique target [] in
                let blended_prior :=
                  _compute_blended_prior p technique base_score in
                let '(posterior, posterior_state) :=
                  get_or_init posterior_state technique_id base_score
                    blended_prior in
                match update posterior reward with
                | Py.Raise e => (posterior_state, Some e)
                | Py.Ok posterior' =>
                    let posterior_state :=
                      with_posteriors posterior_state
                        (<[technique_id := posterior']>
                           (posteriors posterior_state)) in
                    (match correlation p with
                     | Some c =>
                         Correlation.propagate_update c technique_id reward
                           posterior_state
                     | None => posterior_state
                     end, None)
                end
            end
        end
  end.

(** [update_posteriors] *)
Definition update_posteriors (p : AdaptivePlanner)
    (posterior_state : PosteriorState) (results : list EvaluationResult)
    (registry : TechniqueRegistry) (target : TargetProfile)
  : PosteriorState * option Py.exn :=
  foldl (update_one p registry target) (posterior_state, None) results.

End WithRuntime.

End Adaptive.

(** ** models/campaign.py *)

Module Camp.

Record CampaignState := {
  attempts : list AttemptResult;
  evaluations : list EvaluationResult;
  techniques_tried : list string;
  queries_used : nat;
  last_updated : Z;
}.

(** [Campaign]; [metadata] is the dictionary holding ["adaptive"],
    ["campaign_seed"] and ["target_profile_hash"]. *)
Record Campaign := {
  id : string;
  name : string;
  status : CampaignStatus;
  phase : CampaignPhase;
  target : TargetProfile;
  plan : option AttackPlan;
  state : CampaignState;
  posterior_state : option PosteriorState;
  metadata : gmap string ConfigValue;
}.

Definition empty_state (now : Z) : CampaignState :=
  {| attempts := []; evaluations := []; techniques_tried := [];
     queries_used := 0; last_updated := now |}.

Definition set_phase (c : Campaign) (ph : CampaignPhase) : Campaign :=
  {| id := id c; name := name c; status := status c; phase := ph;
     target := target c; plan := plan c; state := state c;
     posterior_state := posterior_state c; metadata := metadata c |}.

Definition set_status (c : Campaign) (s : CampaignStatus) : Campaign :=
  {| id := id c; name := name c; status := s; phase := phase c;
     target := target c; plan := plan c; state := state c;
     posterior_state := posterior_state c; metadata := metadata c |}.

Definition set_plan (c : Campaign) (p : option AttackPlan) : Campaign :=
  {| id := id c; name := name c; status := status c; phase := phase c;
     target := target c; plan := p; state := state c;
     posterior_state := posterior_state c; metadata := metadata c |}.

Definition set_state (c : Campaign) (s : CampaignState) : Campaign :=
  {| id := id c; name := name c; status := status c; phase := phase c;
     target := target c; plan := plan c; state := s;
     posterior_state := posterior_state c; metadata := metadata c |}.

Definition set_posterior_state (c : Campaign) (ps : option PosteriorState)
  : Campaign :=
  {| id := id c; name := name c; status := status c; phase := phase c;
     target := target c; plan := plan c; state := state c;
     posterior_state := ps; metadata := metadata c |}.

End Camp.

(** Truthiness of a configuration value. *)
Definition truthy (v : ConfigValue) : bool :=
  match v with
  | VBool b => b
  | VInt z => negb (z =? 0)%Z
  | VFloat f => negb (f =? 0)%float
  | VStr s => negb (bool_decide (s = ""))
  end.

(** ** replay/snapshot.py *)

Module Snapshot.

(** [DecisionSnapshot]; [produced_plan_entries] holds the dumped plan
    entries, field for field.  The scoring-input dictionaries, which the
    manager leaves empty, are left out. *)
Record DecisionSnapshot := {
  snapshot_id : string;
  campaign_id : string;
  step_number : Z;
  timestamp : Z;
  step_seed : Z;
  techniques_tried : list string;
  evaluation_count : nat;
  queries_used : nat;
  posterior_state : PosteriorState;
  planner_config : gmap string ConfigValue;
  produced_plan_entries : list PlanEntry;
}.

Definition set_snapshot_id (s : DecisionSnapshot) (sid : string) : DecisionSnapshot :=
  {| snapshot_id := sid; campaign_id := campaign_id s;
     step_number := step_number s; timestamp := timestamp s;
     step_seed := step_seed s; techniques_tried := techniques_tried s;
     evaluation_count := evaluation_count s; queries_used := queries_used s;
     posterior_state := posterior_state s; planner_config := planner_config s;
     produced_plan_entries := produced_plan_entries s |}.

End Snapshot.

(** ** The file system the persistence code writes to

    A file holds the document that was serialized into it; JSON
    serialization followed by validation gives the document back.  Paths are
    strings; every operation performed is appended to [log]. *)

Module FS.

Inductive Doc :=
  | CampaignDoc (c : Camp.Campaign)
  | SnapshotDoc (s : Snapshot.DecisionSnapshot).

Inductive Op :=
  | Mkdir (path : string)
  | Exists (path : string)
  | ReadText (path : string)
  | WriteText (path : string)
  | Replace (src dst : string)
  | Glob (dir pattern : string)
  | Unlink (path : string).

Record t := {
  files : gmap string Doc;
  dirs : gset string;
  log : list Op;
}.

Definition empty : t := {| files := ∅; dirs := ∅; log := [] |}.

(** [a / b]: a component that is an absolute path replaces what precedes
    it.  Not modelled: pathlib drops redundant separators and the
    components [.] and the empty one, so that [Path(a) / "."] is [a].  The
    components built from a validated campaign identifier are of neither
    kind. *)
Definition join (a b : string) : string :=
  match b with
  | String c _ => if bool_decide (c = "/"%char) then b else a +:+ "/" +:+ b
  | EmptyString => a +:+ "/" +:+ b
  end.

Definition exists_ (fs : t) (path : string) : bool * t :=
  (bool_decide (is_Some (files fs !! path)) || bool_decide (path ∈ dirs fs),
   {| files := files fs; dirs := dirs fs; log := log fs ++ [Exists path] |}).

Definition mkdir (fs : t) (path : string) : t :=
  {| files := files fs; dirs := {[ path ]} ∪ dirs fs;
     log := log fs ++ [Mkdir path] |}.

Definition write_text (fs : t) (path : string) (d : Doc) : t :=
  {| files := <[path := d]> (files fs); dirs := dirs fs;
     log := log fs ++ [WriteText path] |}.

Definition read_text (fs : t) (path : string) : option Doc * t :=
  (files fs !! path,
   {| files := files fs; dirs := dirs fs; log := log fs ++ [ReadText path] |}).

(** [src.replace(dst)] for an existing file [src]. *)
Definition replace (fs : t) (src dst : string) : t :=
  {| files :=
       match files fs !! src with
       | Some d => <[dst := d]> (delete src (files fs))
       | None => files fs
       end;
     dirs := dirs fs;
     log := log fs ++ [Replace src dst] |}.

Definition unlink (fs : t) (path : string) : t :=
  {| files := delete path (files fs); dirs := dirs fs;
     log := log fs ++ [Unlink path] |}.

End FS.

(** ** Campaign identifiers (campaign/manager.py) *)

Module CampaignId.

(** A character of the class [[a-zA-Z0-9_-]]. *)
Definition safe_char (c : ascii) : bool :=
  let n := nat_of_ascii c in
  ((97 <=? n) && (n <=? 122) || (65 <=? n) && (n <=? 90)
   || (48 <=? n) && (n <=? 57) || (n =? 95) || (n =? 45))%nat.

Definition newline : ascii := ascii_of_nat 10.

(** What remains to match after the first class character: more class
    characters, then [$], which holds at the end of the string and also just
    before a newline that ends it. *)
Fixpoint match_rest (s : string) : bool :=
  match s with
  | EmptyString => true
  | String c rest =>
      if safe_char c then match_rest rest
      else bool_decide (c = newline) && bool_decide (rest = EmptyString)
  end.

(** [_SAFE_ID_RE.match(s)] for [^[a-zA-Z0-9_-]+$]. *)
Definition _SAFE_ID_RE_match (s : string) : bool :=
  match s with
  | EmptyString => false
  | String c rest => safe_char c && match_rest rest
  end.

(** [_validate_campaign_id] *)
Definition _validate_campaign_id (campaign_id : string) : Py.result unit :=
  if bool_decide (campaign_id = "") || negb (_SAFE_ID_RE_match campaign_id)
  then Py.Raise (Py.ValueError
         ("Invalid campaign_id '" +:+ campaign_id
          +:+ "': must be alphanumeric, hyphens, underscores only"))
  else Py.Ok tt.

End CampaignId.

(** ** replay/recorder.py *)

Module Recorder.
Import Snapshot.

Record SnapshotRecorder := {
  storage_dir : string;
}.

(** [f"{n:04d}"] *)
Definition fmt_04d (n : Z) : string :=
  let pad (w : nat) (s : string) : string :=
    String.concat "" (replicate (w - String.length s) "0") +:+ s in
  if (n <? 0)%Z then "-" +:+ pad 3%nat (pretty (- n)%Z) else pad 4%nat (pretty n).

Definition snapshot_dir (r : SnapshotRecorder) (campaign_id : string) : string :=
  FS.join (FS.join (storage_dir r) campaign_id) "snapshots".

Definition snapshot_path (r : SnapshotRecorder) (campaign_id : string)
    (step_number : Z) : string :=
  FS.join (snapshot_dir r campaign_id) ("step_" +:+ fmt_04d step_number +:+ ".json").

(** [SnapshotRecorder.record]; [uuid] is [uuid.uuid4().hex[:12]]. *)
Definition record (r : SnapshotRecorder) (campaign_id : string) (step_number : Z)
    (snapshot : DecisionSnapshot) (uuid : string) (fs : FS.t)
  : string * DecisionSnapshot * FS.t :=
  let fs := FS.mkdir fs (snapshot_dir r campaign_id) in
  let snapshot :=
    if bool_decide (snapshot_id snapshot = "")
    then set_snapshot_id snapshot uuid else snapshot in
  let path := snapshot_path r campaign_id step_number in
  let fs := FS.write_text fs path (FS.SnapshotDoc snapshot) in
  (path, snapshot, fs).

(** [SnapshotRecorder.load]; a file that does not hold a snapshot fails
    validation. *)
Definition load (r : SnapshotRecorder) (campaign_id : string) (step_number : Z)
    (fs : FS.t) : Py.result (option DecisionSnapshot) * FS.t :=
  let path := snapshot_path r campaign_id step_number in
  let '(found, fs) := FS.exists_ fs path in
  if negb found then (Py.Ok None, fs)
  else
    let '(doc, fs) := FS.read_text fs path in
    match doc with
    | Some (FS.SnapshotDoc s) => (Py.Ok (Some s), fs)
    | Some (FS.CampaignDoc _) => (Py.Raise (Py.ValidationError "DecisionSnapshot"), fs)
    | None => (Py.Raise (Py.OSError "IsADirectoryError"), fs)
    end.

(** [s.endswith(suffix)] *)
Definition ends_with (suffix s : string) : bool :=
  let n := String.length s in
  let k := String.length suffix in
  (k <=? n)%nat && bool_decide (String.substring (n - k) k s = suffix).

(** [s.split("_")[1]] for a string with at least one underscore. *)
Fixpoint until_underscore (s : string) : string :=
  match s with
  | EmptyString => EmptyString
  | String c rest =>
      if bool_decide (c = "_"%char) then EmptyString
      else String c (until_underscore rest)
  end.

Fixpoint after_underscore (s : string) : option string :=
  match s with
  | EmptyString => None
  | String c rest =>
      if bool_decide (c = "_"%char) then Some rest else after_underscore rest
  end.

(** The name of a file directly inside [dir] that matches [step_*.json]. *)
Definition step_file_name (dir path : string) : option string :=
  let prefix := dir +:+ "/" in
  if String.prefix prefix path then
    let name :=
      String.substring (String.length prefix)
        (String.length path - String.length prefix) path in
    if String.prefix "step_" name && ends_with ".json" name
       && (10 <=? String.length name)%nat
       && negb (existsb (λ c, bool_decide (c = "/"%char)) (list_ascii_of_string name))
    then Some name else None
  else None.

Section WithRuntime.
Context `{Runtime}.

(** [SnapshotRecorder.list_snapshots] *)
Definition list_snapshots (r : SnapshotRecorder) (campaign_id : string)
    (fs : FS.t) : list Z * FS.t :=
  let dir := snapshot_dir r campaign_id in
  let '(found, fs) := FS.exists_ fs dir in
  if negb found then ([], fs)
  else
    let fs := {| FS.files := FS.files fs; FS.dirs := FS.dirs fs;
                 FS.log := FS.log fs ++ [FS.Glob dir "step_*.json"] |} in
    let names := omap (step_file_name dir) (map_to_list (FS.files fs)).*1 in
    let step_numbers :=
      omap (λ name,
              let stem := String.substring 0 (String.length name - 5) name in
              after_underscore stem ≫= λ rest, py_int (until_underscore rest))
           names in
    (merge_sort Z.le step_numbers, fs).

End WithRuntime.

(** [SnapshotRecorder.delete_snapshot] *)
Definition delete_snapshot (r : SnapshotRecorder) (campaign_id : string)
    (step_number : Z) (fs : FS.t) : bool * FS.t :=
  let path := snapshot_path r campaign_id step_number in
  let '(found, fs) := FS.exists_ fs path in
  if negb found then (false, fs) else (true, FS.unlink fs path).

End Recorder.

(** ** campaign/manager.py *)

Module Manager.
Import Adaptive CampaignId.

Record CampaignManager := {
  _registry : TechniqueRegistry;
  _engine : Engine.PrioritizerEngine;
  _adaptive_planner : option AdaptivePlanner;
  _storage_dir : option string;
  _recorder : option Recorder.SnapshotRecorder;
  _campaigns : gmap string Camp.Campaign;
  _step_counters : gmap string Z;
}.

(** [CampaignManager(registry, engine, adaptive_planner, storage_dir)] for a
    loaded registry. *)
Definition __init__ (registry : TechniqueRegistry)
    (engine : Engine.PrioritizerEngine) (adaptive_planner : option AdaptivePlanner)
    (storage_dir : option string) : CampaignManager :=
  {| _registry := registry;
     _engine := engine;
     _adaptive_planner := adaptive_planner;
     _storage_dir := storage_dir;
     _recorder := (λ d, {| Recorder.storage_dir := d |}) <$> storage_dir;
     _campaigns := ∅;
     _step_counters := ∅ |}.

Definition set_campaign (m : CampaignManager) (key : string) (c : Camp.Campaign)
  : CampaignManager :=
  {| _registry := _registry m; _engine := _engine m;
     _adaptive_planner := _adaptive_planner m; _storage_dir := _storage_dir m;
     _recorder := _recorder m;
     _campaigns := <[key := c]> (_campaigns m);
     _step_counters := _step_counters m |}.

Definition set_counter (m : CampaignManager) (key : string) (n : Z)
  : CampaignManager :=
  {| _registry := _registry m; _engine := _engine m;
     _adaptive_planner := _adaptive_planner m; _storage_dir := _storage_dir m;
     _recorder := _recorder m;
     _campaigns := _campaigns m;
     _step_counters := <[key := n]> (_step_counters m) |}.

Definition set_planner (m : CampaignManager) (p : option AdaptivePlanner)
  : CampaignManager :=
  {| _registry := _registry m; _engine := _engine m;
     _adaptive_planner := p; _storage_dir := _storage_dir m;
     _recorder := _recorder m;
     _campaigns := _campaigns m;
     _step_counters := _step_counters m |}.

(** What a method leaves behind: its result or exception, the manager and
    the file system after it. *)
Definition Outcome (A : Type) : Type := Py.result A * CampaignManager * FS.t.

Definition campaign_path (dir campaign_id : string) : string :=
  FS.join dir (campaign_id +:+ ".json").

(** [_save]: the temporary file is written and renamed over the campaign
    file. *)
Definition _save (m : CampaignManager) (campaign : Camp.Campaign) (fs : FS.t)
  : Outcome unit :=
  match _validate_campaign_id (Camp.id campaign) with
  | Py.Raise e => (Py.Raise e, m, fs)
  | Py.Ok _ =>
      let m := set_campaign m (Camp.id campaign) campaign in
      match _storage_dir m with
      | None => (Py.Ok tt, m, fs)
      | Some dir =>
          let fs := FS.mkdir fs dir in
          let path := campaign_path dir (Camp.id campaign) in
          let tmp_path := path +:+ ".tmp" in
          let fs := FS.write_text fs tmp_path (FS.CampaignDoc campaign) in
          let fs := FS.replace fs tmp_path path in
          (Py.Ok tt, m, fs)
      end
  end.

(** [_load] *)
Definition _load (m : CampaignManager) (campaign_id : string) (fs : FS.t)
  : Outcome (option Camp.Campaign) :=
  match _validate_campaign_id campaign_id with
  | Py.Raise e => (Py.Raise e, m, fs)
  | Py.Ok _ =>
      match _storage_dir m with
      | None => (Py.Ok None, m, fs)
      | Some dir =>
          let path := campaign_path dir campaign_id in
          let '(found, fs) := FS.exists_ fs path in
          if negb found then (Py.Ok None, m, fs)
          else
            let '(doc, fs) := FS.read_text fs path in
            match doc with
            | Some (FS.CampaignDoc campaign) =>
                (Py.Ok (Some campaign), set_campaign m campaign_id campaign, fs)
            | Some (FS.SnapshotDoc _) =>
                (Py.Raise (Py.ValidationError "Campaign"), m, fs)
            | None => (Py.Ok None, m, fs)
            end
      end
  end.

(** [get] *)
Definition get (m : CampaignManager) (campaign_id : string) (fs : FS.t)
  : Outcome (option Camp.Campaign) :=
  match _campaigns m !! campaign_id with
  | Some c => (Py.Ok (Some c), m, fs)
  | None => _load m campaign_id fs
  end.

(** The surfaces of the tried techniques that the registry knows. *)
Definition tested_surfaces (m : CampaignManager) (campaign : Camp.Campaign)
  : list Surface :=
  remove_dups
    (omap (λ tech_id, surface <$> Registry.get (_registry m) tech_id)
          (Camp.techniques_tried (Camp.state campaign))).

(** [_should_transition] *)
Definition _should_transition (m : CampaignManager) (campaign : Camp.Campaign)
  : bool :=
  if negb (bool_decide (Camp.phase campaign = PROBE)) then false
  else
    let step := default 0%Z (_step_counters m !! Camp.id campaign) in
    if (3 <=? step)%Z then true
    else
      let total_surfaces := length all_Surface in
      (0.6 <=? Py.float_of_nat (length (tested_surfaces m campaign))
               / Py.float_of_nat (Nat.max total_surfaces 1))%float.

(** [str(v)] for a metadata value. *)
Definition cv_str `{Runtime} (v : ConfigValue) : string :=
  match v with
  | VInt z => pretty z
  | VStr s => s
  | VBool true => "True"
  | VBool false => "False"
  | VFloat f => float_str f
  end.

(** The family tracker rebuilt from the tried techniques. *)
Definition rebuild_tracker (registry : TechniqueRegistry) (tried : list string)
  : Diversity.FamilyTracker :=
  foldl
    (λ tracker tech_id,
       match Registry.get registry tech_id with
       | Some technique => Diversity.mark_tried tracker technique
       | None => tracker
       end)
    (Diversity.new None None None None) tried.

Section WithRuntime.
Context `{Runtime}.

(** [_record_snapshot]; [uuid] and [now] are the identifier and the clock
    reading the recorder and the snapshot draw. *)
Definition _record_snapshot (m : CampaignManager) (campaign : Camp.Campaign)
    (step_number : Z) (plan : AttackPlan) (uuid : string) (now : Z) (fs : FS.t)
  : FS.t :=
  match _recorder m, Camp.posterior_state campaign with
  | Some recorder, Some posterior_state =>
      let campaign_seed :=
        default (VInt 0) (Camp.metadata campaign !! "campaign_seed") in
      let step_seed :=
        (str_hash (cv_str campaign_seed +:+ ":" +:+ pretty step_number)
         `mod` 2 ^ 31)%Z in
      let snapshot :=
        {| Snapshot.snapshot_id := "";
           Snapshot.campaign_id := Camp.id campaign;
           Snapshot.step_number := step_number;
           Snapshot.timestamp := now;
           Snapshot.step_seed := step_seed;
           Snapshot.techniques_tried :=
             Camp.techniques_tried (Camp.state campaign);
           Snapshot.evaluation_count :=
             length (Camp.evaluations (Camp.state campaign));
           Snapshot.queries_used := Camp.queries_used (Camp.state campaign);
           Snapshot.posterior_state := posterior_state;
           Snapshot.planner_config := config_used plan;
           Snapshot.produced_plan_entries := entries plan |} in
      (Recorder.record recorder (Camp.id campaign) step_number snapshot uuid fs).2
  | _, _ => fs
  end.

(** [create]; [uuid] is [uuid.uuid4().hex[:12]] and [randint] the draw of
    [random.randint(0, 2**31 - 1)]. *)
Definition create (m : CampaignManager) (target : TargetProfile)
    (name : string) (auto_plan adaptive : bool) (campaign_seed : option Z)
    (uuid : string) (randint now : Z) (fs : FS.t) : Outcome Camp.Campaign :=
  let campaign_id := uuid in
  let target_hash := hash_target_profile target in
  let campaign_seed :=
    match campaign_seed with
    | None => if adaptive then Some randint else None
    | Some s => Some s
    end in
  let metadata : gmap string ConfigValue :=
    let md := <["adaptive" := VBool adaptive]>
                {[ "target_profile_hash" := VStr target_hash ]} in
    match campaign_seed with
    | Some s => <["campaign_seed" := VInt s]> md
    | None => md
    end in
  let posterior_state :=
    if adaptive
    then Some {| posteriors := ∅; Posterior.prior_strength := 8.0%float |}
    else None in
  let campaign :=
    {| Camp.id := campaign_id;
       Camp.name :=
         if bool_decide (name = "") then "campaign-" +:+ campaign_id else name;
       Camp.status := PLANNING;
       Camp.phase := PROBE;
       Camp.target := target;
       Camp.plan := None;
       Camp.state := Camp.empty_state now;
       Camp.posterior_state := posterior_state;
       Camp.metadata := metadata |} in
  let '(campaign, m) :=
    if auto_plan then
      match adaptive, _adaptive_planner m with
      | true, Some planner =>
          let '(plan, updated_posterior, planner) :=
            Adaptive.plan planner now target (_registry m)
              (Camp.posterior_state campaign) None 10 false 0%float None 0 PROBE in
          (Camp.set_status
             (Camp.set_posterior_state (Camp.set_plan campaign (Some plan))
                (Some updated_posterior)) ACTIVE,
           set_planner m (Some planner))
      | _, _ =>
          let plan := Engine.plan (_engine m) now target (_registry m) None None in
          (Camp.set_status (Camp.set_plan campaign (Some plan)) ACTIVE, m)
      end
    else (campaign, m) in
  let m := set_counter (set_campaign m campaign_id campaign) campaign_id 0 in
  match _save m campaign fs with
  | (Py.Raise e, m, fs) => (Py.Raise e, m, fs)
  | (Py.Ok _, m, fs) => (Py.Ok campaign, m, fs)
  end.

(** The body of [ingest_results] once [get] has found the campaign.  The
    new technique ids are appended in the order of their first attempt.  An
    exception of the posterior update leaves the campaign with the results
    appended and its posterior state as the update left it. *)
Definition ingest_found (m : CampaignManager) (campaign : Camp.Campaign)
    (campaign_id : string) (attempts : list AttemptResult)
    (evaluations : list EvaluationResult) (now : Z) (fs : FS.t)
  : Outcome Camp.Campaign :=
  let st := Camp.state campaign in
  let new_technique_ids := remove_dups (attempt_technique_id <$> attempts) in
  let tried :=
    foldl (λ tried tid,
             if bool_decide (tid ∈ tried) then tried else tried ++ [tid])
          (Camp.techniques_tried st) new_technique_ids in
  let st :=
    {| Camp.attempts := Camp.attempts st ++ attempts;
       Camp.evaluations := Camp.evaluations st ++ evaluations;
       Camp.techniques_tried := tried;
       Camp.queries_used := Camp.queries_used st + length attempts;
       Camp.last_updated := now |} in
  let campaign := Camp.set_state campaign st in
  let is_adaptive :=
    truthy (default (VBool false) (Camp.metadata campaign !! "adaptive")) in
  let '(campaign, raised) :=
    match is_adaptive, _adaptive_planner m, Camp.posterior_state campaign with
    | true, Some planner, Some posterior_state =>
        let '(posterior_state, raised) :=
          update_posteriors planner posterior_state evaluations
            (_registry m) (Camp.target campaign) in
        (Camp.set_posterior_state campaign (Some posterior_state), raised)
    | _, _, _ => (campaign, None)
    end in
  let m := set_campaign m campaign_id campaign in
  match raised with
  | Some e => (Py.Raise e, m, fs)
  | None =>
      match _save m campaign fs with
      | (Py.Raise e, m, fs) => (Py.Raise e, m, fs)
      | (Py.Ok _, m, fs) => (Py.Ok campaign, m, fs)
      end
  end.

(** [ingest_results] *)
Definition ingest_results (m : CampaignManager) (campaign_id : string)
    (attempts : list AttemptResult) (evaluations : list EvaluationResult)
    (now : Z) (fs : FS.t) : Outcome Camp.Campaign :=
  match get m campaign_id fs with
  | (Py.Raise e, m, fs) => (Py.Raise e, m, fs)
  | (Py.Ok None, m, fs) =>
      (Py.Raise (Py.ValueError ("Campaign " +:+ campaign_id +:+ " not found")),
       m, fs)
  | (Py.Ok (Some campaign), m, fs) =>
      ingest_found m campaign campaign_id attempts evaluations now fs
  end.

(** The body of [recommend_next] once [get] has found the campaign. *)
Definition recommend_found (m : CampaignManager) (campaign : Camp.Campaign)
    (campaign_id : string) (max_techniques : Z) (exclude_tried : bool)
    (repeat_penalty : float) (adaptive : option bool) (uuid : string) (now : Z)
    (fs : FS.t) : Outcome AttackPlan :=
  let is_adaptive :=
    match adaptive with
    | Some b => b
    | None =>
        truthy (default (VBool false) (Camp.metadata campaign !! "adaptive"))
    end in
  let step_number := default 0%Z (_step_counters m !! campaign_id) in
  let m := set_counter m campaign_id (step_number + 1)%Z in
  let campaign :=
    if _should_transition m campaign
    then Camp.set_phase campaign EXPLOIT else campaign in
  let m := set_campaign m campaign_id campaign in
  match is_adaptive, _adaptive_planner m, Camp.posterior_state campaign with
  | true, Some planner, Some posterior_state =>
      let family_tracker :=
        rebuild_tracker (_registry m)
          (Camp.techniques_tried (Camp.state campaign)) in
      let '(plan, updated_posterior, planner) :=
        Adaptive.plan planner now (Camp.target campaign) (_registry m)
          (Some posterior_state)
          (Some (Camp.evaluations (Camp.state campaign)))
          max_techniques exclude_tried repeat_penalty (Some family_tracker)
          step_number (Camp.phase campaign) in
      let campaign :=
        Camp.set_posterior_state campaign (Some updated_posterior) in
      let m := set_campaign (set_planner m (Some planner)) campaign_id campaign in
      match _save m campaign fs with
      | (Py.Raise e, m, fs) => (Py.Raise e, m, fs)
      | (Py.Ok _, m, fs) =>
          let fs := _record_snapshot m campaign step_number plan uuid now fs in
          (Py.Ok plan, m, fs)
      end
  | _, _, _ =>
      (Py.Ok (Engine.plan (_engine m) now (Camp.target campaign) (_registry m)
                (Some (Camp.evaluations (Camp.state campaign)))
                (Some max_techniques)),
       m, fs)
  end.

(** [recommend_next]; [adaptive] is [None] or a flag, [uuid] and [now] the
    identifier and clock reading drawn while it runs. *)
Definition recommend_next (m : CampaignManager) (campaign_id : string)
    (max_techniques : Z) (exclude_tried : bool) (repeat_penalty : float)
    (adaptive : option bool) (uuid : string) (now : Z) (fs : FS.t)
  : Outcome AttackPlan :=
  match get m campaign_id fs with
  | (Py.Raise e, m, fs) => (Py.Raise e, m, fs)
  | (Py.Ok None, m, fs) =>
      (Py.Raise (Py.ValueError ("Campaign " +:+ campaign_id +:+ " not found")),
       m, fs)
  | (Py.Ok (Some campaign), m, fs) =>
      recommend_found m campaign campaign_id max_techniques exclude_tried
        repeat_penalty adaptive uuid now fs
  end.

End WithRuntime.

(** The body of [update_status] once [get] has found the campaign. *)
Definition status_found (m : CampaignManager) (campaign : Camp.Campaign)
    (campaign_id : string) (status : CampaignStatus) (fs : FS.t)
  : Outcome Camp.Campaign :=
  let campaign := Camp.set_status campaign status in
  let m := set_campaign m campaign_id campaign in
  match _save m campaign fs with
  | (Py.Raise e, m, fs) => (Py.Raise e, m, fs)
  | (Py.Ok _, m, fs) => (Py.Ok campaign, m, fs)
  end.

(** [update_status] *)
Definition update_status (m : CampaignManager) (campaign_id : string)
    (status : CampaignStatus) (fs : FS.t) : Outcome Camp.Campaign :=
  match get m campaign_id fs with
  | (Py.Raise e, m, fs) => (Py.Raise e, m, fs)
  | (Py.Ok None, m, fs) =>
      (Py.Raise (Py.ValueError ("Campaign " +:+ campaign_id +:+ " not found")),
       m, fs)
  | (Py.Ok (Some campaign), m, fs) =>
      status_found m campaign campaign_id status fs
  end.

End Manager.

(** ** replay/replayer.py *)

Module Replayer.
Import Adaptive Snapshot.

Record DecisionReplayer := {
  registry : TechniqueRegistry;
  planner : option AdaptivePlanner;
}.

(** A difference [verify] reports; each stands for the message built from
    its fields. *)
Inductive Divergence :=
  | PlanLengthMismatch (original replayed : nat)
  | TechniqueIdMismatch (rank : nat) (original replayed : string)
  | UtilityMismatch (rank : nat) (technique_id : string) (original replayed : float).

(** A configuration value read as a float. *)
Definition cv_float (v : ConfigValue) : float :=
  match v with
  | VFloat f => f
  | VInt z => PrimFloat.of_uint63 (Uint63.of_Z z)
  | VBool b => if b then 1%float else 0%float
  | VStr _ => PrimFloat.nan
  end.

Definition cv_phase_str (v : ConfigValue) : string :=
  match v with VStr s => s | _ => "" end.

Section WithRuntime.
Context `{Runtime}.

(** [replay].  Without a planner of its own the replayer builds
    [AdaptivePlanner(campaign_seed=snapshot.planner_config.get("campaign_seed"))]
    from the packaged configuration ([default_config], [default_engine]);
    [randint] is the draw that constructor makes when the seed is falsy.
    The planner's [plan] then runs with no prior results. *)
Definition replay (r : DecisionReplayer) (default_config : PlannerConfig)
    (default_engine : Engine.PrioritizerEngine) (randint now : Z)
    (snapshot : DecisionSnapshot) (target : TargetProfile)
  : Py.result AttackPlan :=
  let planner :=
    match planner r with
    | None =>
        let campaign_seed :=
          match planner_config snapshot !! "campaign_seed" with
          | Some (VInt z) => Some z
          | _ => None
          end in
        Adaptive.__init__ default_config default_engine None campaign_seed
          None randint
    | Some p => p
    end in
  let posterior_state := posterior_state snapshot in
  let step_number := step_number snapshot in
  let config := planner_config snapshot in
  let max_techniques := Z.of_nat (length (produced_plan_entries snapshot)) in
  let exclude_tried := truthy (default (VBool false) (config !! "exclude_tried")) in
  let repeat_penalty := cv_float (default (VFloat 0) (config !! "repeat_penalty")) in
  let family_tracker :=
    Manager.rebuild_tracker (registry r) (techniques_tried snapshot) in
  let phase_str :=
    cv_phase_str (default (VStr "probe") (config !! "campaign_phase")) in
  match CampaignPhase_of_value phase_str with
  | Py.Raise e => Py.Raise e
  | Py.Ok campaign_phase =>
      Py.Ok
        (Adaptive.plan planner now target (registry r) (Some posterior_state)
           (Some []) max_techniques exclude_tried repeat_penalty
           (Some family_tracker) step_number campaign_phase).1.1
  end.

(** The comparisons [verify] makes on one pair of entries. *)
Definition compare_entries (tolerance : float)
    (e : nat * (PlanEntry * PlanEntry)) : list Divergence :=
  let '(i, (original_entry, replayed_entry)) := e in
  let orig_tech_id := entry_technique_id original_entry in
  let repl_tech_id := entry_technique_id replayed_entry in
  (if bool_decide (orig_tech_id ≠ repl_tech_id)
   then [TechniqueIdMismatch (i + 1) orig_tech_id repl_tech_id] else [])
  ++ match utility (entry_score original_entry),
           utility (entry_score replayed_entry) with
     | Some orig_utility, Some repl_utility =>
         if (tolerance <? PrimFloat.abs (orig_utility - repl_utility))%float
         then [UtilityMismatch (i + 1) orig_tech_id orig_utility repl_utility]
         else []
     | _, _ => []
     end.

(** [verify] with the default tolerance [1e-6]. *)
Definition verify (r : DecisionReplayer) (default_config : PlannerConfig)
    (default_engine : Engine.PrioritizerEngine) (randint now : Z)
    (snapshot : DecisionSnapshot) (target : TargetProfile) (tolerance : float)
  : Py.result (bool * list Divergence) :=
  match replay r default_config default_engine randint now snapshot target with
  | Py.Raise e => Py.Raise e
  | Py.Ok replayed_plan =>
      let original_len := length (produced_plan_entries snapshot) in
      let replayed_len := length (entries replayed_plan) in
      let divergences :=
        (if bool_decide (original_len ≠ replayed_len)
         then [PlanLengthMismatch original_len replayed_len] else [])
        ++ concat (compare_entries tolerance
                     <$> imap (λ i p, (i, p))
                           (zip (produced_plan_entries snapshot)
                                (entries replayed_plan))) in
      Py.Ok (bool_decide (length divergences = 0%nat), divergences)
  end.

Definition default_tolerance : float := 1e-6%float.

End WithRuntime.

End Replayer.

(** ** reporting/analyzer.py *)

Module Analyzer.

(** [WeakestLayerAnalyzer(min_attempts, z)]; [min_attempts] is any integer. *)
Record WeakestLayerAnalyzer := {
  _min_attempts : Z;
  _z : float;
}.

(** [WeakestLayerAnalyzer()] *)
Definition default_analyzer : WeakestLayerAnalyzer :=
  {| _min_attempts := 3; _z := 1.96%float |}.

(** [EvidenceBundle]; the caveat texts are left out. *)
Record EvidenceBundle := {
  supporting_attempt_ids : list string;
  success_count : nat;
  total_attempts : nat;
  smoothed_success_rate : float;
  confidence_interval : float * float;
  confidence_method : string;
  evidence_quality : float;
}.

(** [LayerAssessment]; the recommendation texts are left out. *)
Record LayerAssessment := {
  layer : Surface;
  evidence : EvidenceBundle;
  risk_score : float;
  is_primary_weakness : bool;
  is_insufficient_evidence : bool;
  techniques_tested : list string;
}.

(** [_wilson_center].  [self._z ** 2] raises what [Py.pow2] raises.  The
    quotient of two integers is the quotient of their float values.  No
    division raises: the divisors are positive counts and
    [1 + z2 / total], which is never zero for a square [z2]. *)
Definition _wilson_center (a : WeakestLayerAnalyzer) (successes total : nat)
  : Py.result float :=
  if (total =? 0)%nat then Py.Ok 0%float
  else
    Py.bind (Py.pow2 (_z a)) (λ z2,
    let p := (Py.float_of_nat successes / Py.float_of_nat total)%float in
    Py.Ok ((p + z2 / Py.float_of_nat (2 * total))
           / (1 + z2 / Py.float_of_nat total))%float).

(** [_wilson_interval].  [math.sqrt] raises [ValueError] on a negative
    argument, which this definition does not model: with
    [successes ≤ total], as in every call the code makes, [p] is in [0, 1]
    and the argument is a sum of two terms that are not negative. *)
Definition _wilson_interval (a : WeakestLayerAnalyzer) (successes total : nat)
  : Py.result (float * float) :=
  if (total =? 0)%nat then Py.Ok (0%float, 1%float)
  else
    Py.bind (Py.pow2 (_z a)) (λ z2,
    let p := (Py.float_of_nat successes / Py.float_of_nat total)%float in
    let denominator := (1 + z2 / Py.float_of_nat total)%float in
    let center := ((p + z2 / Py.float_of_nat (2 * total)) / denominator)%float in
    let spread :=
      ((_z a / denominator)
       * PrimFloat.sqrt (p * (1 - p) / Py.float_of_nat total
                         + z2 / Py.float_of_nat (4 * (total * total))))%float in
    Py.Ok (Py.max 0 (center - spread)%float, Py.min 1 (center + spread)%float)).

(** [EvidenceBundle()] *)
Definition default_evidence : EvidenceBundle :=
  {| supporting_attempt_ids := []; success_count := 0; total_attempts := 0;
     smoothed_success_rate := 0; confidence_interval := (0%float, 1%float);
     confidence_method := "wilson"; evidence_quality := 0 |}.

(** A field declared [Field(ge=0.0, le=1.0)]: the constructor of the model
    raises [ValidationError] for a value outside [0, 1], not-a-number
    included. *)
Definition validate_unit (field : string) (v : float) : Py.result float :=
  if Py.between 0 v 1 then Py.Ok v else Py.Raise (Py.ValidationError field).

(** [_assess_layer].  The integer quotient [total / (min_attempts * 2)]
    raises [ZeroDivisionError] for [min_attempts = 0]; [EvidenceBundle]
    validates [evidence_quality] and [LayerAssessment] validates
    [risk_score]. *)
Definition _assess_layer (a : WeakestLayerAnalyzer) (layer : Surface)
    (results : list EvaluationResult) (technique_ids : list string)
  : Py.result LayerAssessment :=
  let total := length results in
  let insufficient := (Z.of_nat total <? _min_attempts a)%Z in
  if (total =? 0)%nat then
    Py.Ok {| layer := layer; evidence := default_evidence; risk_score := 0;
             is_primary_weakness := false; is_insufficient_evidence := true;
             techniques_tested := technique_ids |}
  else
    let successes := length (filter (λ r, success r = Some true) results) in
    Py.bind (_wilson_center a successes total) (λ smoothed_rate,
    Py.bind (_wilson_interval a successes total) (λ ci,
    let avg_quality :=
      (foldl (λ acc r, acc + Models.evidence_quality r) 0 results
       / Py.float_of_nat total)%float in
    let attempt_ids := attempt_id <$> results in
    if (_min_attempts a * 2 =? 0)%Z
    then Py.Raise (Py.ZeroDivisionError "division by zero")
    else
      let coverage_factor :=
        Py.min 1 (Py.float_of_nat total
                  / Py.float_of_Z (_min_attempts a * 2))%float in
      let risk_score := (smoothed_rate * avg_quality * coverage_factor)%float in
      Py.bind (validate_unit "evidence_quality" avg_quality) (λ avg_quality,
      let evidence :=
        {| supporting_attempt_ids := attempt_ids;
           success_count := successes;
           total_attempts := total;
           smoothed_success_rate := smoothed_rate;
           confidence_interval := ci;
           confidence_method := "wilson";
           evidence_quality := avg_quality |} in
      Py.bind (validate_unit "risk_score" risk_score) (λ risk_score,
      Py.Ok {| layer := layer;
               evidence := evidence;
               risk_score := risk_score;
               is_primary_weakness := false;
               is_insufficient_evidence := insufficient;
               techniques_tested := technique_ids |})))).

(** [assessment.is_primary_weakness = True] *)
Definition set_primary (x : LayerAssessment) : LayerAssessment :=
  {| layer := layer x; evidence := evidence x; risk_score := risk_score x;
     is_primary_weakness := true;
     is_insufficient_evidence := is_insufficient_evidence x;
     techniques_tested := techniques_tested x |}.

(** [max(x :: l, key=key)]: the first element that no later one exceeds. *)
Definition max_by {A} (key : A → float) (x : A) (l : list A) : A :=
  foldl (λ best y, if (key best <? key y)%float then y else best) x l.

(** The results grouped under a layer: those whose technique is known and
    has this surface, in their order. *)
Definition layer_results (techniques : gmap string AttackTechnique)
    (layer : Surface) (results : list EvaluationResult) : list EvaluationResult :=
  filter (λ r, surface <$> techniques !! comparability_technique_id r = Some layer)
         results.

(** [analyze]; the set of technique ids of a layer is listed in the order of
    first occurrence.  The layers are assessed in the order of [Surface],
    and the first assessment that raises ends the call. *)
Definition analyze (a : WeakestLayerAnalyzer) (results : list EvaluationResult)
    (techniques : gmap string AttackTechnique)
  : Py.result (list LayerAssessment) :=
  Py.bind
    (Py.traverse
       (λ layer,
          let layer_evals := layer_results techniques layer results in
          let techs := remove_dups (comparability_technique_id <$> layer_evals) in
          _assess_layer a layer layer_evals techs)
       all_Surface) (λ assessments,
  let sufficient :=
    filter (λ x, is_insufficient_evidence x = false) assessments in
  let assessments :=
    match sufficient with
    | [] => assessments
    | x :: rest =>
        let primary := max_by risk_score x rest in
        (λ y, if bool_decide (layer y = layer primary) then set_primary y else y)
          <$> assessments
    end in
  Py.Ok (PyList.sort_desc risk_score assessments)).

End Analyzer.

(** ** Example data

    A small catalog, a target, a configuration and a stand-in runtime, used
    to run the definitions above on concrete inputs.  The stand-in runtime
    is a linear congruential generator with uniform samples and a polynomial
    string hash; the properties of Part III that quantify over [Runtime] hold
    for every runtime, the Python one included. *)

Module Examples.

Definition technique (tid : string) (d : Domain) (s : Surface)
    (gs : list Goal) (tts : list TargetType) (cost : float) (tag : string)
  : AttackTechnique :=
  {| id := tid; name := tid; domain := d; phase := EXPLOIT_P; surface := s;
     access_required := BLACK_BOX; goals_supported := gs; target_types := tts;
     base_cost := cost; stealth_profile := OVERT; tags := [tag] |}.

Definition DAN : AttackTechnique :=
  technique "AP-TX-LLM-JAILBREAK-DAN" LLM GUARDRAIL [JAILBREAK] [CHATBOT] 0.2 "jailbreak".
Definition ROLEPLAY : AttackTechnique :=
  technique "AP-TX-LLM-JAILBREAK-ROLEPLAY" LLM GUARDRAIL [JAILBREAK] [CHATBOT] 0.3 "jailbreak".
Definition HYPO : AttackTechnique :=
  technique "AP-TX-LLM-JAILBREAK-HYPO" LLM GUARDRAIL [JAILBREAK] [CHATBOT] 0.3 "jailbreak".
Definition FGSM : AttackTechnique :=
  technique "AP-TX-AML-EVASION-FGSM" AML MODEL [EVASION] [CLASSIFIER] 0
    "adversarial-examples".

Definition catalog : TechniqueRegistry :=
  {| _techniques := [DAN; ROLEPLAY; HYPO; FGSM] |}.


Definition chatbot : TargetProfile :=
  {| target_name := "Test Chatbot"; target_type := CHATBOT;
     access_level := BLACK_BOX; goals := [JAILBREAK];
     constraints := {| stealth_priority := OVERT; max_technique_cost := None |};
     defenses :=
       {| has_moderation := true; has_input_filtering := false;
          has_output_filtering := false; has_prompt_injection_detection := false;
          has_schema_validation := false; has_rate_limiting := false |} |}.


Definition evaluation (aid tid : string) (ok : option bool) : EvaluationResult :=
  {| attempt_id := aid; success := ok; score := None;
     Models.evidence_quality := 0.5%float; comparability_technique_id := tid |}.

Definition attempt (aid tid : string) : AttemptResult :=
  {| attempt_result_id := aid; attempt_technique_id := tid |}.

(** An engine whose weights are the defaults [score_technique] falls back
    to. *)
Definition example_engine : Engine.PrioritizerEngine :=
  {| Engine._config := ∅;
     Engine._weights :=
       list_to_map [("compatibility", 1.0); ("access_fit", 0.8); ("goal_fit", 1.0);
                    ("defense_bypass_likelihood", 0.7); ("signal_gain", 0.5);
                    ("cost_penalty", 0.4); ("detection_risk_penalty", 0.3)]%float;
     Engine._scorer_thresholds := None;
     Engine.filters_max_cost := None;
     Engine.same_triple_penalty := None |}.

(** A configuration file with no [adaptive] keys: every default applies. *)
Definition empty_config : Adaptive.PlannerConfig :=
  {| Adaptive.cfg_prior_strength := None;
     Adaptive.cfg_info_gain_weight := None;
     Adaptive.cfg_detection_penalty_weight := None;
     Adaptive.cfg_cost_weight := None;
     Adaptive.cfg_use_benchmark_priors := None;
     Adaptive.cfg_benchmark_blend_weight := None;
     Adaptive.cfg_goal_severity := None;
     Adaptive.cfg_surface_criticality := None;
     Adaptive.cfg_correlation_enabled := None;
     Adaptive.cfg_spillover_rate := None;
     Adaptive.cfg_diversity_v2 := None;
     Adaptive.cfg_filters_max_cost := None |}.


(** [AdaptivePlanner(campaign_seed=42)] *)
Definition planner42 : Adaptive.AdaptivePlanner :=
  Adaptive.__init__ empty_config example_engine None (Some 42%Z) None 0%Z.


(** The integer nearest to a float of [0, 2^52). *)
Definition nearest_Z (x : float) : Z :=
  (Uint63.to_Z (PrimFloat.normfr_mantissa
                  (fst (PrimFloat.frshiftexp (x + 0x1p52)%float)))
   - 2 ^ 52)%Z.

Definition two_decimals (x : float) : string :=
  let neg := (x <? 0)%float in
  let n := nearest_Z (PrimFloat.abs x * 100)%float in
  let frac := (n `mod` 100)%Z in
  (if neg then "-" else "") +:+ pretty (n `div` 100)%Z +:+ "."
    +:+ (if (frac <? 10)%Z then "0" else "") +:+ pretty frac.

Definition string_hash (s : string) : Z :=
  foldl (λ h c, (h * 31 + Z.of_nat (nat_of_ascii c)) `mod` 2 ^ 32)%Z 7%Z
    (list_ascii_of_string s).

Definition lcg (g : Z) : Z := ((g * 1103515245 + 12345) `mod` 2 ^ 31)%Z.

Definition digits_value (s : string) : option Z :=
  match s with
  | EmptyString => None
  | _ =>
      foldl (λ acc c,
               acc ≫= λ n, (λ d, n * 10 + Z.of_nat d)%Z <$> Ascii.is_nat c)
            (Some 0%Z) (list_ascii_of_string s)
  end.

Definition example_runtime : Runtime :=
  {| rng := Z;
     Random := λ seed, (seed `mod` 2 ^ 31)%Z;
     betavariate := λ g a b,
       let g' := lcg g in
       ((PrimFloat.of_uint63 (Uint63.of_Z g') / 0x1p31)%float, g');
     sha256_hex8 := string_hash;
     fmt_2f := two_decimals;
     float_str := two_decimals;
     str_hash := string_hash;
     py_int := digits_value;
     hash_target_profile := target_name |}.

End Examples.

(** ** Example runs

    Campaigns run through the manager on the example data, with the stand-in
    runtime. *)

Module Scenario.
Import Manager.

#[local] Existing Instance Examples.example_runtime.

Definition cid : string := "0123456789ab".
Definition dan : string := id Examples.DAN.

(** A manager with storage and [AdaptivePlanner(campaign_seed=42)]. *)
Definition manager : CampaignManager :=
  Manager.__init__ Examples.catalog Examples.example_engine
    (Some Examples.planner42) (Some "store").

Definition recorder : Recorder.SnapshotRecorder :=
  {| Recorder.storage_dir := "store" |}.

(** [create(target, adaptive=True, campaign_seed=42)] *)
Definition created : Outcome Camp.Campaign :=
  create manager Examples.chatbot "" true true (Some 42%Z) cid 7 100 FS.empty.

(** The first [recommend_next] of the new campaign, which records the
    snapshot of step 0. *)
Definition first_recommendation : Outcome AttackPlan :=
  recommend_next created.1.2 cid 5 false 0 None "bbbbbbbbbbbb" 102 created.2.

(** One failed attempt of DAN, with its evaluation. *)
Definition ingested : Outcome Camp.Campaign :=
  ingest_results created.1.2 cid [Examples.attempt "att-0" dan]
    [Examples.evaluation "att-0" dan (Some false)] 101 created.2.

(** [recommend_next(exclude_tried=True)] after it. *)
Definition excluding_recommendation : Outcome AttackPlan :=
  recommend_next ingested.1.2 cid 5 true 0 None "bbbbbbbbbbbb" 102 ingested.2.

(** [recommend_next(repeat_penalty=0.5)] after it. *)
Definition penalized_recommendation : Outcome AttackPlan :=
  recommend_next ingested.1.2 cid 5 false 0.5 None "bbbbbbbbbbbb" 102 ingested.2.

Definition empty_plan : AttackPlan :=
  {| plan_target := Examples.chatbot; entries := []; generated_at := 0;
     config_used := ∅ |}.

Definition plan_of (out : Outcome AttackPlan) : AttackPlan :=
  match out.1.1 with Py.Ok p => p | Py.Raise _ => empty_plan end.

(** The snapshot of step 0 that [load] reads back from the file system an
    outcome left. *)
Definition loaded_snapshot {A} (out : Outcome A) : option Snapshot.DecisionSnapshot :=
  match (Recorder.load recorder cid 0 out.2).1 with
  | Py.Ok s => s
  | Py.Raise _ => None
  end.

(** [DecisionReplayer(registry)] and [DecisionReplayer(registry, planner)]. *)
Definition replayer : Replayer.DecisionReplayer :=
  {| Replayer.registry := Examples.catalog; Replayer.planner := None |}.
Definition replayer_with_planner : Replayer.DecisionReplayer :=
  {| Replayer.registry := Examples.catalog;
     Replayer.planner := Some Examples.planner42 |}.

(** [verify(snapshot, target)] on a loaded snapshot; [randint] is the draw a
    planner built without a seed makes. *)
Definition verify_loaded (r : Replayer.DecisionReplayer) (randint : Z)
    (s : option Snapshot.DecisionSnapshot)
  : option (Py.result (bool * list Replayer.Divergence)) :=
  (λ s, Replayer.verify r Examples.empty_config Examples.example_engine randint
          200 s Examples.chatbot Replayer.default_tolerance) <$> s.

(** [AdaptivePlanner(campaign_seed=0)]; [randint] is the draw the
    constructor makes. *)
Definition planner_seed0 (randint : Z) : Adaptive.AdaptivePlanner :=
  Adaptive.__init__ Examples.empty_config Examples.example_engine None
    (Some 0%Z) None randint.

(** Its first plan for the chatbot target. *)
Definition plan_seed0 (randint : Z) : AttackPlan :=
  (Adaptive.plan (planner_seed0 randint) 100 Examples.chatbot Examples.catalog
     None None 5 false 0 None 0 PROBE).1.1.

End Scenario.

(* ===================================================================== *)
(** * Part II: the terms of the properties                                *)
(* ===================================================================== *)

(** ** Spillover *)

Section SpilloverTerms.
Import Correlation.

(** The posterior a sibling starts from: the stored one, or the one
    [get_or_init(sibling_id, 0.5)] creates. *)
Definition sibling_start (st : PosteriorState) (s : string) : TechniquePosterior :=
  fst (get_or_init st s 0.5%float None).

Definition spilled (rate reward : float) (p : TechniquePosterior)
  : TechniquePosterior :=
  {| technique_id := technique_id p;
     alpha := (alpha p + reward * rate)%float;
     beta := (beta p + (1 - reward) * rate)%float;
     observations := observations p |}.

End SpilloverTerms.

(** ** Wilson score *)

Section WilsonTerms.
Import Analyzer.




Definition three_of_five : list EvaluationResult :=
  (λ ok, {| attempt_id := "a"; success := ok; score := None;
            Models.evidence_quality := 0.5%float;
            comparability_technique_id := "t" |})
    <$> [Some true; Some false; Some true; None; Some true].

End WilsonTerms.

(** ** Signal gain *)

Section SignalGainTerms.
Import Scorers.

(** The prior results of a technique. *)
Definition results_of (t : AttackTechnique) (rs : list EvaluationResult)
  : list EvaluationResult :=
  filter (λ r, comparability_technique_id r = id t) rs.

End SignalGainTerms.

(** ** Persistence: example inputs *)

Section PersistenceTerms.
Import CampaignId.

Definition example_snapshot : Snapshot.DecisionSnapshot :=
  {| Snapshot.snapshot_id := "snap-test";
     Snapshot.campaign_id := "../outside";
     Snapshot.step_number := 0;
     Snapshot.timestamp := 0;
     Snapshot.step_seed := 0;
     Snapshot.techniques_tried := [];
     Snapshot.evaluation_count := 0;
     Snapshot.queries_used := 0;
     Snapshot.posterior_state :=
       {| posteriors := ∅; Posterior.prior_strength := 8.0%float |};
     Snapshot.planner_config := ∅;
     Snapshot.produced_plan_entries := [] |}.

Definition example_recorder : Recorder.SnapshotRecorder :=
  {| Recorder.storage_dir := "store" |}.

Definition example_manager : Manager.CampaignManager :=
  Manager.__init__ Examples.catalog Examples.example_engine
    (Some Examples.planner42) (Some "store").

End PersistenceTerms.

(** ** The scoring loop *)

Section PlanLoopTerms.
Context `{Runtime}.
Import Adaptive PyList.

Variables (p : AdaptivePlanner) (target : TargetProfile)
  (prior_results : list EvaluationResult) (exclude_tried : bool).

(** Whether the loop skips a technique. *)
Definition skipped (t : AttackTechnique) : bool :=
  exclude_tried && bool_decide (id t ∈ tried_ids prior_results).

(** The base score and the prior the loop passes to [get_or_init]. *)
Definition base_of (t : AttackTechnique) : float :=
  _compute_v1_base_score p t target prior_results.
Definition blended_of (t : AttackTechnique) : option float :=
  _compute_blended_prior p t (base_of t).

End PlanLoopTerms.

(** ** The pieces of [plan] *)

Section PlanTerms.
Context `{Runtime}.
Import Adaptive PyList.

(** The planner [plan] leaves behind: the same planner with the catalog
    registered in its correlation index. *)
Definition registered (p : AdaptivePlanner) (registry : TechniqueRegistry)
  : AdaptivePlanner :=
  with_correlation p
    ((λ c, Correlation.register_techniques c (get_all registry)) <$> correlation p).

(** The phase-adjusted information-gain and cost weights. *)
Definition phase_weights (p : AdaptivePlanner) (ph : CampaignPhase) : float * float :=
  match ph with
  | PROBE => ((info_gain_weight p * 1.5)%float, (cost_weight p * 0.7)%float)
  | EXPLOIT => ((info_gain_weight p * 0.3)%float, (cost_weight p * 1.2)%float)
  end.

(** The techniques that pass the hard filters and the cost bound. *)
Definition plan_filtered (p : AdaptivePlanner) (target : TargetProfile)
    (registry : TechniqueRegistry) : list AttackTechnique :=
  filter (λ t, Filters.passes_all_filters t target = true
               ∧ (base_cost t <=? default 1.0 (filters_max_cost p))%float = true)
         (get_all registry).

Definition plan_tracker (p : AdaptivePlanner)
    (family_tracker : option Diversity.FamilyTracker) : Diversity.FamilyTracker :=
  default (Diversity.new
             (cfg_min_surface_coverage (diversity_config p))
             (cfg_untested_layer_bonus (diversity_config p))
             (cfg_repeat_family_penalty (diversity_config p))
             (cfg_below_coverage_bonus (diversity_config p)))
          family_tracker.

(** The scoring loop of [plan], started from the generator [g] and the
    posterior state [s0]. *)
Definition sampling_run (p : AdaptivePlanner) (target : TargetProfile)
    (registry : TechniqueRegistry) (prior_results : option (list EvaluationResult))
    (exclude_tried : bool) (repeat_penalty : float)
    (family_tracker : option Diversity.FamilyTracker) (ph : CampaignPhase)
    (g : rng) (s0 : PosteriorState) : LoopState :=
  foldl (score_candidate (registered p registry) target (default [] prior_results)
           exclude_tried repeat_penalty (plan_tracker p family_tracker)
           (phase_weights p ph).1 (phase_weights p ph).2
           (default 1.0%float (filters_max_cost p)))
        (g, s0, []) (plan_filtered p target registry).

(** The entries [plan] builds from the outcome of the scoring loop. *)
Definition entries_of (p : AdaptivePlanner) (target : TargetProfile)
    (registry : TechniqueRegistry) (max_techniques : Z) (r : LoopState)
  : list PlanEntry :=
  build_entry (registered p registry) target r.1.2
    <$> enumerate1 (slice_to max_techniques (sort_desc c_utility r.2)).

Definition initial_state (p : AdaptivePlanner) (st : option PosteriorState)
  : PosteriorState :=
  default {| posteriors := ∅; Posterior.prior_strength := prior_strength p |} st.

End PlanTerms.

(** ** The campaign manager as a state machine *)

Section ManagerTerms.
Context `{Runtime}.
Import Manager CampaignId.

(** Whether a call of [recommend_next] on a campaign is served by the
    adaptive planner. *)
Definition served_adaptively (m : CampaignManager) (c : Camp.Campaign)
    (adaptive : option bool) : Prop :=
  default (truthy (default (VBool false) (Camp.metadata c !! "adaptive"))) adaptive
    = true
  ∧ is_Some (_adaptive_planner m) ∧ is_Some (Camp.posterior_state c).

(** Every campaign in memory is stored under its own id. *)
Definition mem_wf (m : CampaignManager) : Prop :=
  ∀ k c, _campaigns m !! k = Some c → Camp.id c = k.

(** Every campaign file holds the campaign its name says: what [_save]
    leaves on disk. *)
Definition disk_wf (m : CampaignManager) (fs : FS.t) : Prop :=
  ∀ dir k c, _storage_dir m = Some dir →
    _validate_campaign_id k = Py.Ok tt →
    FS.files fs !! campaign_path dir k = Some (FS.CampaignDoc c) →
    Camp.id c = k.

Definition wf (w : CampaignManager * FS.t) : Prop := mem_wf w.1 ∧ disk_wf w.1 w.2.

(** The campaign [cid] is in memory, in the exploit phase. *)
Definition in_exploit (cid : string) (m : CampaignManager) : Prop :=
  ∃ c, _campaigns m !! cid = Some c ∧ Camp.phase c = EXPLOIT.

(** The campaign [recommend_next] leaves in memory: the phase it had, or
    [EXPLOIT] when the transition fires; the step counter is one more. *)
Definition phase_after (m : CampaignManager) (c : Camp.Campaign) (cid : string)
  : CampaignPhase :=
  if _should_transition
       (set_counter m cid (default 0 (_step_counters m !! cid) + 1)%Z) c
  then EXPLOIT else Camp.phase c.

(** The operations of the manager, with the identifiers, random draws and
    clock readings each one consumes. *)
Inductive Op :=
  | OpCreate (target : TargetProfile) (name : string) (auto_plan adaptive : bool)
      (campaign_seed : option Z) (uuid : string) (randint now : Z)
  | OpGet (cid : string)
  | OpIngest (cid : string) (attempts : list AttemptResult)
      (evaluations : list EvaluationResult) (now : Z)
  | OpRecommend (cid : string) (max_techniques : Z) (exclude_tried : bool)
      (repeat_penalty : float) (adaptive : option bool) (uuid : string) (now : Z)
  | OpUpdateStatus (cid : string) (status : CampaignStatus).

Definition World : Type := CampaignManager * FS.t.

Definition after {A} (out : Outcome A) : World := (out.1.2, out.2).

(** The manager and the file system an operation leaves, whether it returns
    or raises. *)
Definition run_op (o : Op) (w : World) : World :=
  match o with
  | OpCreate target name auto_plan adaptive seed uuid randint now =>
      after (create w.1 target name auto_plan adaptive seed uuid randint now w.2)
  | OpGet cid => after (get w.1 cid w.2)
  | OpIngest cid attempts evaluations now =>
      after (ingest_results w.1 cid attempts evaluations now w.2)
  | OpRecommend cid k ex pen adaptive uuid now =>
      after (recommend_next w.1 cid k ex pen adaptive uuid now w.2)
  | OpUpdateStatus cid status => after (update_status w.1 cid status w.2)
  end.

(** [create] draws an identifier that no campaign in memory has. *)
Definition op_fresh (o : Op) (w : World) : Prop :=
  match o with
  | OpCreate _ _ _ _ _ uuid _ _ => _campaigns w.1 !! uuid = None
  | _ => True
  end.

Fixpoint run_ops (ops : list Op) (w : World) : World :=
  match ops with
  | [] => w
  | o :: rest => run_ops rest (run_op o w)
  end.

Fixpoint ops_fresh (ops : list Op) (w : World) : Prop :=
  match ops with
  | [] => True
  | o :: rest => op_fresh o w ∧ ops_fresh rest (run_op o w)
  end.

(** What an operation on the campaign [cid] may do to the table of
    campaigns. *)
Definition keyed (cid : string) (m m' : CampaignManager) : Prop :=
  _storage_dir m' = _storage_dir m
  ∧ (∀ j, j ≠ cid → _campaigns m' !! j = _campaigns m !! j)
  ∧ (∀ c', _campaigns m' !! cid = Some c' → Camp.id c' = cid)
  ∧ (∀ c, _campaigns m !! cid = Some c → Camp.phase c = EXPLOIT →
          ∃ c', _campaigns m' !! cid = Some c' ∧ Camp.phase c' = EXPLOIT).

(** The parameters of one [recommend_next] call, besides the campaign id. *)
Record RecommendArgs := {
  ra_max_techniques : Z;
  ra_exclude_tried : bool;
  ra_repeat_penalty : float;
  ra_adaptive : option bool;
  ra_uuid : string;
  ra_now : Z;
}.

Definition recommend_op (cid : string) (a : RecommendArgs) : Op :=
  OpRecommend cid (ra_max_techniques a) (ra_exclude_tried a) (ra_repeat_penalty a)
    (ra_adaptive a) (ra_uuid a) (ra_now a).

End ManagerTerms.

(*** The phase of a campaign *)

Section PhaseTerms.
#[local] Existing Instance Examples.example_runtime.
Import Manager.

(** The surfaces represented among the tried techniques of a campaign: a
    surface is represented when one of the tried ids is that of a technique
    of the registry on this surface. *)
Definition represented_surfaces (m : CampaignManager) (c : Camp.Campaign)
  : list Surface :=
  filter
    (λ s, Exists (λ tech_id, surface <$> Registry.get (_registry m) tech_id = Some s)
                 (Camp.techniques_tried (Camp.state c)))
    all_Surface.

(** Two further techniques, on the retrieval and tool surfaces, and a
    catalog over four surfaces. *)
Definition RAG_POISON : AttackTechnique :=
  Examples.technique "AP-TX-LLM-RAG-POISON" LLM RETRIEVAL [POISONING] [RAG] 0.4
    "rag-poisoning".
Definition TOOL_ABUSE : AttackTechnique :=
  Examples.technique "AP-TX-AGT-TOOL-ABUSE" AGENT TOOL [TOOL_MISUSE] [AGENT_T] 0.5
    "tool-misuse".

Definition wide_catalog : TechniqueRegistry :=
  {| _techniques := [Examples.DAN; Examples.FGSM; RAG_POISON; TOOL_ABUSE] |}.

(** A manager without storage and without adaptive planner over it, and a
    new campaign of it after one attempt of each of the given techniques. *)
Definition wide_manager : CampaignManager :=
  Manager.__init__ wide_catalog Examples.example_engine None None.

Definition attempted (tids : list string) : World :=
  run_ops [OpCreate Examples.chatbot "" false false None Scenario.cid 7 100;
           OpIngest Scenario.cid (Examples.attempt "att" <$> tids) [] 101]
    (wide_manager, FS.empty).

Definition default_args : RecommendArgs :=
  {| ra_max_techniques := 5; ra_exclude_tried := false; ra_repeat_penalty := 0;
     ra_adaptive := None; ra_uuid := "bbbbbbbbbbbb"; ra_now := 102 |}.

(** [create] on a manager with storage, then three [recommend_next]; the
    campaign is adaptive (with seed 42) or rule-based. *)
Definition three_recommendations (adaptive : bool) : World :=
  run_ops [recommend_op Scenario.cid default_args;
           recommend_op Scenario.cid default_args;
           recommend_op Scenario.cid default_args]
    (run_op (OpCreate Examples.chatbot "" true adaptive
               (if adaptive then Some 42%Z else None) Scenario.cid 7 100)
       (Scenario.manager, FS.empty)).

(** The phase of the campaign that a manager started afterwards on the same
    storage directory gets. *)
Definition reloaded_phase (w : World) : option CampaignPhase :=
  match (get Scenario.manager Scenario.cid w.2).1.1 with
  | Py.Ok (Some c) => Some (Camp.phase c)
  | _ => None
  end.

End PhaseTerms.

(*** Campaign identifiers *)

Section IdentifierTerms.
Import CampaignId.

(** Every character of the string is of the class [[a-zA-Z0-9_-]]. *)
Definition safe_string (s : string) : Prop :=
  Forall (λ c, safe_char c = true) (list_ascii_of_string s).

End IdentifierTerms.

(*** Campaign files *)

Section StorageTerms.
Context `{Runtime}.
Import Manager CampaignId.

(** A manager on the storage directory [dir] that does not hold the campaign
    in memory reads [c] back from the file system. *)
Definition reloads (dir : string) (c : Camp.Campaign) (fs : FS.t) : Prop :=
  ∀ m2, _storage_dir m2 = Some dir → _campaigns m2 !! Camp.id c = None →
        (get m2 (Camp.id c) fs).1.1 = Py.Ok (Some c).

(** The parts of a manager that only its constructor sets. *)
Definition same_setup (m m' : CampaignManager) : Prop :=
  _registry m' = _registry m ∧ _engine m' = _engine m
  ∧ _storage_dir m' = _storage_dir m ∧ _recorder m' = _recorder m.

End StorageTerms.

(*** Snapshot paths *)

Section SnapshotPathTerms.

(** [k] zeros: the padding of [f"{n:04d}"]. *)
Definition zeros (k : nat) : string := String.concat "" (replicate k "0").

(** A decimal numeral: ["0"], or digits the first of which is not [0]. *)
Definition numeral (s : string) : Prop :=
  s = "0" ∨ ∃ c t, s = String c t ∧ c ≠ "0"%char ∧ c ≠ "-"%char.

End SnapshotPathTerms.

(*** The recorded decision *)

Section RecommendTerms.
Context `{Runtime}.
Import Manager.

(** The snapshot [_record_snapshot] builds, before the recorder fills in its
    identifier. *)
Definition snapshot_of (c : Camp.Campaign) (post : PosteriorState) (step : Z)
    (plan : AttackPlan) (now : Z) : Snapshot.DecisionSnapshot :=
  {| Snapshot.snapshot_id := "";
     Snapshot.campaign_id := Camp.id c;
     Snapshot.step_number := step;
     Snapshot.timestamp := now;
     Snapshot.step_seed :=
       (str_hash (cv_str (default (VInt 0) (Camp.metadata c !! "campaign_seed"))
                  +:+ ":" +:+ pretty step) `mod` 2 ^ 31)%Z;
     Snapshot.techniques_tried := Camp.techniques_tried (Camp.state c);
     Snapshot.evaluation_count := length (Camp.evaluations (Camp.state c));
     Snapshot.queries_used := Camp.queries_used (Camp.state c);
     Snapshot.posterior_state := post;
     Snapshot.planner_config := config_used plan;
     Snapshot.produced_plan_entries := entries plan |}.

(** The call of the planner that an adaptive [recommend_next] makes. *)
Definition adaptive_run (m : CampaignManager) (c : Camp.Campaign) (cid : string)
    (planner : Adaptive.AdaptivePlanner) (ps : PosteriorState)
    (k : Z) (ex : bool) (pen : float) (now : Z)
  : AttackPlan * PosteriorState * Adaptive.AdaptivePlanner :=
  Adaptive.plan planner now (Camp.target c) (_registry m) (Some ps)
    (Some (Camp.evaluations (Camp.state c))) k ex pen
    (Some (rebuild_tracker (_registry m) (Camp.techniques_tried (Camp.state c))))
    (default 0%Z (_step_counters m !! cid)) (phase_after m c cid).

End RecommendTerms.

(*** Ranking order *)

Section OrderTerms.

(** No element is followed by one with a strictly greater key. *)
Definition descending {A} (key : A → float) (l : list A) : Prop :=
  Sorted (λ a b, (key a <? key b)%float = false) l.

End OrderTerms.

(*** Evidence *)

Section EvidenceTerms.
Context `{Runtime}.
Import Adaptive Reward.

(** The observation count a state holds for a technique: 0 without a
    posterior. *)
Definition observed (st : PosteriorState) (x : string) : nat :=
  default 0%nat (observations <$> posteriors st !! x).

(** Whether [update_posteriors] passes over an evaluation: it names no
    technique, has no reward, or names a technique the registry does not
    know. *)
Definition passed_over (p : AdaptivePlanner) (registry : TechniqueRegistry)
    (ev : EvaluationResult) : bool :=
  bool_decide (comparability_technique_id ev = "")
  || bool_decide (compute_reward (RewardPolicy := reward_policy p) ev = None)
  || bool_decide (Registry.get registry (comparability_technique_id ev) = None).

(** The evaluations that are observations of the technique [x]. *)
Definition observations_of (p : AdaptivePlanner) (registry : TechniqueRegistry)
    (x : string) (results : list EvaluationResult) : list EvaluationResult :=
  filter (λ ev, comparability_technique_id ev = x
                ∧ passed_over p registry ev = false) results.

(** Every reward of the policy is in [0, 1]. *)
Definition rewards_in_range (policy : RewardPolicy) : Prop :=
  ∀ ev r, policy ev = Some r → Py.between 0 r 1 = true.

End EvidenceTerms.

(*** Verification of a replay *)

Section VerifyTerms.

(** What [verify] compares on a pair of entries: the technique ids are
    equal, and the utilities, when both are present, do not differ by more
    than the tolerance. *)
Definition entries_agree (tolerance : float) (o e : PlanEntry) : Prop :=
  entry_technique_id o = entry_technique_id e
  ∧ ∀ u u', utility (entry_score o) = Some u → utility (entry_score e) = Some u' →
            (tolerance <? PrimFloat.abs (u - u'))%float = false.

End VerifyTerms.

(* ===================================================================== *)
(** * Part III: properties                                                *)
(* ===================================================================== *)

(** ** Posterior state and family spillover *)

Section SpilloverFacts.
Import Correlation.

Lemma spill_one_prior_strength rate reward st s :
  prior_strength (spill_one rate reward st s) = prior_strength st.
Proof.
  unfold spill_one, get_or_init.
  destruct (posteriors st !! s) as [p|] eqn:E; simpl.
  - rewrite E. reflexivity.
  - rewrite lookup_insert_eq. reflexivity.
Qed.

Lemma spill_one_same rate reward st s :
  posteriors (spill_one rate reward st s) !! s
  = Some (spilled rate reward (sibling_start st s)).
Proof.
  unfold spill_one, sibling_start, get_or_init.
  destruct (posteriors st !! s) as [p|] eqn:E; simpl.
  - rewrite E. simpl. apply lookup_insert_eq.
  - rewrite lookup_insert_eq. simpl. apply lookup_insert_eq.
Qed.

Lemma spill_one_other rate reward st s x :
  x ≠ s →
  posteriors (spill_one rate reward st s) !! x = posteriors st !! x.
Proof.
  intros Hne. unfold spill_one, get_or_init.
  destruct (posteriors st !! s) as [p|] eqn:E; simpl.
  - rewrite E. simpl. by rewrite lookup_insert_ne.
  - rewrite lookup_insert_eq. simpl. by rewrite !lookup_insert_ne.
Qed.

Lemma spill_all_other rate reward (l : list string) : ∀ st x,
  x ∉ l →
  posteriors (foldl (spill_one rate reward) st l) !! x = posteriors st !! x.
Proof.
  induction l as [|s l IH]; intros st x Hx; simpl; [done|].
  apply not_elem_of_cons in Hx as [Hne Hx].
  rewrite IH by done. by apply spill_one_other.
Qed.

Lemma spill_all_member rate reward (l : list string) : ∀ st x,
  NoDup l → x ∈ l →
  posteriors (foldl (spill_one rate reward) st l) !! x
  = Some (spilled rate reward (sibling_start st x)).
Proof.
  induction l as [|s l IH]; intros st x Hnd Hx; simpl.
  - by apply elem_of_nil in Hx.
  - apply NoDup_cons in Hnd as [Hs Hnd].
    apply elem_of_cons in Hx as [->|Hx].
    + rewrite spill_all_other by done. apply spill_one_same.
    + rewrite IH by done.
      assert (x ≠ s) as Hne by (intros ->; done).
      unfold sibling_start, get_or_init.
      rewrite spill_one_other by done.
      destruct (posteriors st !! x); simpl; [done|].
      by rewrite spill_one_prior_strength.
Qed.

Lemma get_siblings_not_self c t : t ∉ get_siblings c t.
Proof.
  unfold get_siblings.
  destruct (_id_to_family c !! t) as [family|]; [|apply not_elem_of_empty].
  destruct (decide (family = "")); [apply not_elem_of_empty|].
  intros Hin. apply elem_of_difference in Hin as [_ Hin].
  apply Hin. by apply elem_of_singleton.
Qed.

(** C3. Spillover: after [propagate_update] for an observation of [t] with
    reward [r], every sibling [s] of [t] holds the posterior it started
    from (the stored one, or the one [get_or_init(s, 0.5)] creates, with no
    observations) with [r * spillover_rate] added to alpha and
    [(1 - r) * spillover_rate] added to beta and the same observation count;
    the entry of [t] itself, and of every technique that is not a sibling,
    is the one it was.  This holds for every reward, so for those of
    [0, 1]; the default rate is 0.3. *)
Theorem propagate_update_spillover (c : FamilyCorrelation) (t : string)
    (r : float) (st : PosteriorState) :
  let st' := propagate_update c t r st in
  let rate := spillover_rate c in
  (∀ s, s ∈ get_siblings c t →
     ∃ p, posteriors st' !! s = Some p
       ∧ alpha p = (alpha (sibling_start st s) + r * rate)%float
       ∧ beta p = (beta (sibling_start st s) + (1 - r) * rate)%float
       ∧ observations p = observations (sibling_start st s)
       ∧ (∀ q, posteriors st !! s = Some q → sibling_start st s = q)
       ∧ (posteriors st !! s = None → observations p = 0))
  ∧ posteriors st' !! t = posteriors st !! t
  ∧ (∀ x, x ∉ get_siblings c t → posteriors st' !! x = posteriors st !! x)
  ∧ spillover_rate (new default_spillover_rate) = 0.3%float.
Proof.
  intros st' rate. subst st' rate. unfold propagate_update.
  assert (∀ x, x ∉ get_siblings c t →
    posteriors (if decide (get_siblings c t = ∅) then st
                else foldl (spill_one (spillover_rate c) r) st
                       (elements (get_siblings c t))) !! x
    = posteriors st !! x) as Hother.
  { intros x Hx. case_decide; [done|].
    apply spill_all_other. by rewrite elem_of_elements. }
  split; [|split; [|split]].
  - intros s Hs. case_decide as Hempty; [set_solver|].
    exists (spilled (spillover_rate c) r (sibling_start st s)).
    split; [|split; [|split; [|split; [|split]]]]; try reflexivity.
    + apply spill_all_member; [apply NoDup_elements|].
      by rewrite elem_of_elements.
    + intros q Hq. unfold sibling_start, get_or_init. by rewrite Hq.
    + intros Hq. unfold sibling_start, get_or_init. by rewrite Hq.
  - apply Hother, get_siblings_not_self.
  - exact Hother.
  - reflexivity.
Qed.

(** C10. [get_or_init] on an id already present returns the stored
    posterior and leaves the state as it was, whatever base score and
    benchmark prior are passed; so a second call, with any priors, returns
    what the first returned and changes nothing, and initialization (from
    the benchmark prior, or the base score without one) happens only for an
    absent id. *)
Theorem get_or_init_present_ignores_priors (st : PosteriorState)
    (tid : string) (base : float) (bench : option float) :
  (∀ p, posteriors st !! tid = Some p →
     get_or_init st tid base bench = (p, st))
  ∧ (∀ base' bench',
       let '(p1, st1) := get_or_init st tid base bench in
       get_or_init st1 tid base' bench' = (p1, st1))
  ∧ (posteriors st !! tid = None →
       let p0 := default base bench in
       let '(p1, st1) := get_or_init st tid base bench in
       alpha p1 = (1 + prior_strength st * p0)%float
       ∧ beta p1 = (1 + prior_strength st * (1 - p0))%float
       ∧ observations p1 = 0
       ∧ posteriors st1 = <[tid := p1]> (posteriors st)).
Proof.
  split; [|split].
  - intros p Hp. unfold get_or_init. by rewrite Hp.
  - intros base' bench'. unfold get_or_init.
    destruct (posteriors st !! tid) as [p|] eqn:E.
    + by rewrite E.
    + simpl. by rewrite lookup_insert_eq.
  - intros Hnone p0. unfold get_or_init. rewrite Hnone.
    subst p0. destruct bench; simpl; done.
Qed.

End SpilloverFacts.

(** ** Comparisons of floats *)

Lemma float_ltb_leb (x y : float) :
  (x <? y)%float = true → (x <=? y)%float = true.
Proof.
  rewrite FloatAxioms.ltb_spec, FloatAxioms.leb_spec. unfold SFltb, SFleb.
  destruct (SFcompare _ _) as [[]|]; congruence.
Qed.

(** ** Weakest-layer analyzer: Wilson score *)

Section WilsonFacts.
Import Analyzer.





End WilsonFacts.

(** ** Rule-based scorer: signal gain *)

Section SignalGainFacts.
Import Scorers.

Lemma signal_gain_defaults :
  _get None "signal_gain" "default_score" = 0.7%float
  ∧ _get None "signal_gain" "untried_score" = 1.0%float
  ∧ _get None "signal_gain" "inconclusive_score" = 0.5%float
  ∧ _get None "signal_gain" "already_tested_score" = 0.1%float.
Proof. vm_compute. auto. Qed.

Lemma filter_length_pos {A} (P : A → Prop) `{∀ x, Decision (P x)} (l : list A) :
  (0 <? length (filter P l))%nat = true ↔ ∃ x, x ∈ l ∧ P x.
Proof.
  rewrite Nat.ltb_lt. split.
  - destruct (filter P l) as [|y ys] eqn:E; simpl; [lia|].
    intros _. exists y.
    assert (y ∈ filter P l) as Hy by (rewrite E; left).
    apply list_elem_of_filter in Hy. tauto.
  - intros (x & Hx & HP).
    assert (x ∈ filter P l) as Hy by (apply list_elem_of_filter; done).
    destruct (filter P l); [by apply elem_of_nil in Hy | simpl; lia].
Qed.

(** C7, the claim as stated fails: a technique with one inconclusive and one
    successful prior result has a conclusive prior result, and its signal
    gain is 0.5, not 0.1. *)
Lemma signal_gain_mixed_results_is_half :
  let rs := [ Examples.evaluation "att-0" (id Examples.DAN) None;
              Examples.evaluation "att-1" (id Examples.DAN) (Some true) ] in
  score_signal_gain Examples.DAN (Some rs) None = 0.5%float
  ∧ (0.5 =? 0.1)%float = false
  ∧ ∃ r, r ∈ results_of Examples.DAN rs ∧ success r = Some true.
Proof.
  split; [vm_compute; reflexivity|]. split; [vm_compute; reflexivity|].
  exists (Examples.evaluation "att-1" (id Examples.DAN) (Some true)).
  split; [|reflexivity].
  apply list_elem_of_filter. split; [reflexivity|]. right. left.
Qed.

(** C7, amended.  With the default thresholds the signal gain of a technique
    is 0.7 when there are no prior results at all (none passed, or an empty
    list), 1.0 when there are prior results and none is the technique's, 0.5
    when at least one of the technique's prior results is inconclusive, and
    0.1 when the technique has prior results and every one of them is
    conclusive. *)
Theorem score_signal_gain_cases (t : AttackTechnique)
    (prior_results : option (list EvaluationResult)) :
  let rs := default [] prior_results in
  let mine := results_of t rs in
  let score := score_signal_gain t prior_results None in
  (rs = [] → score = 0.7%float)
  ∧ (rs ≠ [] → mine = [] → score = 1.0%float)
  ∧ ((∃ r, r ∈ mine ∧ success r = None) → score = 0.5%float)
  ∧ (mine ≠ [] → (∀ r, r ∈ mine → success r ≠ None) → score = 0.1%float).
Proof.
  intros rs mine score.
  destruct signal_gain_defaults as (Hd & Hu & Hi & Ha).
  assert (rs = [] → score = 0.7%float) as H1.
  { subst score rs. unfold score_signal_gain.
    destruct prior_results as [[|r l]|]; simpl; intros; by try rewrite Hd. }
  assert (∀ r l, prior_results = Some (r :: l) →
    score = if bool_decide (mine = []) then 1.0%float
            else if (0 <? length (filter (λ x, success x = None) mine))%nat
                 then 0.5%float else 0.1%float) as Hcons.
  { intros r l ->. subst score mine rs. unfold score_signal_gain, results_of.
    simpl default. cbv zeta.
    set (rs := r :: l).
    rewrite Hu, Hi, Ha.
    assert (id t ∉ (list_to_set (comparability_technique_id <$> rs) : gset string)
            ↔ filter (λ x, comparability_technique_id x = id t) rs = []) as Hiff.
    { rewrite elem_of_list_to_set, list_elem_of_fmap. split.
      - intros Hno. destruct (filter _ rs) as [|y ys] eqn:E; [done|].
        assert (y ∈ filter (λ x, comparability_technique_id x = id t) rs) as Hy
          by (rewrite E; left).
        apply list_elem_of_filter in Hy as [Hy1 Hy2].
        exfalso. apply Hno. by exists y.
      - intros Hnil (x & Hx1 & Hx2).
        by apply (filter_nil_not_elem_of _ _ x Hnil). }
    repeat case_bool_decide; tauto. }
  split; [exact H1|]. split; [|split].
  - intros Hne Hmine. destruct prior_results as [[|r l]|]; try done.
    rewrite (Hcons r l eq_refl). by rewrite bool_decide_eq_true_2.
  - intros (r & Hr & Hnone).
    assert (mine ≠ []) as Hmine by (intros E; rewrite E in Hr; by apply elem_of_nil in Hr).
    destruct prior_results as [[|r0 l]|];
      try (subst mine rs; unfold results_of in Hmine; simpl in Hmine; done).
    rewrite (Hcons r0 l eq_refl). rewrite bool_decide_eq_false_2 by done.
    assert ((0 <? length (filter (λ x, success x = None) mine))%nat = true) as ->; [|done].
    apply filter_length_pos. by exists r.
  - intros Hmine Hall.
    destruct prior_results as [[|r0 l]|];
      try (subst mine rs; unfold results_of in Hmine; simpl in Hmine; done).
    rewrite (Hcons r0 l eq_refl). rewrite bool_decide_eq_false_2 by done.
    destruct (0 <? length (filter (λ x, success x = None) mine))%nat eqn:E; [|done].
    apply filter_length_pos in E as (r & Hr & Hnone). by destruct (Hall r Hr).
Qed.

End SignalGainFacts.

(** ** Benchmark-blended priors *)

Section BlendedPriorFacts.
Import Adaptive.




End BlendedPriorFacts.

(** ** Campaign identifiers and persistence *)

Section PersistenceFacts.
Import CampaignId.

(** The manager's persistence paths reject an identifier that
    [_validate_campaign_id] rejects, before any file-system operation. *)
Lemma manager_rejects_before_fs (m : Manager.CampaignManager)
    (c : Camp.Campaign) (cid : string) (fs : FS.t) (e : Py.exn) :
  (_validate_campaign_id (Camp.id c) = Py.Raise e →
     Manager._save m c fs = (Py.Raise e, m, fs))
  ∧ (_validate_campaign_id cid = Py.Raise e →
     Manager._load m cid fs = (Py.Raise e, m, fs)).
Proof.
  split; intros Hv; unfold Manager._save, Manager._load; by rewrite Hv.
Qed.

(** C8, at the failing inputs.  [SnapshotRecorder.record], [load] and
    [list_snapshots] validate nothing: for the identifier [../outside],
    which [_validate_campaign_id] rejects and the manager's [_load] refuses
    before touching the file system, [record] creates
    [store/../outside/snapshots] and writes the snapshot file there, and
    [load] and [list_snapshots] probe that path.  [_validate_campaign_id]
    itself accepts [abc] followed by a newline. *)
Theorem recorder_takes_unvalidated_id :
  let bad := "../outside" in
  let fs := FS.empty in
  Py.is_ok (_validate_campaign_id bad) = false
  ∧ (∃ e, Manager._load example_manager bad fs = (Py.Raise e, example_manager, fs))
  ∧ FS.log (Recorder.record example_recorder bad 0 example_snapshot "0123456789ab" fs).2
    = [ FS.Mkdir "store/../outside/snapshots";
        FS.WriteText "store/../outside/snapshots/step_0000.json" ]
  ∧ FS.log (Recorder.load example_recorder bad 0 fs).2
    = [ FS.Exists "store/../outside/snapshots/step_0000.json" ]
  ∧ FS.log (Recorder.list_snapshots (H := Examples.example_runtime)
              example_recorder bad fs).2
    = [ FS.Exists "store/../outside/snapshots" ]
  ∧ _validate_campaign_id ("abc" +:+ String newline "") = Py.Ok tt.
Proof.
  cbv zeta. split; [reflexivity|]. split.
  - eexists. unfold Manager._load. reflexivity.
  - repeat split; vm_compute; reflexivity.
Qed.

End PersistenceFacts.

(** ** The scoring loop of the adaptive planner *)

Section PlanLoopFacts.
Context `{Runtime}.
Import Adaptive PyList.

Variables (p : AdaptivePlanner) (target : TargetProfile)
  (prior_results : list EvaluationResult) (exclude_tried : bool)
  (repeat_penalty : float) (family_tracker : Diversity.FamilyTracker)
  (igw cw max_cost : float).

Local Abbreviation body :=
  (score_candidate p target prior_results exclude_tried repeat_penalty
     family_tracker igw cw max_cost).
Local Abbreviation skipped := (skipped prior_results exclude_tried).
Local Abbreviation base_of := (base_of p target prior_results).
Local Abbreviation blended_of := (blended_of p target prior_results).

Lemma body_skipped st t : skipped t = true → body st t = st.
Proof.
  unfold skipped, score_candidate. destruct st as [[g s] acc].
  by intros ->.
Qed.

(** A round that does not skip: the posterior is the one [get_or_init]
    returns, the sample is drawn from it, one candidate is appended. *)
Lemma body_scored g s acc t :
  skipped t = false →
  ∃ c, body (g, s, acc) t
       = ((betavariate g
             (alpha (get_or_init s (id t) (base_of t) (blended_of t)).1)
             (beta (get_or_init s (id t) (base_of t) (blended_of t)).1)).2,
          (get_or_init s (id t) (base_of t) (blended_of t)).2,
          acc ++ [c])
     ∧ c_technique c = t
     ∧ c_posterior c = (get_or_init s (id t) (base_of t) (blended_of t)).1
     ∧ (∀ s2, (get_or_init s2 (id t) (base_of t) (blended_of t)).1
              = (get_or_init s (id t) (base_of t) (blended_of t)).1 →
          ∀ acc2, body (g, s2, acc2) t
                  = ((betavariate g
                        (alpha (get_or_init s (id t) (base_of t) (blended_of t)).1)
                        (beta (get_or_init s (id t) (base_of t) (blended_of t)).1)).2,
                     (get_or_init s2 (id t) (base_of t) (blended_of t)).2,
                     acc2 ++ [c])).
Proof.
  intros Hskip. unfold skipped in Hskip.
  unfold score_candidate. rewrite Hskip.
  fold (base_of t). fold (blended_of t).
  destruct (get_or_init s (id t) (base_of t) (blended_of t)) as [post s1] eqn:E.
  simpl fst. simpl snd.
  destruct (betavariate g (alpha post) (beta post)) as [smp g1] eqn:Eb.
  simpl snd.
  eexists. split; [reflexivity|]. split; [reflexivity|]. split; [reflexivity|].
  intros s2 Hs2 acc2.
  destruct (get_or_init s2 (id t) (base_of t) (blended_of t)) as [post2 s2'] eqn:E2.
  simpl in Hs2. subst post2. rewrite Eb. reflexivity.
Qed.

Lemma get_or_init_keeps s tid b bl x q :
  posteriors s !! x = Some q →
  posteriors (get_or_init s tid b bl).2 !! x = Some q.
Proof.
  intros Hx. unfold get_or_init.
  destruct (posteriors s !! tid) eqn:E; simpl; [done|].
  rewrite lookup_insert_ne; [done|]. intros ->. congruence.
Qed.

Lemma get_or_init_stored s tid b bl :
  posteriors (get_or_init s tid b bl).2 !! tid = Some (get_or_init s tid b bl).1.
Proof.
  unfold get_or_init.
  destruct (posteriors s !! tid) eqn:E; simpl; [done|].
  apply lookup_insert_eq.
Qed.

Lemma get_or_init_found s tid b bl q :
  posteriors s !! tid = Some q → get_or_init s tid b bl = (q, s).
Proof. intros Hq. unfold get_or_init. by rewrite Hq. Qed.

Lemma foldl_unfold_cons {A B} (f : A → B → A) (a : A) (x : B) (l : list B) :
  foldl f a (x :: l) = foldl f (f a x) l.
Proof. reflexivity. Qed.

(** The loop never changes a posterior that is already stored. *)
Lemma loop_keeps (l : list AttackTechnique) : ∀ g s acc g' s' acc',
  foldl body (g, s, acc) l = (g', s', acc') →
  ∀ x q, posteriors s !! x = Some q → posteriors s' !! x = Some q.
Proof.
  induction l as [|t l IH]; intros g s acc g' s' acc' Hrun x q Hx;
    rewrite ?foldl_unfold_cons in Hrun.
  - by inversion Hrun; subst.
  - destruct (skipped t) eqn:Hsk.
    + rewrite body_skipped in Hrun by done. eauto.
    + destruct (body_scored g s acc t Hsk) as (c & Hstep & _).
      rewrite Hstep in Hrun.
      eapply IH; [exact Hrun|]. by apply get_or_init_keeps.
Qed.

(** Running the loop again from the state it ended in draws the same
    samples and appends the same candidates, and leaves that state as it
    is. *)
Lemma loop_rerun (l : list AttackTechnique) : ∀ g s acc g' s' acc',
  foldl body (g, s, acc) l = (g', s', acc') →
  ∀ s2 acc2,
    (∀ t, t ∈ l → skipped t = false →
          posteriors s2 !! id t = posteriors s' !! id t) →
    ∃ ext, acc' = acc ++ ext ∧ foldl body (g, s2, acc2) l = (g', s2, acc2 ++ ext).
Proof.
  induction l as [|t l IH]; intros g s acc g' s' acc' Hrun s2 acc2 Hagree;
    rewrite ?foldl_unfold_cons in Hrun |- *.
  - inversion Hrun; subst. exists []. by rewrite !app_nil_r.
  - destruct (skipped t) eqn:Hsk.
    + rewrite body_skipped in Hrun |- * by done.
      eapply IH; [exact Hrun|]. intros t' Ht'. apply Hagree. by right.
    + destruct (body_scored g s acc t Hsk) as (c & Hstep & _ & _ & Hany).
      rewrite Hstep in Hrun.
      assert (posteriors s2 !! id t
              = Some (get_or_init s (id t) (base_of t) (blended_of t)).1) as Hs2.
      { rewrite Hagree by (done || left).
        eapply loop_keeps; [exact Hrun|]. apply get_or_init_stored. }
      rewrite (Hany s2) by (by rewrite (get_or_init_found _ _ _ _ _ Hs2)).
      rewrite (get_or_init_found _ _ _ _ _ Hs2). simpl snd.
      destruct (IH _ _ _ _ _ _ Hrun s2 (acc2 ++ [c])) as (ext & Hext & Hrun2).
      { intros t' Ht'. apply Hagree. by right. }
      exists (c :: ext). split.
      * rewrite Hext. by rewrite <-app_assoc.
      * rewrite Hrun2. by rewrite <-app_assoc.
Qed.

(** With [exclude_tried], no appended candidate is a technique of the prior
    results. *)
Lemma loop_excludes (l : list AttackTechnique) : ∀ g s acc g' s' acc',
  exclude_tried = true →
  foldl body (g, s, acc) l = (g', s', acc') →
  Forall (λ c, id (c_technique c) ∉ tried_ids prior_results) acc →
  Forall (λ c, id (c_technique c) ∉ tried_ids prior_results) acc'.
Proof.
  induction l as [|t l IH]; intros g s acc g' s' acc' Hex Hrun Hacc;
    rewrite ?foldl_unfold_cons in Hrun.
  - by inversion Hrun; subst.
  - destruct (skipped t) eqn:Hsk.
    + rewrite body_skipped in Hrun by done. eauto.
    + destruct (body_scored g s acc t Hsk) as (c & Hstep & Hc & _).
      rewrite Hstep in Hrun. eapply IH; [done | exact Hrun |].
      apply Forall_app. split; [done|]. apply Forall_singleton.
      rewrite Hc. unfold skipped in Hsk. rewrite Hex in Hsk. simpl in Hsk.
      by apply bool_decide_eq_false in Hsk.
Qed.

End PlanLoopFacts.

(** ** The adaptive planner: determinism *)

Section PlanFacts.
Context `{Runtime}.
Import Adaptive PyList.

Lemma register_one_rate c t :
  Correlation.spillover_rate (Correlation.register_one c t)
  = Correlation.spillover_rate c.
Proof. reflexivity. Qed.

Lemma register_all_rate (l : list AttackTechnique) : ∀ c,
  Correlation.spillover_rate (foldl Correlation.register_one c l)
  = Correlation.spillover_rate c.
Proof. induction l as [|t l IH]; intros c; simpl; [done|]. by rewrite IH. Qed.

(** Registering the catalog again rebuilds the same index. *)
Lemma register_techniques_again c l :
  Correlation.register_techniques (Correlation.register_techniques c l) l
  = Correlation.register_techniques c l.
Proof.
  unfold Correlation.register_techniques at 1.
  unfold Correlation.register_techniques at 1.
  by rewrite register_all_rate.
Qed.

Lemma registered_again p registry :
  registered (registered p registry) registry = registered p registry.
Proof.
  unfold registered, with_correlation. simpl.
  destruct (correlation p) as [c|]; simpl; [|done].
  by rewrite register_techniques_again.
Qed.

(** [plan], unfolded into the pieces above. *)
Lemma plan_unfold p now target registry st prior k ex pen tr step ph :
  let r := sampling_run p target registry prior ex pen tr ph
             (Random (_derive_step_seed p step)) (initial_state p st) in
  Adaptive.plan p now target registry st prior k ex pen tr step ph
  = ({| plan_target := target;
        entries := entries_of p target registry k r;
        generated_at := now;
        config_used :=
          list_to_map [
            ("adaptive", VBool true);
            ("step_number", VInt step);
            ("step_seed", VInt (_derive_step_seed p step));
            ("prior_strength", VFloat (prior_strength p));
            ("cost_weight", VFloat (cost_weight p));
            ("exclude_tried", VBool ex);
            ("repeat_penalty", VFloat pen);
            ("campaign_phase", VStr (CampaignPhase_value ph)) ] |},
     r.1.2, registered p registry).
Proof.
  intros r. subst r.
  unfold Adaptive.plan, sampling_run, entries_of, initial_state, plan_tracker,
    plan_filtered, registered, phase_weights.
  destruct ph; simpl fst; simpl snd;
    match goal with |- context [foldl ?f ?a ?l] =>
      destruct (foldl f a l) as [[g' s'] acc'] end;
    reflexivity.
Qed.

(** Running the scoring loop again, for the planner and from the posterior
    state the first run left, gives the same outcome. *)
Lemma sampling_run_again p target registry prior ex pen tr ph g s0 :
  let r := sampling_run p target registry prior ex pen tr ph g s0 in
  sampling_run (registered p registry) target registry prior ex pen tr ph g r.1.2 = r.
Proof.
  intros r. subst r. unfold sampling_run. rewrite registered_again.
  change (plan_filtered (registered p registry) target registry)
    with (plan_filtered p target registry).
  change (plan_tracker (registered p registry) tr) with (plan_tracker p tr).
  change (phase_weights (registered p registry) ph) with (phase_weights p ph).
  change (filters_max_cost (registered p registry)) with (filters_max_cost p).
  match goal with |- context [foldl ?f (g, s0, []) ?l] =>
    destruct (foldl f (g, s0, []) l) as [[g' s'] acc'] eqn:Hrun end.
  simpl.
  destruct (loop_rerun _ _ _ _ _ _ _ _ _ _ _ _ _ _ _ _ Hrun s' []) as (ext & Hext & Hrun2);
    [done|].
  rewrite Hrun2. simpl in Hext. by rewrite Hext.
Qed.

(** Two invocations of [plan] with the same planner, target, catalog,
    posterior state, prior results, limits, flags, step number and phase
    return the same entries, the same recorded configuration, the same
    posterior state and the same planner, whatever the clock reads; and so
    does an invocation that receives the posterior state and the planner as
    the first one left them, which is what a second call on the same
    objects sees.  The step seed is [sha256_hex8] of
    ["campaign_seed:step_number"], and the entries are those of the scoring
    loop started from the generator seeded with it. *)
Lemma plan_deterministic (p : AdaptivePlanner) (now1 now2 : Z)
    (target : TargetProfile) (registry : TechniqueRegistry)
    (st : option PosteriorState) (prior : option (list EvaluationResult))
    (k : Z) (ex : bool) (pen : float) (tr : option Diversity.FamilyTracker)
    (step : Z) (ph : CampaignPhase) :
  let run1 := Adaptive.plan p now1 target registry st prior k ex pen tr step ph in
  let run2 := Adaptive.plan p now2 target registry st prior k ex pen tr step ph in
  let run3 := Adaptive.plan run1.2 now2 target registry (Some run1.1.2) prior
                k ex pen tr step ph in
  let step_seed :=
    sha256_hex8 (pretty (campaign_seed p) +:+ ":" +:+ pretty step) in
  (entries run2.1.1 = entries run1.1.1
   ∧ config_used run2.1.1 = config_used run1.1.1
   ∧ run2.1.2 = run1.1.2 ∧ run2.2 = run1.2)
  ∧ (entries run3.1.1 = entries run1.1.1
     ∧ config_used run3.1.1 = config_used run1.1.1
     ∧ run3.1.2 = run1.1.2 ∧ run3.2 = run1.2)
  ∧ config_used run1.1.1 !! "step_seed" = Some (VInt step_seed)
  ∧ entries run1.1.1
    = entries_of p target registry k
        (sampling_run p target registry prior ex pen tr ph
           (Random step_seed) (initial_state p st)).
Proof.
  intros run1 run2 run3 step_seed. subst run1 run2 run3 step_seed.
  rewrite !plan_unfold. cbv zeta. simpl fst. simpl snd.
  split; [done|]. split; [|split; [reflexivity|reflexivity]].
  change (_derive_step_seed (registered p registry) step)
    with (_derive_step_seed p step).
  change (initial_state (registered p registry) (Some ?s)) with s.
  rewrite sampling_run_again.
  unfold entries_of. rewrite registered_again.
  repeat split; reflexivity.
Qed.

End PlanFacts.

(** ** The adaptive planner: the campaign seed *)

Section SeedFacts.
Import Adaptive PyList.

(** C2. [AdaptivePlanner(campaign_seed=0)] does not keep the seed 0: the
    constructor draws one, as it does for [None], so two planners built
    from the same configuration and the seed 0 derive their step seeds from
    two draws and, on the example data, return different plans for the same
    target, catalog, state and step.  A seed other than 0 is kept: planners
    built from the same inputs are then equal whatever the draws, the step
    seed is [sha256_hex8] of ["campaign_seed:step_number"], and two
    invocations of [plan], on the same state or on the state and planner
    the first one left, return the same entries, recorded configuration
    and posterior state. *)
Theorem plan_from_seed_zero_differs :
  (∀ config engine rp corr randint,
     campaign_seed (__init__ config engine rp (Some 0%Z) corr randint) = randint
     ∧ campaign_seed (__init__ config engine rp None corr randint) = randint)
  ∧ (∀ (rt : Runtime) config engine rp corr randint now target registry st prior
       k ex pen tr step ph,
       config_used
         (Adaptive.plan (__init__ config engine rp (Some 0%Z) corr randint) now
            target registry st prior k ex pen tr step ph).1.1 !! "step_seed"
       = Some (VInt (sha256_hex8 (pretty randint +:+ ":" +:+ pretty step))))
  ∧ (entries (Scenario.plan_seed0 1) ≠ entries (Scenario.plan_seed0 2)
     ∧ technique_ids (Scenario.plan_seed0 1) ≠ technique_ids (Scenario.plan_seed0 2))
  ∧ (∀ (rt : Runtime) config engine rp corr (s r1 r2 now1 now2 : Z) target registry
       st prior k ex pen tr step ph,
       s ≠ 0%Z →
       let p1 := __init__ config engine rp (Some s) corr r1 in
       let p2 := __init__ config engine rp (Some s) corr r2 in
       let run1 := Adaptive.plan p1 now1 target registry st prior k ex pen tr step ph in
       let run2 := Adaptive.plan p2 now2 target registry st prior k ex pen tr step ph in
       let run3 := Adaptive.plan run1.2 now2 target registry (Some run1.1.2) prior
                     k ex pen tr step ph in
       p1 = p2 ∧ campaign_seed p1 = s
       ∧ (entries run2.1.1 = entries run1.1.1
          ∧ config_used run2.1.1 = config_used run1.1.1 ∧ run2.1.2 = run1.1.2)
       ∧ (entries run3.1.1 = entries run1.1.1
          ∧ config_used run3.1.1 = config_used run1.1.1 ∧ run3.1.2 = run1.1.2)
       ∧ config_used run1.1.1 !! "step_seed"
         = Some (VInt (sha256_hex8 (pretty s +:+ ":" +:+ pretty step)))).
Proof.
  split; [done|]. split; [|split].
  - intros rt config engine rp corr randint now target registry st prior
      k ex pen tr step ph.
    rewrite plan_unfold. reflexivity.
  - split.
    + intros Heq. vm_compute in Heq. discriminate Heq.
    + intros Heq. vm_compute in Heq. discriminate Heq.
  - intros rt config engine rp corr s r1 r2 now1 now2 target registry
      st prior k ex pen tr step ph Hs. cbv zeta.
    assert (__init__ config engine rp (Some s) corr r1
            = __init__ config engine rp (Some s) corr r2) as Hp.
    { unfold __init__. apply Z.eqb_neq in Hs. by rewrite Hs. }
    assert (campaign_seed (__init__ config engine rp (Some s) corr r1) = s) as Hseed.
    { unfold __init__. cbn [campaign_seed]. apply Z.eqb_neq in Hs. by rewrite Hs. }
    rewrite <- Hp.
    set (p := __init__ config engine rp (Some s) corr r1) in *.
    pose proof (plan_deterministic p now1 now2 target registry st prior k ex pen
                  tr step ph) as Hdet.
    cbv zeta in Hdet. rewrite Hseed in Hdet.
    destruct Hdet as ((He2 & Hc2 & Hs2 & _) & (He3 & Hc3 & Hs3 & _) & Hstep & _).
    repeat split; assumption.
Qed.

End SeedFacts.

(** ** Exclusion of tried techniques *)

Section ExclusionFacts.
Context `{Runtime}.
Import Adaptive PyList.

Lemma elem_of_insert_desc {A} (key : A → float) (x y : A) (l : list A) :
  y ∈ insert_desc key x l → y = x ∨ y ∈ l.
Proof.
  induction l as [|z l IH]; simpl.
  - intros Hy. apply list_elem_of_singleton in Hy. by left.
  - destruct (key x <? key z)%float.
    + intros Hy. apply elem_of_cons in Hy as [->|Hy].
      * right. left.
      * destruct (IH Hy) as [->|Hl]; [by left|]. right. by right.
    + intros Hy. apply elem_of_cons in Hy as [->|Hy]; [by left|by right].
Qed.

Lemma elem_of_sort_desc {A} (key : A → float) (y : A) (l : list A) :
  y ∈ sort_desc key l → y ∈ l.
Proof.
  unfold sort_desc. induction l as [|x l IH]; simpl; [done|].
  intros Hy. apply elem_of_insert_desc in Hy as [->|Hy]; [left|right; auto].
Qed.

Lemma elem_of_slice_to {A} (n : Z) (y : A) (l : list A) :
  y ∈ slice_to n l → y ∈ l.
Proof.
  unfold slice_to. destruct (0 <=? n)%Z; intros Hy;
    apply elem_of_take in Hy as (i & Hi & _);
    apply list_elem_of_lookup; eauto.
Qed.

(** Every entry of a plan is built from a candidate of the scoring loop. *)
Lemma entries_of_candidates p target registry k (r : LoopState) (e : PlanEntry) :
  e ∈ entries_of p target registry k r →
  ∃ c, c ∈ r.2 ∧ entry_technique_id e = id (c_technique c)
       ∧ utility (entry_score e) = Some (c_utility c).
Proof.
  unfold entries_of. intros He.
  apply list_elem_of_fmap in He as ([rk c] & -> & Hrc).
  unfold enumerate1 in Hrc.
  apply elem_of_lookup_imap in Hrc as (i & x & Heq & Hx).
  inversion Heq; subst. exists x. split; [|done].
  apply elem_of_sort_desc with (key := c_utility).
  apply elem_of_slice_to with (n := k).
  apply list_elem_of_lookup. eauto.
Qed.

(** With [exclude_tried], no entry of a plan is a technique of the prior
    results. *)
Lemma plan_excludes_prior_results p now target registry st prior k pen tr step ph e :
  e ∈ entries (Adaptive.plan p now target registry st (Some prior) k true pen tr
                 step ph).1.1 →
  entry_technique_id e ∉ tried_ids prior.
Proof.
  rewrite plan_unfold. cbv zeta. simpl fst. simpl entries. intros He.
  apply entries_of_candidates in He as (c & Hc & -> & _).
  unfold sampling_run in Hc.
  match type of Hc with context [foldl ?f ?a ?l] =>
    destruct (foldl f a l) as [[g' s'] acc'] eqn:Hrun end.
  simpl in Hc.
  eapply loop_excludes in Hrun; [|done|by apply Forall_nil].
  rewrite Forall_forall in Hrun. by apply Hrun.
Qed.

End ExclusionFacts.

(** ** The campaign manager: exclusion on [recommend_next] *)

Section RecommendFacts.
Context `{Runtime}.
Import Manager.

Lemma save_outcome m c fs :
  ∃ r fs', _save m c fs = (r, (if Py.is_ok r then set_campaign m (Camp.id c) c else m), fs').
Proof.
  unfold _save. destruct (CampaignId._validate_campaign_id (Camp.id c)) as [[]|e].
  - destruct (_storage_dir (set_campaign m (Camp.id c) c));
      exists (Py.Ok tt); eexists; reflexivity.
  - exists (Py.Raise e); eexists; reflexivity.
Qed.

Lemma recommend_found_plan m c cid k ex pen adaptive uuid now fs plan m' fs' :
  served_adaptively m c adaptive →
  recommend_found m c cid k ex pen adaptive uuid now fs = (Py.Ok plan, m', fs') →
  ∃ planner now' st tr step ph,
    plan = (Adaptive.plan planner now' (Camp.target c) (_registry m) st
              (Some (Camp.evaluations (Camp.state c))) k ex pen tr step ph).1.1.
Proof.
  intros (Had & [planner Hpl] & [ps Hps]) Hrun.
  unfold recommend_found in Hrun. cbv zeta in Hrun.
  assert (match adaptive with
          | Some b => b
          | None => truthy (default (VBool false) (Camp.metadata c !! "adaptive"))
          end = true) as Had' by (destruct adaptive; exact Had).
  rewrite Had' in Hrun.
  change (_adaptive_planner (set_campaign ?a ?b ?d)) with (_adaptive_planner a) in Hrun.
  change (_adaptive_planner (set_counter ?a ?b ?d)) with (_adaptive_planner a) in Hrun.
  rewrite Hpl in Hrun.
  set (c' := if _should_transition _ c then Camp.set_phase c EXPLOIT else c) in Hrun.
  assert (Camp.posterior_state c' = Some ps ∧ Camp.state c' = Camp.state c
          ∧ Camp.target c' = Camp.target c) as (Hps' & Hst' & Htg').
  { subst c'. destruct (_should_transition _ c); simpl; auto. }
  rewrite Hps', Hst', Htg' in Hrun.
  change (_registry (set_campaign ?a ?b ?d)) with (_registry a) in Hrun.
  change (_registry (set_counter ?a ?b ?d)) with (_registry a) in Hrun.
  match type of Hrun with context [Adaptive.plan ?a ?b ?c0 ?d ?e ?f ?g ?h ?i ?j ?k0 ?l] =>
    exists a, b, e, j, k0, l;
    destruct (Adaptive.plan a b c0 d e f g h i j k0 l) as [[pl up] pr] eqn:Hplan
  end.
  match type of Hrun with context [_save ?a ?b ?d] =>
    destruct (_save a b d) as [[[u|e] ms] fss] end.
  - by inversion Hrun.
  - discriminate.
Qed.

(** X27. A [recommend_next] call with [exclude_tried] that the adaptive
    planner serves (the [adaptive] argument, or without it the campaign's
    [adaptive] flag, is set, the manager has an adaptive planner and the
    campaign has a posterior state) and that returns a plan: no entry of
    the plan has the technique id of one of the campaign's evaluations;
    those candidates are skipped before scoring. *)
Theorem recommend_next_excludes_evaluated (m m0 m' : CampaignManager)
    (cid : string) (c : Camp.Campaign) (k : Z) (pen : float)
    (adaptive : option bool) (uuid : string) (now : Z) (fs fs0 fs' : FS.t)
    (plan : AttackPlan) :
  get m cid fs = (Py.Ok (Some c), m0, fs0) →
  served_adaptively m0 c adaptive →
  recommend_next m cid k true pen adaptive uuid now fs = (Py.Ok plan, m', fs') →
  ∀ e, e ∈ entries plan →
    (entry_technique_id e ∉ Adaptive.tried_ids (Camp.evaluations (Camp.state c)))
    ∧ (∀ r, r ∈ Camp.evaluations (Camp.state c) →
            entry_technique_id e ≠ comparability_technique_id r).
Proof.
  intros Hget Hserved Hrun e He.
  unfold recommend_next in Hrun. rewrite Hget in Hrun.
  destruct (recommend_found_plan _ _ _ _ _ _ _ _ _ _ _ _ _ Hserved Hrun)
    as (planner & now' & st & tr & step & ph & ->).
  apply plan_excludes_prior_results in He. split; [exact He|].
  intros r Hr Heq. apply He. unfold Adaptive.tried_ids.
  apply elem_of_list_to_set, list_elem_of_fmap. by exists r.
Qed.

End RecommendFacts.

(** ** Runs on the example data *)

Section ExampleRuns.
#[local] Existing Instance Examples.example_runtime.
Import Manager.

(** C5. [recommend_next] with [exclude_tried] returns techniques the
    campaign has tried.  (i) A technique that was attempted but has no
    evaluation is in the campaign's [techniques_tried], and an adaptive
    [recommend_next] with [exclude_tried] still returns it: the planner
    takes the tried ids from the evaluations.  (ii) For a campaign that is
    not adaptive, [recommend_next] with [exclude_tried] returns a technique
    that has been attempted and evaluated: the rule-based branch does not
    look at the flag. *)
Theorem recommend_next_returns_tried :
  let m0 := Manager.__init__ Examples.catalog Examples.example_engine
              (Some Examples.planner42) (Some "store") in
  let cid := "0123456789ab" in
  let dan := id Examples.DAN in
  (let s1 := create m0 Examples.chatbot "" true true (Some 42%Z) cid 7 100 FS.empty in
   let s2 := ingest_results s1.1.2 cid [Examples.attempt "att-0" dan] [] 101 s1.2 in
   let s3 := recommend_next s2.1.2 cid 5 true 0 None "bbbbbbbbbbbb" 102 s2.2 in
   (Camp.techniques_tried ∘ Camp.state <$> _campaigns s2.1.2 !! cid) = Some [dan]
   ∧ ∃ plan, s3.1.1 = Py.Ok plan ∧ dan ∈ technique_ids plan)
  ∧ (let s1 := create m0 Examples.chatbot "" true false None cid 7 100 FS.empty in
     let s2 := ingest_results s1.1.2 cid [Examples.attempt "att-0" dan]
                 [Examples.evaluation "att-0" dan (Some true)] 101 s1.2 in
     let s3 := recommend_next s2.1.2 cid 5 true 0 None "bbbbbbbbbbbb" 102 s2.2 in
     (Camp.techniques_tried ∘ Camp.state <$> _campaigns s2.1.2 !! cid) = Some [dan]
     ∧ ∃ plan, s3.1.1 = Py.Ok plan ∧ dan ∈ technique_ids plan).
Proof.
  cbv zeta. split.
  - split; [vm_compute; reflexivity|].
    eexists. split; [vm_compute; reflexivity|].
    apply (bool_decide_unpack _). vm_compute. exact I.
  - split; [vm_compute; reflexivity|].
    eexists. split; [vm_compute; reflexivity|].
    apply (bool_decide_unpack _). vm_compute. exact I.
Qed.

End ExampleRuns.

(** ** The campaign manager as a state machine *)

Section ManagerInvariant.
Import Manager CampaignId.

Lemma string_length_app (a b : string) :
  String.length (a +:+ b) = (String.length a + String.length b)%nat.
Proof. induction a as [|c a IH]; simpl; [done|]. by rewrite IH. Qed.

Lemma string_app_inv_tail (a b t : string) : a +:+ t = b +:+ t → a = b.
Proof.
  revert b. induction a as [|c a IH]; intros [|d b] Heq; simpl in Heq.
  - done.
  - apply (f_equal String.length) in Heq. simpl in Heq.
    rewrite !string_length_app in Heq. simpl in Heq. lia.
  - apply (f_equal String.length) in Heq. simpl in Heq.
    rewrite !string_length_app in Heq. simpl in Heq. lia.
  - inversion Heq as [[Hc Ht]]. f_equal. by apply IH.
Qed.

Lemma valid_id_path dir k :
  _validate_campaign_id k = Py.Ok tt →
  campaign_path dir k = dir +:+ "/" +:+ k +:+ ".json".
Proof.
  unfold _validate_campaign_id, _SAFE_ID_RE_match, campaign_path, FS.join.
  destruct k as [|c k]; simpl; [done|].
  destruct (safe_char c) eqn:Hc; simpl; [|done].
  intros _. case_bool_decide as Hslash; [|done].
  subst c. vm_compute in Hc. discriminate.
Qed.

Lemma campaign_path_inj dir k k' :
  _validate_campaign_id k = Py.Ok tt → _validate_campaign_id k' = Py.Ok tt →
  campaign_path dir k = campaign_path dir k' → k = k'.
Proof.
  intros Hk Hk'. rewrite !valid_id_path by done. intros Heq.
  apply (inj (String.app dir)) in Heq.
  apply (inj (String.app "/")) in Heq.
  by apply string_app_inv_tail in Heq.
Qed.

Lemma validate_ok_or_raise k :
  _validate_campaign_id k = Py.Ok tt ∨ ∃ e, _validate_campaign_id k = Py.Raise e.
Proof.
  unfold _validate_campaign_id.
  destruct (bool_decide (k = "") || negb (_SAFE_ID_RE_match k)); eauto.
Qed.

(** [_save] keeps the invariant, and touches the campaign table at most at
    the campaign's own id. *)
Lemma save_spec m c fs :
  let out := _save m c fs in
  (out.1.2 = m ∨ out.1.2 = set_campaign m (Camp.id c) c)
  ∧ (disk_wf m fs → disk_wf out.1.2 out.2).
Proof.
  unfold _save.
  destruct (validate_ok_or_raise (Camp.id c)) as [Hv|[e Hv]]; rewrite Hv; simpl.
  2: { split; [by left | done]. }
  destruct (_storage_dir m) as [dir|] eqn:Hdir; simpl.
  2: { split; [by right|]. intros Hd dir k c0. simpl. rewrite Hdir. done. }
  split; [by right|].
  intros Hd dir' k c0. simpl. rewrite Hdir. intros [= <-] Hk.
  rewrite lookup_insert_eq.
  destruct (decide (campaign_path dir (Camp.id c) = campaign_path dir k)) as [Heq|Hne].
  - rewrite Heq, lookup_insert_eq. intros [= <-].
    by apply (campaign_path_inj dir).
  - rewrite lookup_insert_ne by done.
    destruct (decide (campaign_path dir (Camp.id c) +:+ ".tmp" = campaign_path dir k))
      as [Heq2|Hne2].
    + rewrite Heq2, lookup_delete_eq. done.
    + rewrite lookup_delete_ne, lookup_insert_ne by done.
      by apply Hd.
Qed.

(** [get] keeps the invariant; it adds at most the campaign it loads. *)
Lemma get_spec m cid fs :
  let out := get m cid fs in
  (out.1.2 = m
   ∨ ∃ c, out.1.1 = Py.Ok (Some c) ∧ _campaigns m !! cid = None
          ∧ out.1.2 = set_campaign m cid c
          ∧ ((∀ dir k c0, _storage_dir m = Some dir →
                _validate_campaign_id k = Py.Ok tt →
                FS.files fs !! campaign_path dir k = Some (FS.CampaignDoc c0) →
                Camp.id c0 = k) → Camp.id c = cid))
  ∧ (∀ c, out.1.1 = Py.Ok (Some c) → _campaigns out.1.2 !! cid = Some c)
  ∧ FS.files out.2 = FS.files fs.
Proof.
  unfold get. destruct (_campaigns m !! cid) as [c|] eqn:Hmem; simpl.
  { split; [by left|]. split; [|done]. by intros ? [= <-]. }
  unfold _load.
  destruct (validate_ok_or_raise cid) as [Hv|[e Hv]]; rewrite Hv; simpl.
  2: { split; [by left|]. split; [|done]. by intros. }
  destruct (_storage_dir m) as [dir|] eqn:Hdir; simpl.
  2: { split; [by left|]. split; [|done]. by intros. }
  destruct (bool_decide _ || bool_decide _); simpl.
  2: { split; [by left|]. split; [|done]. by intros. }
  destruct (FS.files fs !! campaign_path dir cid) as [[c|s]|] eqn:Hfile; simpl.
  - split; [|split; [|done]].
    + right. exists c. repeat split; try done. intros Hd. by eapply Hd.
    + intros ? [= <-]. simpl. apply lookup_insert_eq.
  - split; [by left|]. split; [|done]. by intros.
  - split; [by left|]. split; [|done]. by intros.
Qed.

End ManagerInvariant.

Section ManagerSteps.
Context `{Runtime}.
Import Manager CampaignId.

Lemma mem_wf_set m k c : mem_wf m → Camp.id c = k → mem_wf (set_campaign m k c).
Proof.
  intros Hwf Hid k' c'. simpl. destruct (decide (k = k')) as [<-|Hne].
  - rewrite lookup_insert_eq. by intros [= <-].
  - rewrite lookup_insert_ne by done. apply Hwf.
Qed.

Lemma in_exploit_set cid0 m k c :
  in_exploit cid0 m → (k = cid0 → Camp.phase c = EXPLOIT) →
  in_exploit cid0 (set_campaign m k c).
Proof.
  intros (c0 & Hc0 & Hph) Hk. unfold in_exploit. simpl.
  destruct (decide (k = cid0)) as [->|Hne].
  - exists c. rewrite lookup_insert_eq. auto.
  - exists c0. by rewrite lookup_insert_ne.
Qed.

Lemma disk_wf_same m m' fs fs' :
  _storage_dir m' = _storage_dir m → FS.files fs' = FS.files fs →
  disk_wf m fs → disk_wf m' fs'.
Proof.
  intros Hdir Hfiles Hd dir k c. rewrite Hdir, Hfiles. apply Hd.
Qed.

Lemma record_snapshot_disk m c step plan uuid now fs :
  disk_wf m fs → disk_wf m (_record_snapshot m c step plan uuid now fs).
Proof.
  intros Hd. unfold _record_snapshot.
  destruct (_recorder m) as [r|]; [|done].
  destruct (Camp.posterior_state c) as [ps|]; [|done].
  intros dir k c0 Hdir Hk. unfold Recorder.record. simpl.
  match goal with |- context [<[?q := _]> _] =>
    destruct (decide (q = campaign_path dir k)) as [->|Hne] end.
  - by rewrite lookup_insert_eq.
  - rewrite lookup_insert_ne by done. by apply Hd.
Qed.

Lemma recommend_found_spec m c cid k ex pen adaptive uuid now fs :
  let out := recommend_found m c cid k ex pen adaptive uuid now fs in
  (∃ c', _campaigns out.1.2 !! cid = Some c'
         ∧ Camp.phase c' = phase_after m c cid ∧ Camp.id c' = Camp.id c)
  ∧ _step_counters out.1.2 !! cid
    = Some (default 0 (_step_counters m !! cid) + 1)%Z
  ∧ (∀ j, j ≠ cid → _step_counters out.1.2 !! j = _step_counters m !! j)
  ∧ (Camp.id c = cid → ∀ j, j ≠ cid → _campaigns out.1.2 !! j = _campaigns m !! j)
  ∧ _storage_dir out.1.2 = _storage_dir m
  ∧ _registry out.1.2 = _registry m
  ∧ (disk_wf m fs → disk_wf out.1.2 out.2).
Proof.
  unfold recommend_found, phase_after. cbv zeta.
  set (step := default 0%Z (_step_counters m !! cid)).
  set (m1 := set_counter m cid (step + 1)%Z).
  set (c1 := if _should_transition m1 c then Camp.set_phase c EXPLOIT else c).
  assert (Camp.phase c1 = (if _should_transition m1 c then EXPLOIT else Camp.phase c)
          ∧ Camp.id c1 = Camp.id c) as [Hph1 Hid1].
  { subst c1. by destruct (_should_transition m1 c). }
  set (m2 := set_campaign m1 cid c1).
  assert (∀ fs0,
    let out := (Py.Ok tt, m2, fs0) : Outcome unit in
    (∃ c', _campaigns m2 !! cid = Some c'
           ∧ Camp.phase c' = (if _should_transition m1 c then EXPLOIT else Camp.phase c)
           ∧ Camp.id c' = Camp.id c)
    ∧ _step_counters m2 !! cid = Some (step + 1)%Z
    ∧ (∀ j, j ≠ cid → _step_counters m2 !! j = _step_counters m !! j)
    ∧ (Camp.id c = cid → ∀ j, j ≠ cid → _campaigns m2 !! j = _campaigns m !! j)
    ∧ _storage_dir m2 = _storage_dir m ∧ _registry m2 = _registry m) as Hbase.
  { intros fs0 out. subst m2 m1. simpl. split; [|split; [|split; [|split]]].
    - exists c1. by rewrite lookup_insert_eq.
    - apply lookup_insert_eq.
    - intros j Hj. by rewrite lookup_insert_ne.
    - intros _ j Hj. by rewrite lookup_insert_ne.
    - done. }
  destruct (Hbase fs) as (Hc' & Hcnt & Hcnto & Hoth & Hdir & Hreg).
  destruct (match adaptive with
            | Some b => b
            | None => truthy (default (VBool false) (Camp.metadata c !! "adaptive"))
            end) eqn:Had.
  2: { simpl. repeat split; try done;
         try (intros Hd; by apply (disk_wf_same m _ fs fs)). }
  match goal with |- context [match _adaptive_planner ?x with _ => _ end] =>
    destruct (_adaptive_planner x) as [planner|] eqn:Hpl end.
  2: { simpl. repeat split; try done;
         try (intros Hd; by apply (disk_wf_same m _ fs fs)). }
  destruct (Camp.posterior_state c1) as [ps|] eqn:Hps.
  2: { simpl. repeat split; try done;
         try (intros Hd; by apply (disk_wf_same m _ fs fs)). }
  match goal with |- context [Adaptive.plan ?a ?b ?c0 ?d ?e ?f ?g ?h ?i ?j ?k0 ?l] =>
    destruct (Adaptive.plan a b c0 d e f g h i j k0 l) as [[pl up] pr] end.
  set (c2 := Camp.set_posterior_state c1 (Some up)).
  set (m3 := set_campaign (set_planner m2 (Some pr)) cid c2).
  destruct (save_spec m3 c2 fs) as [Hm4 Hd4].
  destruct (_save m3 c2 fs) as [[r m4] fs4]. simpl in Hm4, Hd4.
  assert (_storage_dir m4 = _storage_dir m ∧ _registry m4 = _registry m
          ∧ _step_counters m4 = _step_counters m2
          ∧ _recorder m4 = _recorder m
          ∧ (∃ c', _campaigns m4 !! cid = Some c'
               ∧ Camp.phase c' = (if _should_transition m1 c then EXPLOIT
                                  else Camp.phase c)
               ∧ Camp.id c' = Camp.id c)
          ∧ (Camp.id c = cid → ∀ j, j ≠ cid → _campaigns m4 !! j = _campaigns m !! j))
    as (Hdir4 & Hreg4 & Hcnt4 & Hrec4 & Hc4 & Hoth4).
  { destruct Hm4 as [->| ->]; subst m3; simpl.
    - repeat split; try done.
      + exists c2. rewrite lookup_insert_eq. subst c2. simpl. auto.
      + intros Hid j Hj. rewrite lookup_insert_ne by done.
        subst m2 m1. simpl. by rewrite lookup_insert_ne.
    - repeat split; try done.
      + exists c2. split; [|subst c2; simpl; auto].
        destruct (decide (Camp.id c1 = cid)) as [Heq|Hne].
        * rewrite Heq. apply lookup_insert_eq.
        * rewrite lookup_insert_ne by done. apply lookup_insert_eq.
      + intros Hid j Hj.
        rewrite lookup_insert_ne by (rewrite Hid1; congruence).
        rewrite lookup_insert_ne by done.
        subst m2 m1. simpl. by rewrite lookup_insert_ne. }
  assert (disk_wf m fs → disk_wf m4 fs4) as Hd4'.
  { intros Hd. apply Hd4. by apply (disk_wf_same m _ fs fs). }
  destruct r as [u|e]; simpl.
  - rewrite Hcnt4. repeat split; try done.
    intros Hd. by apply record_snapshot_disk, Hd4'.
  - rewrite Hcnt4. repeat split; done.
Qed.

End ManagerSteps.

Section ManagerMachine.
Context `{Runtime}.
Import Manager CampaignId.

Lemma keyed_refl cid m : mem_wf m → keyed cid m m.
Proof. intros Hwf. repeat split; eauto. Qed.

Lemma keyed_preserves cid m m' :
  mem_wf m → keyed cid m m' →
  mem_wf m' ∧ ∀ cid0, in_exploit cid0 m → in_exploit cid0 m'.
Proof.
  intros Hwf (_ & Hoth & Hid & Hex). split.
  - intros k c'. destruct (decide (k = cid)) as [->|Hne]; [apply Hid|].
    rewrite Hoth by done. apply Hwf.
  - intros cid0 (c & Hc & Hph). destruct (decide (cid0 = cid)) as [->|Hne].
    + by apply (Hex c).
    + exists c. by rewrite Hoth.
Qed.

Lemma keyed_trans cid m1 m2 m3 : keyed cid m1 m2 → keyed cid m2 m3 → keyed cid m1 m3.
Proof.
  intros (Hd1 & Ho1 & Hi1 & He1) (Hd2 & Ho2 & Hi2 & He2).
  split; [congruence|]. split; [|split; [done|]].
  - intros j Hj. rewrite Ho2, Ho1; done.
  - intros c Hc Hph. destruct (He1 c Hc Hph) as (c' & Hc' & Hph'). eauto.
Qed.

(** [get] *)
Lemma get_keyed m cid fs :
  wf (m, fs) →
  let out := get m cid fs in
  keyed cid m out.1.2 ∧ disk_wf out.1.2 out.2
  ∧ (∀ c, out.1.1 = Py.Ok (Some c) →
          _campaigns out.1.2 !! cid = Some c ∧ Camp.id c = cid).
Proof.
  intros [Hmem Hdisk]. simpl in Hmem, Hdisk.
  destruct (get_spec m cid fs) as (Hshape & Hfound & Hfiles).
  destruct (get m cid fs) as [[r m1] fs1]. simpl in *.
  assert (keyed cid m m1 ∧ _storage_dir m1 = _storage_dir m) as [Hk Hdir].
  { destruct Hshape as [->|(c & -> & Hnone & -> & Hid)].
    - split; [by apply keyed_refl|done].
    - split; [|done]. specialize (Hid Hdisk). repeat split; simpl.
      + intros j Hj. by rewrite lookup_insert_ne.
      + intros c'. rewrite lookup_insert_eq. by intros [= <-].
      + intros c0. rewrite Hnone. done. }
  split; [done|]. split; [by apply (disk_wf_same m _ fs)|].
  intros c Hc. split; [by apply Hfound|].
  destruct Hk as (_ & _ & Hid & _). by apply Hid, Hfound.
Qed.

(** Storing a campaign under [cid] and saving it. *)
Lemma store_save_keyed m cid c c2 fs :
  mem_wf m → _campaigns m !! cid = Some c →
  Camp.id c2 = cid → (Camp.phase c = EXPLOIT → Camp.phase c2 = EXPLOIT) →
  let out := _save (set_campaign m cid c2) c2 fs in
  keyed cid m out.1.2 ∧ (disk_wf m fs → disk_wf out.1.2 out.2).
Proof.
  intros Hmem Hc Hid Hph.
  destruct (save_spec (set_campaign m cid c2) c2 fs) as [Hshape Hd].
  destruct (_save (set_campaign m cid c2) c2 fs) as [[r m1] fs1]. simpl in *.
  split; [|intros Hd0; apply Hd; by apply (disk_wf_same m _ fs fs)].
  rewrite Hid in Hshape.
  assert (_campaigns m1 = <[cid := c2]> (_campaigns m)
          ∧ _storage_dir m1 = _storage_dir m) as [Hcs Hdir].
  { destruct Hshape as [->| ->]; simpl; [done|]. by rewrite insert_insert_eq. }
  unfold keyed. rewrite Hcs, Hdir. repeat split.
  - intros j Hj. by rewrite lookup_insert_ne.
  - intros c'. rewrite lookup_insert_eq. by intros [= <-].
  - intros c0 Hc0 Hex. exists c2. rewrite lookup_insert_eq. split; [done|].
    apply Hph. congruence.
Qed.

Lemma status_found_keyed m c cid status fs :
  mem_wf m → _campaigns m !! cid = Some c →
  let out := status_found m c cid status fs in
  keyed cid m out.1.2 ∧ (disk_wf m fs → disk_wf out.1.2 out.2).
Proof.
  intros Hmem Hc. unfold status_found. cbv zeta.
  destruct (store_save_keyed m cid c (Camp.set_status c status) fs Hmem Hc)
    as [Hk Hd]; [simpl; by apply Hmem | done |].
  destruct (_save _ _ fs) as [[[u|e] m1] fs1]; simpl in *; done.
Qed.

Lemma ingest_found_keyed m c cid attempts evaluations now fs :
  mem_wf m → _campaigns m !! cid = Some c →
  let out := ingest_found m c cid attempts evaluations now fs in
  keyed cid m out.1.2 ∧ (disk_wf m fs → disk_wf out.1.2 out.2).
Proof.
  intros Hmem Hc. unfold ingest_found. cbv zeta.
  match goal with |- context [Camp.set_state c ?st] => set (c1 := Camp.set_state c st) end.
  match goal with |- context [let '(campaign, raised) := ?x in _] =>
    assert (Camp.id x.1 = cid ∧ Camp.phase x.1 = Camp.phase c) as [Hid Hph];
    [|destruct x as [c2 raised]] end.
  { assert (Camp.id c1 = cid ∧ Camp.phase c1 = Camp.phase c) as [Hid1 Hph1]
      by (split; [exact (Hmem cid c Hc) | done]).
    destruct (truthy _); [|done].
    destruct (_adaptive_planner m); [|done].
    destruct (Camp.posterior_state c1); [|done].
    destruct (Adaptive.update_posteriors _ _ _ _ _). done. }
  simpl in Hid, Hph.
  destruct (store_save_keyed m cid c c2 fs Hmem Hc Hid) as [Hk Hd]; [congruence|].
  destruct raised as [e|].
  - simpl. split; [|intros Hd0; by apply (disk_wf_same m _ fs fs)].
    repeat split; simpl.
    + intros j Hj. by rewrite lookup_insert_ne.
    + intros c'. rewrite lookup_insert_eq. by intros [= <-].
    + intros c0 Hc0 Hex. exists c2. rewrite lookup_insert_eq. split; [done|].
      rewrite Hph. congruence.
  - destruct (_save _ _ fs) as [[[u|e] m1] fs1]; simpl in *; done.
Qed.

Lemma recommend_found_keyed m c cid k ex pen adaptive uuid now fs :
  mem_wf m → _campaigns m !! cid = Some c →
  let out := recommend_found m c cid k ex pen adaptive uuid now fs in
  keyed cid m out.1.2 ∧ (disk_wf m fs → disk_wf out.1.2 out.2).
Proof.
  intros Hmem Hc.
  destruct (recommend_found_spec m c cid k ex pen adaptive uuid now fs)
    as ((c' & Hc' & Hph & Hid) & _ & _ & Hoth & Hdir & _ & Hd).
  split; [|done]. repeat split; [done| |..].
  - apply Hoth. by apply Hmem.
  - intros c0. rewrite Hc'. intros [= <-]. rewrite Hid. by apply Hmem.
  - intros c0 Hc0 Hex. exists c'. split; [done|]. rewrite Hph.
    unfold phase_after. assert (c0 = c) as -> by congruence.
    unfold _should_transition. rewrite Hex. reflexivity.
Qed.

(** An operation that looks the campaign up and then runs a body on it. *)
Lemma looked_up_keyed {A} m cid fs (body : CampaignManager → Camp.Campaign →
    FS.t → Outcome A) :
  wf (m, fs) →
  (∀ m1 c fs1, mem_wf m1 → _campaigns m1 !! cid = Some c →
     keyed cid m1 (body m1 c fs1).1.2
     ∧ (disk_wf m1 fs1 → disk_wf (body m1 c fs1).1.2 (body m1 c fs1).2)) →
  let out :=
    match get m cid fs with
    | (Py.Raise e, m, fs) => (Py.Raise e, m, fs)
    | (Py.Ok None, m, fs) =>
        (Py.Raise (Py.ValueError ("Campaign " +:+ cid +:+ " not found")), m, fs)
    | (Py.Ok (Some campaign), m, fs) => body m campaign fs
    end in
  keyed cid m out.1.2 ∧ disk_wf out.1.2 out.2.
Proof.
  intros Hwf Hbody.
  destruct (get_keyed m cid fs Hwf) as (Hk & Hd & Hfound).
  destruct (get m cid fs) as [[[[c|]|e] m1] fs1]; simpl in *; try done.
  destruct (Hfound c eq_refl) as [Hc Hid].
  destruct (keyed_preserves cid m m1 (proj1 Hwf) Hk) as [Hmem1 _].
  destruct (Hbody m1 c fs1 Hmem1 Hc) as [Hk2 Hd2].
  split; [by eapply keyed_trans | by apply Hd2].
Qed.

(** [create] with an identifier that is not in use. *)
Lemma create_keyed m target name auto_plan adaptive seed uuid randint now fs :
  mem_wf m → _campaigns m !! uuid = None →
  let out := create m target name auto_plan adaptive seed uuid randint now fs in
  keyed uuid m out.1.2 ∧ (disk_wf m fs → disk_wf out.1.2 out.2).
Proof.
  intros Hmem Hfresh. unfold create. cbv zeta.
  match goal with |- context [let '(campaign, m0) := ?x in _] =>
    assert (Camp.id x.1 = uuid ∧ _campaigns x.2 = _campaigns m
            ∧ _storage_dir x.2 = _storage_dir m) as (Hid & Hcs & Hdir);
    [|destruct x as [c1 m1]] end.
  { destruct auto_plan; [|done].
    destruct adaptive; [|done].
    destruct (_adaptive_planner m); [|done].
    destruct (Adaptive.plan _ _ _ _ _ _ _ _ _ _ _ _) as [[pl up] pr]. done. }
  simpl in Hid, Hcs, Hdir.
  destruct (save_spec (set_counter (set_campaign m1 uuid c1) uuid 0) c1 fs)
    as [Hshape Hd].
  destruct (_save _ c1 fs) as [[r m2] fs2] eqn:Hsave. simpl in Hshape, Hd.
  assert (_campaigns m2 = <[uuid := c1]> (_campaigns m)
          ∧ _storage_dir m2 = _storage_dir m) as [Hcs2 Hdir2].
  { destruct Hshape as [->| ->]; simpl; rewrite ?Hid, ?Hcs, ?insert_insert_eq; done. }
  assert (keyed uuid m m2) as Hk.
  { unfold keyed. rewrite Hcs2, Hdir2. repeat split.
    - intros j Hj. by rewrite lookup_insert_ne.
    - intros c'. rewrite lookup_insert_eq. by intros [= <-].
    - intros c0 Hc0. congruence. }
  assert (disk_wf m fs → disk_wf m2 fs2) as Hd2.
  { intros Hd0. apply Hd. by apply (disk_wf_same m _ fs fs). }
  destruct r; simpl; done.
Qed.

(** Every operation keeps the invariant, and a campaign that is in the
    exploit phase stays in it. *)
Lemma run_op_preserves (o : Op) (w : World) :
  wf w → op_fresh o w →
  wf (run_op o w) ∧ ∀ cid0, in_exploit cid0 w.1 → in_exploit cid0 (run_op o w).1.
Proof.
  destruct w as [m fs]. intros Hwf Hfresh.
  assert (∀ cid m', keyed cid m m' → disk_wf m' (run_op o (m, fs)).2 →
            (run_op o (m, fs)).1 = m' →
            wf (run_op o (m, fs))
            ∧ ∀ cid0, in_exploit cid0 m → in_exploit cid0 (run_op o (m, fs)).1)
    as Hfinish.
  { intros cid m' Hk Hd Hm. subst m'.
    destruct (keyed_preserves cid m _ (proj1 Hwf) Hk) as [Hmem' Hex'].
    split; [split; done | done]. }
  destruct o as [target name auto_plan adaptive seed uuid randint now
                | cid | cid attempts evaluations now
                | cid k ex pen adaptive uuid now | cid status]; simpl in *.
  - (* create *)
    destruct (create_keyed m target name auto_plan adaptive seed uuid randint now fs
                (proj1 Hwf) Hfresh) as [Hk Hd].
    apply (Hfinish uuid _ Hk); [apply Hd, Hwf | done].
  - (* get *)
    destruct (get_keyed m cid fs Hwf) as (Hk & Hd & _).
    by apply (Hfinish cid _ Hk).
  - (* ingest_results *)
    unfold ingest_results.
    destruct (looked_up_keyed m cid fs
                (λ m1 c fs1, ingest_found m1 c cid attempts evaluations now fs1) Hwf)
      as [Hk Hd].
    { intros m1 c fs1 Hm1 Hc. by apply ingest_found_keyed. }
    by apply (Hfinish cid _ Hk).
  - (* recommend_next *)
    unfold recommend_next.
    destruct (looked_up_keyed m cid fs
                (λ m1 c fs1, recommend_found m1 c cid k ex pen adaptive uuid now fs1)
                Hwf) as [Hk Hd].
    { intros m1 c fs1 Hm1 Hc. by apply recommend_found_keyed. }
    by apply (Hfinish cid _ Hk).
  - (* update_status *)
    unfold update_status.
    destruct (looked_up_keyed m cid fs
                (λ m1 c fs1, status_found m1 c cid status fs1) Hwf) as [Hk Hd].
    { intros m1 c fs1 Hm1 Hc. by apply status_found_keyed. }
    by apply (Hfinish cid _ Hk).
Qed.

Lemma run_ops_preserves (ops : list Op) : ∀ w,
  wf w → ops_fresh ops w →
  wf (run_ops ops w) ∧ ∀ cid0, in_exploit cid0 w.1 → in_exploit cid0 (run_ops ops w).1.
Proof.
  induction ops as [|o ops IH]; intros w Hwf Hfresh; simpl; [done|].
  destruct Hfresh as [Hf Hrest].
  destruct (run_op_preserves o w Hwf Hf) as [Hwf1 Hex1].
  destruct (IH _ Hwf1 Hrest) as [Hwf2 Hex2]. split; [done|]. eauto.
Qed.

End ManagerMachine.

(** ** The probe-to-exploit transition *)

Section PhaseFacts.
Context `{Runtime}.
Import Manager CampaignId.
Local Open Scope nat_scope.

Lemma surfaces_at_most_six (l : list Surface) : NoDup l → length l ≤ 6.
Proof.
  intros Hnd. change 6 with (length all_Surface).
  apply submseteq_length, NoDup_submseteq; [done|].
  intros []; intros _; unfold all_Surface; set_solver.
Qed.

(** The float test [k / 6 >= 0.6] on a count of surfaces is the test
    [k/6 ≥ 3/5] on the integers. *)
Lemma surface_fraction_test (k : nat) :
  k ≤ 6 →
  (0.6 <=? Py.float_of_nat k / Py.float_of_nat (Nat.max (length all_Surface) 1))%float
    = true
  ↔ 3 * length all_Surface ≤ 5 * k.
Proof.
  intros Hk.
  do 7 (destruct k as [|k];
        [ first [ split; [vm_compute; discriminate | simpl; lia]
                | split; [simpl; lia | intros _; vm_compute; reflexivity] ] |]).
  lia.
Qed.

Lemma should_transition_probe m c :
  Camp.phase c = PROBE →
  _should_transition m c = true
  ↔ (3 ≤ default 0 (_step_counters m !! Camp.id c))%Z
    ∨ 3 * length all_Surface ≤ 5 * length (tested_surfaces m c).
Proof.
  intros Hph. unfold _should_transition. rewrite Hph. simpl negb. cbv iota.
  destruct (3 <=? default 0 (_step_counters m !! Camp.id c))%Z eqn:Hstep.
  - apply Z.leb_le in Hstep. tauto.
  - apply Z.leb_gt in Hstep. rewrite surface_fraction_test.
    + split; [tauto|]. intros [?|?]; [lia|done].
    + apply surfaces_at_most_six. unfold tested_surfaces. apply NoDup_remove_dups.
Qed.

Lemma should_transition_exploit m c :
  Camp.phase c = EXPLOIT → _should_transition m c = false.
Proof. intros Hph. unfold _should_transition. by rewrite Hph. Qed.

(** [create] leaves the new campaign in memory, in the probe phase, with
    step counter 0. *)
Lemma create_spec m target name auto_plan adaptive seed uuid randint now fs :
  let out := create m target name auto_plan adaptive seed uuid randint now fs in
  (∃ c, _campaigns out.1.2 !! uuid = Some c ∧ Camp.id c = uuid
        ∧ Camp.phase c = PROBE)
  ∧ _step_counters out.1.2 !! uuid = Some 0%Z.
Proof.
  unfold create. cbv zeta.
  match goal with |- context [let '(campaign, m0) := ?x in _] =>
    assert (Camp.id x.1 = uuid ∧ Camp.phase x.1 = PROBE) as (Hid & Hph);
    [|destruct x as [c1 m1]] end.
  { destruct auto_plan; [|done].
    destruct adaptive; [|done].
    destruct (_adaptive_planner m); [|done].
    destruct (Adaptive.plan _ _ _ _ _ _ _ _ _ _ _ _) as [[pl up] pr]. done. }
  simpl in Hid, Hph.
  destruct (save_spec (set_counter (set_campaign m1 uuid c1) uuid 0) c1 fs)
    as [Hshape _].
  destruct (_save _ c1 fs) as [[r m2] fs2]. simpl in Hshape.
  assert ((∃ c, _campaigns m2 !! uuid = Some c ∧ Camp.id c = uuid
                ∧ Camp.phase c = PROBE)
          ∧ _step_counters m2 !! uuid = Some 0%Z) as Hgoal.
  { destruct Hshape as [->| ->]; simpl; rewrite ?Hid.
    - split; [exists c1|]; by rewrite lookup_insert_eq.
    - split; [exists c1|]; by rewrite lookup_insert_eq. }
  destruct r; simpl; exact Hgoal.
Qed.

(** [recommend_next] on a campaign that is in memory. *)
Lemma recommend_in_memory m cid c n k ex pen adaptive uuid now fs :
  _campaigns m !! cid = Some c → Camp.id c = cid →
  _step_counters m !! cid = Some n →
  let out := recommend_next m cid k ex pen adaptive uuid now fs in
  ∃ c', _campaigns out.1.2 !! cid = Some c' ∧ Camp.id c' = cid
        ∧ _step_counters out.1.2 !! cid = Some (n + 1)%Z
        ∧ ((3 ≤ n + 1)%Z → Camp.phase c' = EXPLOIT).
Proof.
  intros Hc Hid Hn. unfold recommend_next, get. rewrite Hc.
  destruct (recommend_found_spec m c cid k ex pen adaptive uuid now fs)
    as ((c' & Hc' & Hph & Hid') & Hcnt & _).
  rewrite Hn in Hcnt. simpl in Hcnt.
  exists c'. split; [done|]. split; [congruence|]. split; [done|].
  intros Hstep. rewrite Hph. unfold phase_after.
  destruct (Camp.phase c) eqn:Hphase.
  - assert (_should_transition
              (set_counter m cid (default 0 (_step_counters m !! cid) + 1)%Z) c = true)
      as ->; [|done].
    apply should_transition_probe; [done|]. left.
    rewrite Hid. simpl. rewrite lookup_insert_eq, Hn. simpl. lia.
  - by rewrite should_transition_exploit.
Qed.

End PhaseFacts.

Section PhaseTheorem.
Context `{Runtime}.
Import Manager CampaignId.
Local Open Scope nat_scope.

(** The surfaces [_should_transition] collects are the represented ones. *)
Lemma tested_surfaces_represented m c :
  length (tested_surfaces m c) = length (represented_surfaces m c).
Proof.
  apply Permutation_length, NoDup_Permutation.
  - apply NoDup_remove_dups.
  - apply NoDup_filter, (bool_decide_unpack _). vm_compute. exact I.
  - intros s. unfold tested_surfaces, represented_surfaces.
    rewrite elem_of_remove_dups, list_elem_of_omap, list_elem_of_filter, Exists_exists.
    split.
    + intros (tid & Hin & Hs). split; [eauto|].
      destruct s; unfold all_Surface;
        repeat first [apply list_elem_of_here | apply list_elem_of_further].
    + intros [(tid & Hin & Hs) _]. eauto.
Qed.

(** X26. On one manager, as it holds its campaigns in memory.  (1) A
    [recommend_next] call on a campaign in the probe phase leaves it in the
    exploit phase if and only if the step counter, incremented by the call,
    is at least 3 or the surfaces represented among the campaign's tried
    techniques are at least 0.6 of all surfaces.  (2) Under any sequence of
    operations of that manager ([create] with identifiers not in use,
    [get], [ingest_results], [recommend_next], [update_status]), returning
    or raising, a campaign that is in the exploit phase stays in it.  (3)
    After [create] and three [recommend_next] calls on the new campaign,
    whatever their arguments, the campaign is in the exploit phase. *)
Theorem phase_transition_in_memory :
  (∀ m cid c m0 fs fs0 (a : RecommendArgs),
     wf (m, fs) → get m cid fs = (Py.Ok (Some c), m0, fs0) →
     Camp.phase c = PROBE →
     ∃ c', _campaigns (run_op (recommend_op cid a) (m, fs)).1 !! cid = Some c'
           ∧ (Camp.phase c' = EXPLOIT
              ↔ (3 ≤ default 0 (_step_counters m !! cid) + 1)%Z
                ∨ 3 * length all_Surface ≤ 5 * length (represented_surfaces m c)))
  ∧ (∀ ops w cid, wf w → ops_fresh ops w →
       in_exploit cid w.1 → in_exploit cid (run_ops ops w).1)
  ∧ (∀ w target name auto_plan adaptive seed cid randint now (a1 a2 a3 : RecommendArgs),
       in_exploit cid
         (run_ops [recommend_op cid a1; recommend_op cid a2; recommend_op cid a3]
            (run_op (OpCreate target name auto_plan adaptive seed cid randint now) w)).1).
Proof.
  split; [|split].
  - intros m cid c m0 fs fs0 a Hwf Hget Hph.
    destruct (get_keyed m cid fs Hwf) as (_ & _ & Hfound).
    destruct (get_spec m cid fs) as (Hshape & _ & _).
    rewrite Hget in Hfound, Hshape. simpl in Hfound, Hshape.
    destruct (Hfound c eq_refl) as [Hc Hid].
    assert (_step_counters m0 = _step_counters m ∧ _registry m0 = _registry m)
      as [Hcnt Hreg].
    { destruct Hshape as [->|(c0 & _ & _ & -> & _)]; done. }
    simpl. unfold recommend_next. rewrite Hget.
    destruct (recommend_found_spec m0 c cid (ra_max_techniques a)
                (ra_exclude_tried a) (ra_repeat_penalty a) (ra_adaptive a)
                (ra_uuid a) (ra_now a) fs0) as ((c' & Hc' & Hph' & _) & _).
    exists c'. split; [done|]. rewrite Hph'. unfold phase_after.
    rewrite Hcnt.
    set (m1 := set_counter m0 cid (default 0 (_step_counters m !! cid) + 1)%Z).
    assert (tested_surfaces m1 c = tested_surfaces m c) as Hts
      by (unfold tested_surfaces; subst m1; simpl; by rewrite Hreg).
    assert (default 0%Z (_step_counters m1 !! Camp.id c)
            = (default 0 (_step_counters m !! cid) + 1)%Z) as Hstep
      by (subst m1; simpl; by rewrite Hid, lookup_insert_eq).
    pose proof (should_transition_probe m1 c Hph) as Hiff.
    rewrite Hts, Hstep, tested_surfaces_represented in Hiff.
    destruct (_should_transition m1 c).
    + split; [intros _; by apply Hiff | done].
    + rewrite Hph. split; [done|]. intros Hcond. apply Hiff in Hcond. done.
  - intros ops w cid Hwf Hfresh Hex.
    by apply (run_ops_preserves ops w Hwf Hfresh).
  - intros [m fs] target name auto_plan adaptive seed cid randint now a1 a2 a3.
    cbn [run_ops run_op recommend_op]. unfold after. cbn [fst snd].
    destruct (create_spec m target name auto_plan adaptive seed cid randint now fs)
      as ((c0 & Hc0 & Hid0 & _) & Hn0).
    destruct (create m target name auto_plan adaptive seed cid randint now fs)
      as [[r0 m0] fs0]. cbn [fst snd] in Hc0, Hn0 |- *.
    destruct (recommend_in_memory m0 cid c0 0 (ra_max_techniques a1)
                (ra_exclude_tried a1) (ra_repeat_penalty a1) (ra_adaptive a1)
                (ra_uuid a1) (ra_now a1) fs0 Hc0 Hid0 Hn0)
      as (c1 & Hc1 & Hid1 & Hn1 & _).
    destruct (recommend_next m0 cid _ _ _ _ _ _ fs0) as [[r1 m1] fs1].
    cbn [fst snd] in Hc1, Hn1 |- *.
    destruct (recommend_in_memory m1 cid c1 1 (ra_max_techniques a2)
                (ra_exclude_tried a2) (ra_repeat_penalty a2) (ra_adaptive a2)
                (ra_uuid a2) (ra_now a2) fs1 Hc1 Hid1 Hn1)
      as (c2 & Hc2 & Hid2 & Hn2 & _).
    destruct (recommend_next m1 cid _ _ _ _ _ _ fs1) as [[r2 m2] fs2].
    cbn [fst snd] in Hc2, Hn2 |- *.
    destruct (recommend_in_memory m2 cid c2 2 (ra_max_techniques a3)
                (ra_exclude_tried a3) (ra_repeat_penalty a3) (ra_adaptive a3)
                (ra_uuid a3) (ra_now a3) fs2 Hc2 Hid2 Hn2)
      as (c3 & Hc3 & _ & _ & Hph3).
    destruct (recommend_next m2 cid _ _ _ _ _ _ fs2) as [[r3 m3] fs3].
    cbn [fst snd] in Hc3 |- *.
    exists c3. split; [done|]. apply Hph3. lia.
Qed.

End PhaseTheorem.

Section PhaseRuns.
#[local] Existing Instance Examples.example_runtime.
Import Manager.

(** C4. The rule-based branch of [recommend_next] sets the phase of the
    campaign in memory and does not save it, which the adaptive branch
    does.  After [create] and three [recommend_next] calls on a manager
    with storage the campaign is in the exploit phase in that manager's
    memory; a manager started afterwards on the same storage directory
    gets the rule-based campaign in the probe phase, and the adaptive one
    in the exploit phase. *)
Theorem phase_transition_lost_on_reload :
  (in_exploit Scenario.cid (three_recommendations false).1
   ∧ reloaded_phase (three_recommendations false) = Some PROBE)
  ∧ (in_exploit Scenario.cid (three_recommendations true).1
     ∧ reloaded_phase (three_recommendations true) = Some EXPLOIT).
Proof.
  split; split.
  - destruct (_campaigns (three_recommendations false).1 !! Scenario.cid)
      as [c|] eqn:Hc; [|vm_compute in Hc; discriminate Hc].
    exists c. split; [exact Hc|].
    vm_compute in Hc. injection Hc as <-. reflexivity.
  - vm_compute. reflexivity.
  - destruct (_campaigns (three_recommendations true).1 !! Scenario.cid)
      as [c|] eqn:Hc; [|vm_compute in Hc; discriminate Hc].
    exists c. split; [exact Hc|].
    vm_compute in Hc. injection Hc as <-. reflexivity.
  - vm_compute. reflexivity.
Qed.

Lemma attempted_wf (tids : list string) : wf (attempted tids).
Proof.
  unfold attempted.
  apply run_ops_preserves.
  - split.
    + intros k c Hk. vm_compute in Hk. discriminate Hk.
    + intros dir k c Hdir. vm_compute in Hdir. discriminate Hdir.
  - cbn [ops_fresh op_fresh]. split; [|done]. reflexivity.
Qed.

Lemma phase_transition_in_memory_witness :
  let four := attempted [id Examples.DAN; id Examples.FGSM; id RAG_POISON;
                         id TOOL_ABUSE] in
  let three := attempted [id Examples.DAN; id Examples.FGSM; id RAG_POISON] in
  in_exploit Scenario.cid (run_op (recommend_op Scenario.cid default_args) four).1
  ∧ ¬ in_exploit Scenario.cid
        (run_op (recommend_op Scenario.cid default_args) three).1.
Proof.
  cbv zeta.
  destruct phase_transition_in_memory as (Hiff & _ & _).
  split.
  - set (w := attempted [id Examples.DAN; id Examples.FGSM; id RAG_POISON;
                         id TOOL_ABUSE]).
    destruct (_campaigns w.1 !! Scenario.cid) as [c|] eqn:Hc;
      [|vm_compute in Hc; discriminate Hc].
    destruct (Hiff w.1 Scenario.cid c w.1 w.2 w.2 default_args) as (c' & Hc' & Hph).
    + rewrite <- surjective_pairing. apply attempted_wf.
    + unfold get. rewrite Hc. reflexivity.
    + vm_compute in Hc. injection Hc as <-. reflexivity.
    + exists c'. rewrite <- surjective_pairing in Hc'. split; [exact Hc'|].
      apply Hph. right.
      vm_compute in Hc. injection Hc as <-. vm_compute. lia.
  - set (w := attempted [id Examples.DAN; id Examples.FGSM; id RAG_POISON]).
    destruct (_campaigns w.1 !! Scenario.cid) as [c|] eqn:Hc;
      [|vm_compute in Hc; discriminate Hc].
    destruct (Hiff w.1 Scenario.cid c w.1 w.2 w.2 default_args) as (c' & Hc' & Hph).
    + rewrite <- surjective_pairing. apply attempted_wf.
    + unfold get. rewrite Hc. reflexivity.
    + vm_compute in Hc. injection Hc as <-. reflexivity.
    + intros (c2 & Hc2 & Hph2). rewrite <- surjective_pairing in Hc'.
      rewrite Hc' in Hc2. injection Hc2 as <-.
      apply Hph in Hph2. destruct Hph2 as [Hstep|Hsurf].
      * vm_compute in Hstep. apply Hstep. reflexivity.
      * vm_compute in Hc. injection Hc as <-. vm_compute in Hsurf. lia.
Defined.

End PhaseRuns.

(** ** Replay of recorded snapshots *)

Section ReplayFacts.
Import Replayer.

(** No plan of the adaptive planner records the campaign seed in its
    [config_used], which is what a snapshot keeps as [planner_config]. *)
Lemma config_used_has_no_campaign_seed `{Runtime} p now target registry st prior
    k ex pen tr step ph :
  config_used (Adaptive.plan p now target registry st prior k ex pen tr step ph).1.1
    !! "campaign_seed" = None.
Proof.
  rewrite plan_unfold. cbv zeta. simpl fst. simpl config_used.
  vm_compute. reflexivity.
Qed.

(** So a replayer without a planner of its own replays with a planner whose
    campaign seed is a fresh random draw. *)
Lemma replay_planner_seed_is_random (config : Adaptive.PlannerConfig)
    (e : Engine.PrioritizerEngine) (planner_config : gmap string ConfigValue)
    (randint : Z) :
  planner_config !! "campaign_seed" = None →
  Adaptive.campaign_seed
    (Adaptive.__init__ config e None
       match planner_config !! "campaign_seed" with
       | Some (VInt z) => Some z
       | _ => None
       end None randint) = randint.
Proof. by intros ->. Qed.

(** C1, at the failing inputs.  (1) The snapshot that [recommend_next]
    records for a campaign created with seed 42, read back by [load], has no
    ["campaign_seed"] in its [planner_config]; [DecisionReplayer(registry)]
    then replays with a randomly seeded planner, and [verify] reports a
    utility mismatch at each of the three ranks (here for the draw 7); it
    reports none only when the draw happens to be the campaign's seed.  (2)
    [replay] passes no prior results to [plan]: for a snapshot recorded with
    [repeat_penalty=0.5], or with [exclude_tried], after a technique was
    evaluated, [verify] reports divergences even for the replayer that is
    given the recording planner.  (3) That replayer does reproduce the
    snapshot recorded before any result was ingested. *)
Theorem replay_of_recorded_snapshot_diverges :
  let first := Scenario.loaded_snapshot Scenario.first_recommendation in
  let penalized := Scenario.loaded_snapshot Scenario.penalized_recommendation in
  let excluding := Scenario.loaded_snapshot Scenario.excluding_recommendation in
  ((λ s, entry_technique_id <$> Snapshot.produced_plan_entries s) <$> first)
    = Some (technique_ids (Scenario.plan_of Scenario.first_recommendation))
  ∧ (first ≫= λ s, Snapshot.planner_config s !! "campaign_seed") = None
  ∧ (∃ d1 d2 d3, Scenario.verify_loaded Scenario.replayer 7 first
                 = Some (Py.Ok (false, [d1; d2; d3])))
  ∧ Scenario.verify_loaded Scenario.replayer 42 first = Some (Py.Ok (true, []))
  ∧ (∃ d ds, Scenario.verify_loaded Scenario.replayer_with_planner 7 penalized
             = Some (Py.Ok (false, d :: ds)))
  ∧ (∃ d ds, Scenario.verify_loaded Scenario.replayer_with_planner 7 excluding
             = Some (Py.Ok (false, d :: ds)))
  ∧ Scenario.verify_loaded Scenario.replayer_with_planner 7 first
    = Some (Py.Ok (true, [])).
Proof.
  cbv zeta.
  split; [vm_compute; reflexivity|].
  split; [vm_compute; reflexivity|].
  split; [do 3 eexists; vm_compute; reflexivity|].
  split; [vm_compute; reflexivity|].
  split; [do 2 eexists; vm_compute; reflexivity|].
  split; [do 2 eexists; vm_compute; reflexivity|].
  vm_compute; reflexivity.
Qed.

End ReplayFacts.

(*** Ranking order *)

Section OrderFacts.
Import PyList.

Lemma SFcompare_Lt_Gt (x y : spec_float) :
  SFcompare x y = Some Lt → SFcompare y x = Some Gt.
Proof.
  destruct x as [sx|sx| |sx mx ex], y as [sy|sy| |sy my ey]; simpl;
    try destruct sx; try destruct sy; simpl; try congruence.
  - rewrite (Z.compare_antisym ey ex). destruct (ey ?= ex)%Z; simpl; try congruence.
    change (Pos.compare_cont Eq mx my) with (Pos.compare mx my).
    change (Pos.compare_cont Eq my mx) with (Pos.compare my mx).
    rewrite (Pos.compare_antisym my mx). destruct (my ?= mx)%positive; simpl; congruence.
  - rewrite (Z.compare_antisym ey ex). destruct (ey ?= ex)%Z; simpl; try congruence.
    change (Pos.compare_cont Eq mx my) with (Pos.compare mx my).
    change (Pos.compare_cont Eq my mx) with (Pos.compare my mx).
    rewrite (Pos.compare_antisym my mx). destruct (my ?= mx)%positive; simpl; congruence.
Qed.

Lemma float_ltb_asym (a b : float) : (a <? b)%float = true → (b <? a)%float = false.
Proof.
  rewrite !FloatAxioms.ltb_spec. unfold SFltb.
  destruct (SFcompare (Prim2SF a) (Prim2SF b)) as [[]|] eqn:E; try discriminate.
  intros _. by rewrite (SFcompare_Lt_Gt _ _ E).
Qed.

Lemma insert_desc_perm {A} (key : A → float) (x : A) (l : list A) :
  insert_desc key x l ≡ₚ x :: l.
Proof.
  induction l as [|y l IH]; simpl; [done|].
  destruct (key x <? key y)%float; [|done].
  rewrite IH. apply Permutation_swap.
Qed.

Lemma sort_desc_perm {A} (key : A → float) (l : list A) : sort_desc key l ≡ₚ l.
Proof.
  unfold sort_desc. induction l as [|x l IH]; simpl; [done|].
  by rewrite insert_desc_perm, IH.
Qed.

Lemma insert_desc_descending {A} (key : A → float) (x : A) (l : list A) :
  descending key l → descending key (insert_desc key x l).
Proof.
  unfold descending. induction l as [|y l IH]; simpl; intros Hl.
  - repeat constructor.
  - destruct (key x <? key y)%float eqn:Hxy.
    + inversion Hl as [|? ? Hl' Hhd]; subst. constructor; [by apply IH|].
      destruct l as [|z l]; simpl.
      * constructor. by apply float_ltb_asym.
      * destruct (key x <? key z)%float.
        { constructor. by inversion Hhd. }
        { constructor. by apply float_ltb_asym. }
    + constructor; [done|]. by constructor.
Qed.

Lemma sort_desc_descending {A} (key : A → float) (l : list A) :
  descending key (sort_desc key l).
Proof.
  unfold sort_desc. induction l as [|x l IH]; simpl; [constructor|].
  by apply insert_desc_descending.
Qed.

Lemma Sorted_take {A} (R : A → A → Prop) (n : nat) (l : list A) :
  Sorted R l → Sorted R (take n l).
Proof.
  revert n. induction l as [|x l IH]; intros [|n] Hl; simpl; try constructor.
  - apply IH. by inversion Hl.
  - inversion Hl as [|? ? _ Hhd]; subst.
    destruct l, n; simpl; constructor. by inversion Hhd.
Qed.

Lemma slice_to_descending {A} (key : A → float) (k : Z) (l : list A) :
  descending key l → descending key (slice_to k l).
Proof. unfold slice_to. destruct (0 <=? k)%Z; apply Sorted_take. Qed.

Lemma slice_to_length {A} (k : Z) (l : list A) :
  (0 ≤ k)%Z → (length (slice_to k l) ≤ Z.to_nat k)%nat.
Proof.
  intros Hk. unfold slice_to. rewrite (proj2 (Z.leb_le 0 k) Hk).
  rewrite length_take. lia.
Qed.

Lemma slice_to_sublist {A} (k : Z) (l : list A) : slice_to k l `sublist_of` l.
Proof. unfold slice_to. destruct (0 <=? k)%Z; apply sublist_take. Qed.

Lemma imap_pairs {A B} (g : nat → B) (l : list A) :
  (imap (λ i x, (g i, x)) l).*1 = g <$> seq 0 (length l)
  ∧ (imap (λ i x, (g i, x)) l).*2 = l.
Proof.
  revert g. induction l as [|x l IH]; intros g; simpl; [done|].
  destruct (IH (g ∘ S)) as [IH1 IH2]. unfold compose in IH1, IH2.
  split; f_equal; [|done].
  rewrite <- fmap_S_seq, <- list_fmap_compose. done.
Qed.

Lemma enumerate1_ranks {A} (l : list A) :
  (enumerate1 l).*1 = seq 1 (length l) ∧ (enumerate1 l).*2 = l.
Proof.
  unfold enumerate1. destruct (imap_pairs S l) as [H1 H2].
  split; [|done]. by rewrite H1, fmap_S_seq.
Qed.

Lemma Sorted_snd {A B} (R : A → A → Prop) (l : list (B * A)) :
  Sorted R l.*2 → Sorted (λ a b, R a.2 b.2) l.
Proof.
  induction l as [|[i x] l IH]; simpl; intros Hl; [constructor|].
  inversion Hl as [|? ? Hl' Hhd]; subst. constructor; [by apply IH|].
  destruct l as [|[j y] l]; constructor. by inversion Hhd.
Qed.

End OrderFacts.

(*** Campaign identifiers *)

Section IdentifierFacts.
Import CampaignId.

Lemma match_rest_spec (s : string) :
  match_rest s = true
  ↔ ∃ body, safe_string body ∧ (s = body ∨ s = body +:+ String newline "").
Proof.
  induction s as [|c rest IH]; simpl.
  - split; [intros _|done]. exists "". split; [constructor|by left].
  - destruct (safe_char c) eqn:Hc.
    + rewrite IH. split.
      * intros (body & Hsafe & Hs). exists (String c body). split.
        { constructor; done. }
        destruct Hs as [->| ->]; [by left|by right].
      * intros (body & Hsafe & Hs).
        destruct body as [|b body].
        { destruct Hs as [Hs|Hs]; [done|]. simpl in Hs.
          injection Hs as -> ->. done. }
        exists body. inversion Hsafe as [|? ? Hb Hrest]; subst.
        split; [done|].
        destruct Hs as [Hs|Hs]; simpl in Hs; injection Hs as -> ->; [by left|by right].
    + rewrite andb_true_iff, !bool_decide_eq_true. split.
      * intros [-> ->]. exists "". split; [constructor|by right].
      * intros (body & Hsafe & Hs).
        destruct body as [|b body].
        { destruct Hs as [Hs|Hs]; [done|]. simpl in Hs. by injection Hs as -> ->. }
        inversion Hsafe as [|? ? Hb Hrest]; subst.
        destruct Hs as [Hs|Hs]; simpl in Hs; injection Hs as -> ->; congruence.
Qed.

Lemma safe_char_not_separator (c : ascii) :
  safe_char c = true → c ≠ "/"%char ∧ c ≠ "."%char ∧ c ≠ "\"%char.
Proof. intros Hc. repeat split; intros ->; vm_compute in Hc; discriminate. Qed.

(** X1. [_validate_campaign_id] accepts exactly the non-empty strings of class
    characters, and such a string followed by one newline; it raises
    [ValueError] on every other string.  An accepted identifier holds no
    path separator and no dot. *)
Theorem validate_campaign_id_accepts (s : string) :
  (_validate_campaign_id s = Py.Ok tt
   ↔ ∃ body, body ≠ "" ∧ safe_string body
             ∧ (s = body ∨ s = body +:+ String newline ""))
  ∧ (_validate_campaign_id s = Py.Ok tt
     ∨ ∃ msg, _validate_campaign_id s = Py.Raise (Py.ValueError msg))
  ∧ (_validate_campaign_id s = Py.Ok tt →
     ∀ c, c ∈ list_ascii_of_string s →
          c ≠ "/"%char ∧ c ≠ "."%char ∧ c ≠ "\"%char).
Proof.
  assert (_validate_campaign_id s = Py.Ok tt
          ↔ ∃ body, body ≠ "" ∧ safe_string body
                    ∧ (s = body ∨ s = body +:+ String newline "")) as Hiff.
  { unfold _validate_campaign_id, _SAFE_ID_RE_match.
    destruct s as [|c rest].
    - simpl. split; [done|]. intros (body & Hne & _ & [Hs|Hs]); [done|].
      by destruct body.
    - rewrite bool_decide_eq_false_2 by done. simpl.
      destruct (safe_char c) eqn:Hc; simpl.
      + destruct (match_rest rest) eqn:Hrest; simpl.
        * split; [intros _|done].
          apply match_rest_spec in Hrest as (body & Hsafe & Hs).
          exists (String c body). split; [done|]. split; [by constructor|].
          destruct Hs as [->| ->]; [by left|by right].
        * split; [done|]. intros (body & Hne & Hsafe & Hs).
          destruct body as [|b body]; [done|].
          inversion Hsafe as [|? ? Hb Hsafe']; subst.
          assert (match_rest rest = true) as Hyes; [|congruence].
          apply match_rest_spec. exists body. split; [done|].
          destruct Hs as [Hs|Hs]; simpl in Hs; injection Hs as -> ->; [by left|by right].
      + split; [done|]. intros (body & Hne & Hsafe & Hs).
        destruct body as [|b body]; [done|].
        inversion Hsafe as [|? ? Hb Hsafe']; subst.
        destruct Hs as [Hs|Hs]; simpl in Hs; injection Hs as -> ->; congruence. }
  split; [exact Hiff|]. split.
  - unfold _validate_campaign_id. destruct (_ || _); [right; eauto|by left].
  - intros Hok c Hin. apply Hiff in Hok as (body & _ & Hsafe & Hs).
    assert (c ∈ list_ascii_of_string body ∨ c = newline) as [Hc| ->].
    { destruct Hs as [->| ->]; [by left|].
      revert Hin. clear. induction body as [|b body IH]; simpl.
      - intros Hin. apply list_elem_of_singleton in Hin. by right.
      - intros Hin. apply elem_of_cons in Hin as [->|Hin]; [left; left|].
        destruct (IH Hin) as [?|?]; [left; by right|by right]. }
    + apply safe_char_not_separator.
      unfold safe_string in Hsafe. rewrite Forall_forall in Hsafe. by apply Hsafe.
    + repeat split; intros Heq; vm_compute in Heq; discriminate.
Qed.

End IdentifierFacts.

(*** The snapshot recorder *)

Section SnapshotPathFacts.
Import Recorder CampaignId.

Lemma match_rest_no_slash (s : string) :
  match_rest s = true → "/"%char ∉ list_ascii_of_string s.
Proof.
  induction s as [|c s IH]; simpl; [intros _; apply not_elem_of_nil|].
  destruct (safe_char c) eqn:Hc.
  - intros Hs. apply not_elem_of_cons. split; [|by apply IH].
    intros <-. vm_compute in Hc. discriminate.
  - rewrite andb_true_iff, !bool_decide_eq_true. intros [-> ->].
    apply not_elem_of_cons. split; [done|apply not_elem_of_nil].
Qed.

(** A validated identifier is not empty and holds no separator. *)
Lemma valid_id_no_slash (k : string) :
  _validate_campaign_id k = Py.Ok tt →
  (∃ c rest, k = String c rest ∧ c ≠ "/"%char)
  ∧ "/"%char ∉ list_ascii_of_string k.
Proof.
  unfold _validate_campaign_id, _SAFE_ID_RE_match.
  destruct k as [|c k]; simpl; [done|].
  destruct (safe_char c) eqn:Hc; simpl; [|done].
  destruct (match_rest k) eqn:Hk; simpl; [|done]. intros _.
  assert (c ≠ "/"%char) as Hne by (intros ->; vm_compute in Hc; discriminate).
  split; [eauto|].
  apply not_elem_of_cons. split; [done|by apply match_rest_no_slash].
Qed.

Lemma string_app_assoc (a b c : string) : (a +:+ b) +:+ c = a +:+ (b +:+ c).
Proof.
  induction a as [|x a IH]; [done|].
  change (String x ((a +:+ b) +:+ c) = String x (a +:+ (b +:+ c))).
  by rewrite IH.
Qed.

Lemma join_relative (a b : string) (c : ascii) (rest : string) :
  b = String c rest → c ≠ "/"%char → FS.join a b = a +:+ "/" +:+ b.
Proof. intros -> Hc. unfold FS.join. by rewrite bool_decide_eq_false_2. Qed.

Lemma valid_snapshot_dir (r : SnapshotRecorder) (k : string) :
  _validate_campaign_id k = Py.Ok tt →
  snapshot_dir r k = storage_dir r +:+ "/" +:+ k +:+ "/snapshots".
Proof.
  intros Hk. destruct (valid_id_no_slash k Hk) as [(c & rest & Hkc & Hc) _].
  unfold snapshot_dir.
  rewrite (join_relative _ k c rest Hkc Hc).
  rewrite (join_relative _ "snapshots" "s" "napshots" eq_refl) by done.
  rewrite string_app_assoc. reflexivity.
Qed.

Lemma valid_snapshot_path (r : SnapshotRecorder) (k : string) (step : Z) :
  _validate_campaign_id k = Py.Ok tt →
  snapshot_path r k step
  = storage_dir r +:+ "/" +:+ k +:+ "/snapshots/step_" +:+ fmt_04d step +:+ ".json".
Proof.
  intros Hk. unfold snapshot_path. rewrite valid_snapshot_dir by done.
  rewrite (join_relative _ _ "s" ("tep_" +:+ fmt_04d step +:+ ".json") eq_refl)
    by done.
  rewrite (string_app_assoc (storage_dir r)). f_equal.
  rewrite (string_app_assoc "/"). f_equal.
  rewrite (string_app_assoc k). reflexivity.
Qed.

Lemma string_app_cons (c : ascii) (s t : string) :
  String c s +:+ t = String c (s +:+ t).
Proof. reflexivity. Qed.

(** Two strings without separator, each followed by a separator: the first
    separator tells where they end. *)
Lemma split_at_slash (a b t u : string) :
  "/"%char ∉ list_ascii_of_string a → "/"%char ∉ list_ascii_of_string b →
  a +:+ String "/" t = b +:+ String "/" u → a = b ∧ t = u.
Proof.
  revert b. induction a as [|c a IH]; intros [|d b] Ha Hb Heq;
    rewrite ?string_app_cons in Heq;
    change ("" +:+ ?x) with x in Heq; cbn [list_ascii_of_string] in Ha, Hb.
  - by injection Heq as ->.
  - injection Heq as <- _. destruct Hb. left.
  - injection Heq as -> _. destruct Ha. left.
  - injection Heq as -> Heq.
    apply not_elem_of_cons in Ha as [_ Ha]. apply not_elem_of_cons in Hb as [_ Hb].
    destruct (IH b Ha Hb Heq) as [-> ->]. done.
Qed.

Lemma zeros_S (k : nat) : zeros (S k) = String "0" (zeros k).
Proof. unfold zeros. destruct k; reflexivity. Qed.

Lemma pretty_N_go_leading (x : N) (s : string) :
  (0 < x)%N →
  ∃ c t, pretty_N_go x s = String c t ∧ c ≠ "0"%char ∧ c ≠ "-"%char.
Proof.
  revert s. induction (N.lt_wf_0 x) as [x _ IH]; intros s Hx.
  rewrite pretty_N_go_step by done.
  destruct (N.eq_0_gt_0_cases (x `div` 10)) as [Hd|Hd].
  - rewrite Hd, pretty_N_go_0. eexists _, _. split; [reflexivity|].
    assert (x < 10)%N as Hlt by (apply N.div_small_iff in Hd; lia).
    rewrite N.mod_small by done.
    assert (x = 1 ∨ x = 2 ∨ x = 3 ∨ x = 4 ∨ x = 5 ∨ x = 6
            ∨ x = 7 ∨ x = 8 ∨ x = 9)%N as Hcases by lia.
    destruct Hcases as [->|[->|[->|[->|[->|[->|[->|[->| ->]]]]]]]]; by split.
  - apply IH; [by apply N.div_lt|done].
Qed.

Lemma pretty_Z_numeral (n : Z) : (0 ≤ n)%Z → numeral (pretty n).
Proof.
  intros Hn. destruct n as [|p|p]; [by left| |lia].
  right. unfold pretty, pretty_Z, pretty, pretty_positive, pretty, pretty_N.
  rewrite decide_False by done. by apply pretty_N_go_leading.
Qed.

Lemma numeral_not_empty (a : string) : numeral a → a ≠ "".
Proof. by intros [->|(c & t & -> & _)]. Qed.

Lemma string_app_nil_inv (a b : string) : "" = a +:+ b → b = "".
Proof. destruct a; [intros Heq; symmetry; exact Heq|done]. Qed.

Lemma zeros_numeral_inj (k k' : nat) (a b : string) :
  numeral a → numeral b → zeros k +:+ a = zeros k' +:+ b → a = b.
Proof.
  revert k'. induction k as [|k IH]; intros [|k'] Ha Hb Heq.
  - done.
  - rewrite zeros_S, string_app_cons in Heq. change ("" +:+ a) with a in Heq.
    destruct Ha as [->|(c & t & -> & Hc & _)].
    + injection Heq as Heq. apply string_app_nil_inv in Heq.
      by destruct (numeral_not_empty b).
    + by injection Heq as ->.
  - rewrite zeros_S, string_app_cons in Heq. change ("" +:+ b) with b in Heq.
    destruct Hb as [->|(c & t & -> & Hc & _)].
    + injection Heq as Heq. symmetry in Heq. apply string_app_nil_inv in Heq.
      by destruct (numeral_not_empty a).
    + by injection Heq as <-.
  - rewrite !zeros_S, !string_app_cons in Heq. injection Heq as Heq. by eapply IH.
Qed.

Lemma zeros_numeral_no_dash (k : nat) (a : string) :
  numeral a → ∃ c t, zeros k +:+ a = String c t ∧ c ≠ "-"%char.
Proof.
  intros Ha. destruct k as [|k].
  - change (zeros 0 +:+ a) with a.
    destruct Ha as [->|(c & t & -> & _ & Hc)]; eauto.
  - rewrite zeros_S, string_app_cons. eauto.
Qed.

Lemma fmt_04d_inj (n n' : Z) : fmt_04d n = fmt_04d n' → n = n'.
Proof.
  unfold fmt_04d. fold (zeros (4 - String.length (pretty n))).
  fold (zeros (4 - String.length (pretty n'))).
  fold (zeros (3 - String.length (pretty (- n)%Z))).
  fold (zeros (3 - String.length (pretty (- n')%Z))).
  destruct (Z.ltb_spec n 0) as [Hn|Hn], (Z.ltb_spec n' 0) as [Hn'|Hn'].
  - intros Heq. apply (inj (String.app "-")) in Heq.
    apply zeros_numeral_inj in Heq; [|apply pretty_Z_numeral; lia..].
    apply (inj pretty) in Heq. lia.
  - intros Heq.
    destruct (zeros_numeral_no_dash (4 - String.length (pretty n')) (pretty n'))
      as (c & t & Hct & Hc); [apply pretty_Z_numeral; lia|].
    rewrite Hct in Heq. change ("-" +:+ ?x) with (String "-" x) in Heq.
    by injection Heq as <-.
  - intros Heq.
    destruct (zeros_numeral_no_dash (4 - String.length (pretty n)) (pretty n))
      as (c & t & Hct & Hc); [apply pretty_Z_numeral; lia|].
    rewrite Hct in Heq. change ("-" +:+ ?x) with (String "-" x) in Heq.
    by injection Heq as ->.
  - intros Heq.
    apply zeros_numeral_inj in Heq; [|apply pretty_Z_numeral; lia..].
    by apply (inj pretty) in Heq.
Qed.

(** The snapshot files of validated campaigns: one path per campaign and
    step, none of them a snapshot directory. *)
Lemma snapshot_path_inj (r : SnapshotRecorder) (k k' : string) (step step' : Z) :
  _validate_campaign_id k = Py.Ok tt → _validate_campaign_id k' = Py.Ok tt →
  snapshot_path r k step = snapshot_path r k' step' → k = k' ∧ step = step'.
Proof.
  intros Hk Hk'. rewrite !valid_snapshot_path by done. intros Heq.
  apply (inj (String.app (storage_dir r))) in Heq.
  apply (inj (String.app "/")) in Heq.
  apply (split_at_slash k k') in Heq as [-> Heq];
    [|by apply valid_id_no_slash..].
  split; [done|].
  apply (inj (String.app "snapshots/step_")) in Heq.
  apply string_app_inv_tail in Heq. by apply fmt_04d_inj.
Qed.


End SnapshotPathFacts.

Section RecorderFacts.
Import Recorder Snapshot CampaignId.

Lemma record_then_load (r : SnapshotRecorder) cid step s uuid fs :
  (load r cid step (record r cid step s uuid fs).2).1
  = Py.Ok (Some (record r cid step s uuid fs).1.2).
Proof.
  unfold record, load. cbn [fst snd].
  unfold FS.exists_, FS.read_text, FS.write_text, FS.mkdir.
  cbn [FS.files FS.dirs fst snd]. rewrite lookup_insert_eq.
  by rewrite (bool_decide_eq_true_2 (is_Some (Some _))) by eauto.
Qed.

(** What [load] returns depends on the file at the snapshot path and on
    whether that path is a directory. *)
Lemma load_frame (r : SnapshotRecorder) (cid : string) (step : Z) (fs fs' : FS.t) :
  FS.files fs' !! snapshot_path r cid step = FS.files fs !! snapshot_path r cid step →
  (snapshot_path r cid step ∈ FS.dirs fs' ↔ snapshot_path r cid step ∈ FS.dirs fs) →
  (load r cid step fs').1 = (load r cid step fs).1.
Proof.
  intros Hfile Hdir. unfold load, FS.exists_, FS.read_text. cbn [fst snd FS.files].
  rewrite Hfile.
  rewrite (bool_decide_ext _ _ Hdir).
  destruct (bool_decide _ || bool_decide _); cbn [negb]; [|done].
  by destruct (FS.files fs !! snapshot_path r cid step) as [[]|].
Qed.


(** X3. For a validated campaign identifier whose snapshot path is not a
    directory, [delete_snapshot] answers whether the file was there;
    afterwards [load] finds no snapshot at that step, no other file has
    changed, and [load] returns what it returned before for every other
    step and for every other validated campaign. *)
Theorem delete_snapshot_removes (r : SnapshotRecorder) (cid : string) (step : Z)
    (fs : FS.t) :
  _validate_campaign_id cid = Py.Ok tt →
  snapshot_path r cid step ∉ FS.dirs fs →
  let out := delete_snapshot r cid step fs in
  (out.1 = true ↔ is_Some (FS.files fs !! snapshot_path r cid step))
  ∧ (load r cid step out.2).1 = Py.Ok None
  ∧ (∀ p, p ≠ snapshot_path r cid step → FS.files out.2 !! p = FS.files fs !! p)
  ∧ (∀ cid' step',
       _validate_campaign_id cid' = Py.Ok tt → (cid', step') ≠ (cid, step) →
       (load r cid' step' out.2).1 = (load r cid' step' fs).1).
Proof.
  intros Hcid Hdir. cbv zeta.
  assert (Hother : ∀ p, p ≠ snapshot_path r cid step →
            FS.files (delete_snapshot r cid step fs).2 !! p = FS.files fs !! p).
  { intros p Hp. unfold delete_snapshot, FS.exists_, FS.unlink. cbn [fst snd].
    destruct (negb _); cbn [snd FS.files]; [done|]. by rewrite lookup_delete_ne. }
  assert (Hdirs : FS.dirs (delete_snapshot r cid step fs).2 = FS.dirs fs).
  { unfold delete_snapshot, FS.exists_, FS.unlink. cbn [fst snd].
    by destruct (negb _). }
  split; [|split; [|split; [exact Hother|]]].
  - unfold delete_snapshot, FS.exists_. cbn [fst snd FS.files FS.dirs].
    rewrite (bool_decide_eq_false_2 (_ ∈ FS.dirs fs)) by done.
    rewrite orb_false_r.
    destruct (FS.files fs !! snapshot_path r cid step) as [d|].
    + rewrite (bool_decide_eq_true_2 (is_Some (Some d))) by eauto.
      cbn [negb fst]. split; eauto.
    + rewrite (bool_decide_eq_false_2 (is_Some None)) by (by intros [? ?]).
      cbn [negb fst]. split; [done|by intros [? ?]].
  - assert (FS.files (delete_snapshot r cid step fs).2 !! snapshot_path r cid step
            = None) as Hgone.
    { unfold delete_snapshot, FS.exists_, FS.unlink. cbn [fst snd FS.files FS.dirs].
      rewrite (bool_decide_eq_false_2 (_ ∈ FS.dirs fs)) by done.
      rewrite orb_false_r.
      destruct (FS.files fs !! snapshot_path r cid step) as [d|] eqn:Hd.
      - rewrite (bool_decide_eq_true_2 (is_Some (Some d))) by eauto.
        cbn [negb snd FS.files]. apply lookup_delete_eq.
      - rewrite (bool_decide_eq_false_2 (is_Some None)) by (by intros [? ?]).
        cbn [negb snd FS.files]. exact Hd. }
    unfold load, FS.exists_. cbn [fst snd]. rewrite Hgone, Hdirs.
    rewrite (bool_decide_eq_false_2 (is_Some None)) by (by intros [? ?]).
    rewrite (bool_decide_eq_false_2 (_ ∈ FS.dirs fs)) by done.
    reflexivity.
  - intros cid' step' Hcid' Hne. apply load_frame.
    + apply Hother. intros Heq. apply snapshot_path_inj in Heq as [-> ->]; done.
    + by rewrite Hdirs.
Qed.


Lemma delete_snapshot_removes_witness :
  let fs := (record example_recorder "camp" 3 example_snapshot "0123456789ab"
               FS.empty).2 in
  (delete_snapshot example_recorder "camp" 3 fs).1 = true
  ∧ (load example_recorder "camp" 3
       (delete_snapshot example_recorder "camp" 3 fs).2).1 = Py.Ok None.
Proof.
  cbv zeta.
  destruct (delete_snapshot_removes example_recorder "camp" 3
              (record example_recorder "camp" 3 example_snapshot "0123456789ab"
                 FS.empty).2) as (Hfound & Hgone & _).
  - vm_compute. reflexivity.
  - apply (bool_decide_unpack _). vm_compute. exact I.
  - split; [|exact Hgone]. apply Hfound. vm_compute. eauto.
Defined.

End RecorderFacts.

(*** Campaign files *)

Section StorageFacts.
Context `{Runtime}.
Import Manager CampaignId.

Lemma tmp_path_differs (p : string) : p +:+ ".tmp" ≠ p.
Proof.
  intros Heq. apply (f_equal String.length) in Heq.
  rewrite string_length_app in Heq. simpl in Heq. lia.
Qed.

Lemma save_ok m c fs r m' fs' dir :
  _storage_dir m = Some dir →
  _save m c fs = (Py.Ok r, m', fs') →
  _validate_campaign_id (Camp.id c) = Py.Ok tt
  ∧ m' = set_campaign m (Camp.id c) c
  ∧ FS.files fs' !! campaign_path dir (Camp.id c) = Some (FS.CampaignDoc c).
Proof.
  intros Hdir. unfold _save.
  destruct (_validate_campaign_id (Camp.id c)) as [[]|e] eqn:Hv; [|done].
  simpl. rewrite Hdir. intros [= <- <- <-]. split; [done|]. split; [done|].
  unfold FS.replace, FS.write_text, FS.mkdir. cbn [FS.files].
  rewrite lookup_insert_eq. apply lookup_insert_eq.
Qed.

Lemma get_setup m cid fs :
  same_setup m (get m cid fs).1.2
  ∧ _step_counters (get m cid fs).1.2 = _step_counters m
  ∧ _adaptive_planner (get m cid fs).1.2 = _adaptive_planner m
  ∧ FS.files (get m cid fs).2 = FS.files fs
  ∧ FS.dirs (get m cid fs).2 = FS.dirs fs.
Proof.
  unfold get, _load, same_setup.
  destruct (_campaigns m !! cid); [done|].
  destruct (_validate_campaign_id cid); [|done].
  destruct (_storage_dir m) as [dir|] eqn:Hdir; [|done].
  unfold FS.exists_, FS.read_text. cbn [fst snd FS.files FS.dirs].
  destruct (negb _); [done|].
  destruct (FS.files fs !! campaign_path dir cid) as [[c|s]|];
    repeat split; simpl; congruence.
Qed.

Lemma reloads_saved dir c fs :
  _validate_campaign_id (Camp.id c) = Py.Ok tt →
  FS.files fs !! campaign_path dir (Camp.id c) = Some (FS.CampaignDoc c) →
  reloads dir c fs.
Proof.
  intros Hv Hfile m2 Hdir Hmem. unfold get, _load.
  rewrite Hmem, Hv, Hdir. unfold FS.exists_, FS.read_text.
  cbn [fst snd FS.files]. rewrite Hfile.
  rewrite (bool_decide_eq_true_2 (is_Some (Some _))) by eauto. reflexivity.
Qed.

(** X4. The campaign that [create], [ingest_results] or [update_status] returns
    is the one in the campaign file: a manager started later on the same
    storage directory gets it back from [get]. *)
Theorem returned_campaign_reloads (m : CampaignManager) (dir : string) (fs : FS.t) :
  _storage_dir m = Some dir →
  (∀ target name auto_plan adaptive seed uuid randint now c m' fs',
     create m target name auto_plan adaptive seed uuid randint now fs
       = (Py.Ok c, m', fs') → reloads dir c fs')
  ∧ (∀ cid attempts evaluations now c m' fs',
       ingest_results m cid attempts evaluations now fs = (Py.Ok c, m', fs') →
       reloads dir c fs')
  ∧ (∀ cid status c m' fs',
       update_status m cid status fs = (Py.Ok c, m', fs') → reloads dir c fs').
Proof.
  intros Hdir.
  assert (∀ m1 c0 fs1 c m' fs',
    _storage_dir m1 = Some dir →
    match _save m1 c0 fs1 with
    | (Py.Raise e, m, fs) => (Py.Raise e, m, fs)
    | (Py.Ok _, m, fs) => (Py.Ok c0, m, fs)
    end = (Py.Ok c, m', fs') → reloads dir c fs') as Hsaved.
  { intros m1 c0 fs1 c m' fs' Hdir1 Hrun.
    destruct (_save m1 c0 fs1) as [[[r|e] m2] fs2] eqn:Hsave; [|done].
    injection Hrun as <- <- <-.
    destruct (save_ok _ _ _ _ _ _ _ Hdir1 Hsave) as (Hv & _ & Hfile).
    by apply reloads_saved. }
  split; [|split].
  - intros target name auto_plan adaptive seed uuid randint now c m' fs'.
    unfold create. cbv zeta.
    destruct auto_plan;
      [destruct adaptive;
         [destruct (_adaptive_planner m);
            [destruct (Adaptive.plan _ _ _ _ _ _ _ _ _ _ _ _) as [[? ?] ?]|]|]|];
      (match goal with |- context [_save ?m1 ?c0 fs] =>
         intros Hrun; apply (Hsaved m1 c0 fs c m' fs'); [exact Hdir|exact Hrun] end).
  - intros cid attempts evaluations now c m' fs'. unfold ingest_results.
    destruct (get_setup m cid fs) as ((_ & _ & Hdir0 & _) & _).
    destruct (get m cid fs) as [[[[c0|]|e] m0] fs0]; try done.
    cbn [fst snd] in Hdir0. unfold ingest_found. cbv zeta.
    destruct (truthy _);
      [destruct (_adaptive_planner m0);
         [destruct (Camp.posterior_state _);
            [destruct (Adaptive.update_posteriors _ _ _ _ _) as [st [e|]]; [done|]|]|]|];
      (match goal with |- context [_save ?m1 ?c0 fs0] =>
         apply (Hsaved m1 c0 fs0 c m' fs') end; simpl; congruence).
  - intros cid status c m' fs'. unfold update_status.
    destruct (get_setup m cid fs) as ((_ & _ & Hdir0 & _) & _).
    destruct (get m cid fs) as [[[[c0|]|e] m0] fs0]; try done.
    cbn [fst snd] in Hdir0. unfold status_found.
    apply Hsaved. simpl; congruence.
Qed.


(** X5. A campaign that is neither in memory nor on disk: [get] answers [None],
    and [ingest_results], [recommend_next] and [update_status] raise
    [ValueError], leaving the manager as it was and every file and directory
    in place. *)
Theorem unknown_campaign_is_reported (m : CampaignManager) (cid : string)
    (fs : FS.t) :
  _campaigns m !! cid = None →
  _validate_campaign_id cid = Py.Ok tt →
  (∀ dir, _storage_dir m = Some dir → FS.files fs !! campaign_path dir cid = None) →
  let err := Py.ValueError ("Campaign " +:+ cid +:+ " not found") in
  ∃ fs', get m cid fs = (Py.Ok None, m, fs')
    ∧ FS.files fs' = FS.files fs ∧ FS.dirs fs' = FS.dirs fs
    ∧ (∀ attempts evaluations now,
         ingest_results m cid attempts evaluations now fs = (Py.Raise err, m, fs'))
    ∧ (∀ k ex pen adaptive uuid now,
         recommend_next m cid k ex pen adaptive uuid now fs = (Py.Raise err, m, fs'))
    ∧ (∀ status, update_status m cid status fs = (Py.Raise err, m, fs')).
Proof.
  intros Hmem Hv Hfile err.
  assert (∃ fs', get m cid fs = (Py.Ok None, m, fs')
                 ∧ FS.files fs' = FS.files fs ∧ FS.dirs fs' = FS.dirs fs)
    as (fs' & Hget & Hfiles & Hdirs).
  { unfold get, _load. rewrite Hmem, Hv.
    destruct (_storage_dir m) as [dir|] eqn:Hdir; [|by exists fs].
    unfold FS.exists_, FS.read_text. cbn [fst snd FS.files FS.dirs].
    rewrite (Hfile dir eq_refl).
    destruct (negb _); eexists; (split; [reflexivity|done]). }
  exists fs'. split; [done|]. split; [done|]. split; [done|].
  unfold ingest_results, recommend_next, update_status. rewrite Hget.
  by repeat split.
Qed.

(** X6. An identifier that validation rejects and that is not in memory: [get],
    [ingest_results], [recommend_next] and [update_status] raise the
    [ValueError] of [_validate_campaign_id] without any file-system
    operation. *)
Theorem invalid_campaign_id_is_refused (m : CampaignManager) (cid : string)
    (fs : FS.t) (e : Py.exn) :
  _campaigns m !! cid = None →
  _validate_campaign_id cid = Py.Raise e →
  get m cid fs = (Py.Raise e, m, fs)
  ∧ (∀ attempts evaluations now,
       ingest_results m cid attempts evaluations now fs = (Py.Raise e, m, fs))
  ∧ (∀ k ex pen adaptive uuid now,
       recommend_next m cid k ex pen adaptive uuid now fs = (Py.Raise e, m, fs))
  ∧ (∀ status, update_status m cid status fs = (Py.Raise e, m, fs)).
Proof.
  intros Hmem Hv.
  assert (get m cid fs = (Py.Raise e, m, fs)) as Hget
    by (unfold get, _load; by rewrite Hmem, Hv).
  unfold ingest_results, recommend_next, update_status. rewrite Hget.
  by repeat split.
Qed.

End StorageFacts.

(*** The life cycle of a campaign *)

Section LifecycleFacts.
Context `{Runtime}.
Import Manager CampaignId.

Lemma set_phase_same c : Camp.set_phase c (Camp.phase c) = c.
Proof. by destruct c. Qed.

(** X7. The campaign that [create] returns: its identifier is the one drawn, its
    name the given one or [campaign-<id>], it is [ACTIVE] with a plan when
    [auto_plan] is set and [PLANNING] without a plan otherwise, it starts in
    the [PROBE] phase with an empty state, it has a posterior state exactly
    when it is adaptive, and its metadata record the adaptive flag, the
    target hash and the seed: the given seed, the random draw for an
    adaptive campaign without one, none otherwise.  The manager holds the
    campaign under its identifier with the step counter 0 and keeps every
    other campaign and counter. *)
Theorem create_new_campaign (m m' : CampaignManager) (target : TargetProfile)
    (name : string) (auto_plan adaptive : bool) (seed : option Z) (uuid : string)
    (randint now : Z) (fs fs' : FS.t) (c : Camp.Campaign) :
  create m target name auto_plan adaptive seed uuid randint now fs
    = (Py.Ok c, m', fs') →
  (Camp.id c = uuid
   ∧ Camp.name c = (if bool_decide (name = "") then "campaign-" +:+ uuid else name)
   ∧ Camp.target c = target
   ∧ Camp.status c = (if auto_plan then ACTIVE else PLANNING)
   ∧ Camp.phase c = PROBE
   ∧ Camp.state c = Camp.empty_state now)
  ∧ (is_Some (Camp.plan c) ↔ auto_plan = true)
  ∧ (is_Some (Camp.posterior_state c) ↔ adaptive = true)
  ∧ (Camp.metadata c !! "adaptive" = Some (VBool adaptive)
     ∧ Camp.metadata c !! "target_profile_hash"
       = Some (VStr (hash_target_profile target))
     ∧ Camp.metadata c !! "campaign_seed"
       = VInt <$> (match seed with
                   | Some s => Some s
                   | None => if adaptive then Some randint else None
                   end))
  ∧ _campaigns m' !! uuid = Some c
  ∧ _step_counters m' !! uuid = Some 0%Z
  ∧ (∀ j, j ≠ uuid → _campaigns m' !! j = _campaigns m !! j
                     ∧ _step_counters m' !! j = _step_counters m !! j)
  ∧ _validate_campaign_id uuid = Py.Ok tt.
Proof.
  unfold create. cbv zeta.
  match goal with |- context [Camp.Build_Campaign ?a ?b ?c0 ?d ?e ?f ?g ?h ?i] =>
    set (c0' := Camp.Build_Campaign a b c0 d e f g h i) in * end.
  match goal with |- context [let '(campaign, m0) := ?x in _] =>
    set (base := x) end.
  assert (Hbase :
    (Camp.id base.1 = uuid ∧ Camp.name base.1 = Camp.name c0'
     ∧ Camp.target base.1 = target
     ∧ Camp.status base.1 = (if auto_plan then ACTIVE else PLANNING)
     ∧ Camp.phase base.1 = PROBE ∧ Camp.state base.1 = Camp.empty_state now)
    ∧ (is_Some (Camp.plan base.1) ↔ auto_plan = true)
    ∧ (is_Some (Camp.posterior_state base.1) ↔ adaptive = true)
    ∧ Camp.metadata base.1 = Camp.metadata c0'
    ∧ _campaigns base.2 = _campaigns m ∧ _step_counters base.2 = _step_counters m).
  { subst base. destruct auto_plan; [destruct adaptive;
      [destruct (_adaptive_planner m) as [pl|];
       [destruct (Adaptive.plan _ _ _ _ _ _ _ _ _ _ _ _) as [[p1 up] pr]|]|]
      |destruct adaptive];
      cbn; repeat split; eauto; try done; try (by intros [? [=]]). }
  destruct base as [c1 m1]. cbn [fst snd] in Hbase.
  destruct Hbase as (Hf & Hplan & Hpost & Hmd & Hcs & Hct).
  unfold _save.
  destruct (_validate_campaign_id (Camp.id c1)) as [[]|e] eqn:Hv; [|done].
  cbn [_storage_dir set_campaign set_counter].
  assert (∀ m2 fs2, (Py.Ok c1, m2, fs2) = (Py.Ok c, m', fs') →
                    c1 = c ∧ m2 = m') as Hinj by (by intros ?? [= -> ->]).
  intros Hrun.
  assert (c1 = c ∧ set_campaign (set_counter (set_campaign m1 uuid c1) uuid 0)
                        (Camp.id c1) c1 = m') as [<- <-].
  { destruct (_storage_dir m1); exact (Hinj _ _ Hrun). }
  destruct Hf as (Hid & Hname & Hrest).
  split; [by rewrite Hname|]. split; [done|]. split; [done|].
  split.
  { rewrite Hmd. subst c0'. cbn [Camp.metadata].
    destruct seed as [s|]; [|destruct adaptive]; cbn [fmap option_fmap option_map];
      rewrite ?lookup_insert_ne by done; rewrite ?lookup_insert_eq;
      rewrite ?lookup_insert_ne by done; rewrite ?lookup_singleton_eq;
      rewrite ?lookup_singleton_ne by done; done. }
  cbn [_campaigns _step_counters set_campaign set_counter]. rewrite Hid.
  split; [by rewrite lookup_insert_eq|].
  split; [by rewrite lookup_insert_eq|].
  split; [|by rewrite <- Hid].
  intros j Hj. rewrite !lookup_insert_ne by done. by rewrite Hcs, Hct.
Qed.

(** X8. [update_status] on a campaign it finds, when it returns: the campaign is
    the one found with the new status and nothing else changed; the manager
    holds it, and its step counters and planner are as before. *)
Theorem update_status_sets_status (m m0 m' : CampaignManager) (cid : string)
    (c c' : Camp.Campaign) (status : CampaignStatus) (fs fs0 fs' : FS.t) :
  get m cid fs = (Py.Ok (Some c), m0, fs0) →
  update_status m cid status fs = (Py.Ok c', m', fs') →
  c' = Camp.set_status c status
  ∧ _campaigns m' !! cid = Some c'
  ∧ (∀ j, j ≠ cid → j ≠ Camp.id c → _campaigns m' !! j = _campaigns m0 !! j)
  ∧ _step_counters m' = _step_counters m
  ∧ _adaptive_planner m' = _adaptive_planner m
  ∧ (_storage_dir m = None → FS.files fs' = FS.files fs).
Proof.
  intros Hget. unfold update_status. rewrite Hget. unfold status_found, _save.
  destruct (get_setup m cid fs) as (Hsetup & Hcnt & Hpl & Hfiles & _).
  rewrite Hget in Hsetup, Hcnt, Hpl, Hfiles. cbn [fst snd] in *.
  destruct Hsetup as (_ & _ & Hdir & _).
  destruct (_validate_campaign_id _) as [[]|e]; [|done].
  cbn [_storage_dir set_campaign].
  assert (∀ fs2,
    (Py.Ok (Camp.set_status c status),
     set_campaign (set_campaign m0 cid (Camp.set_status c status))
       (Camp.id (Camp.set_status c status)) (Camp.set_status c status), fs2)
    = (Py.Ok c', m', fs') →
    c' = Camp.set_status c status
    ∧ _campaigns m' !! cid = Some c'
    ∧ (∀ j, j ≠ cid → j ≠ Camp.id c → _campaigns m' !! j = _campaigns m0 !! j)
    ∧ _step_counters m' = _step_counters m
    ∧ _adaptive_planner m' = _adaptive_planner m ∧ fs2 = fs') as Hshape.
  { intros fs2 [= <- <- <-]. split; [done|].
    cbn [_campaigns _step_counters _adaptive_planner set_campaign Camp.id
         Camp.set_status].
    split.
    { destruct (decide (Camp.id c = cid)) as [->|Hne].
      - by rewrite lookup_insert_eq.
      - rewrite lookup_insert_ne by done. by rewrite lookup_insert_eq. }
    split; [|done].
    intros j Hj1 Hj2. by rewrite !lookup_insert_ne. }
  destruct (_storage_dir m0) as [dir|] eqn:Hd0; intros Hrun;
    destruct (Hshape _ Hrun) as (H1 & H2 & H3 & H4 & H5 & H6);
    (split; [done|]); (split; [done|]); (split; [done|]); (split; [done|]);
    (split; [done|]).
  - intros Hnone. congruence.
  - intros _. by rewrite <- H6.
Qed.

(** X9. A [recommend_next] that is not served by the adaptive planner returns
    the plan of the rule-based engine for the campaign's target and
    evaluations, limited to [max_techniques]; [exclude_tried] and
    [repeat_penalty] play no part.  It writes no file and records no
    snapshot; in memory the step counter has advanced by one and the
    campaign has moved to the phase the transition rule gives, with nothing
    else changed. *)
Theorem recommend_next_rule_based (m m0 : CampaignManager) (cid : string)
    (c : Camp.Campaign) (k : Z) (ex : bool) (pen : float)
    (adaptive : option bool) (uuid : string) (now : Z) (fs fs0 : FS.t) :
  get m cid fs = (Py.Ok (Some c), m0, fs0) →
  ¬ served_adaptively m0 c adaptive →
  ∃ m',
    recommend_next m cid k ex pen adaptive uuid now fs
    = (Py.Ok (Engine.plan (_engine m) now (Camp.target c) (_registry m)
                (Some (Camp.evaluations (Camp.state c))) (Some k)), m', fs0)
    ∧ FS.files fs0 = FS.files fs ∧ FS.dirs fs0 = FS.dirs fs
    ∧ _step_counters m' !! cid = Some (default 0 (_step_counters m !! cid) + 1)%Z
    ∧ _campaigns m' !! cid = Some (Camp.set_phase c (phase_after m0 c cid))
    ∧ (∀ j, j ≠ cid → _campaigns m' !! j = _campaigns m0 !! j
                      ∧ _step_counters m' !! j = _step_counters m !! j).
Proof.
  intros Hget Hnot. unfold recommend_next. rewrite Hget.
  destruct (get_setup m cid fs) as (Hsetup & Hcnt & Hpl & Hfiles & Hdirs).
  rewrite Hget in Hsetup, Hcnt, Hpl, Hfiles, Hdirs. cbn [fst snd] in *.
  destruct Hsetup as (Hreg & Heng & _ & _).
  unfold recommend_found, phase_after. cbv zeta.
  rewrite Hcnt.
  set (step := default 0%Z (_step_counters m !! cid)).
  set (m1 := set_counter m0 cid (step + 1)%Z).
  set (c1 := if _should_transition m1 c then Camp.set_phase c EXPLOIT else c).
  assert (c1 = Camp.set_phase c
                 (if _should_transition m1 c then EXPLOIT else Camp.phase c)) as Hc1.
  { subst c1. destruct (_should_transition m1 c); [done|].
    by rewrite set_phase_same. }
  assert (Camp.target c1 = Camp.target c
          ∧ Camp.state c1 = Camp.state c
          ∧ Camp.posterior_state c1 = Camp.posterior_state c
          ∧ Camp.metadata c1 = Camp.metadata c) as (Ht & Hs & Hp & Hmd).
  { subst c1. by destruct (_should_transition m1 c). }
  exists (set_campaign m1 cid c1).
  assert (_step_counters (set_campaign m1 cid c1) !! cid = Some (step + 1)%Z
          ∧ _campaigns (set_campaign m1 cid c1) !! cid
            = Some (Camp.set_phase c
                      (if _should_transition m1 c then EXPLOIT else Camp.phase c))
          ∧ (∀ j, j ≠ cid →
               _campaigns (set_campaign m1 cid c1) !! j = _campaigns m0 !! j
               ∧ _step_counters (set_campaign m1 cid c1) !! j
                 = _step_counters m !! j)) as Hmem.
  { subst m1. cbn [_campaigns _step_counters set_campaign set_counter].
    rewrite !lookup_insert_eq. split; [done|]. split; [by rewrite Hc1|].
    intros j Hj. rewrite !lookup_insert_ne by done. by rewrite Hcnt. }
  split; [|by repeat (split; [tauto|]); tauto].
  rewrite Ht, Hs, Hp.
  cbn [_adaptive_planner _engine _registry set_campaign set_counter m1].
  subst m1. cbn [_adaptive_planner _engine _registry set_campaign set_counter].
  rewrite Heng, Hreg.
  destruct adaptive as [[]|] eqn:Had;
    try (destruct (truthy (default (VBool false) (Camp.metadata c !! "adaptive")))
           eqn:Htr);
    try reflexivity;
    destruct (_adaptive_planner m0) as [pl|] eqn:Hplanner; try reflexivity;
    destruct (Camp.posterior_state c) as [ps|] eqn:Hpost; try reflexivity;
    exfalso; apply Hnot; unfold served_adaptively; rewrite ?Hplanner, ?Hpost;
    cbn [default from_option]; rewrite ?Htr; eauto.
Qed.

End LifecycleFacts.

(*** The recorded decision *)

Section RecommendRunFacts.
Context `{Runtime}.
Import Manager.

Lemma recommend_found_adaptive m c cid k ex pen adaptive uuid now fs plan m' fs'
    planner ps :
  default (truthy (default (VBool false) (Camp.metadata c !! "adaptive"))) adaptive
    = true →
  _adaptive_planner m = Some planner → Camp.posterior_state c = Some ps →
  recommend_found m c cid k ex pen adaptive uuid now fs = (Py.Ok plan, m', fs') →
  let step := default 0%Z (_step_counters m !! cid) in
  let run := adaptive_run m c cid planner ps k ex pen now in
  plan = run.1.1
  ∧ ∃ c2 fs1,
      (Camp.id c2 = Camp.id c ∧ Camp.state c2 = Camp.state c
       ∧ Camp.metadata c2 = Camp.metadata c ∧ Camp.target c2 = Camp.target c
       ∧ Camp.posterior_state c2 = Some run.1.2
       ∧ Camp.phase c2 = phase_after m c cid)
      ∧ _campaigns m' !! Camp.id c = Some c2
      ∧ _adaptive_planner m' = Some run.2
      ∧ same_setup m m'
      ∧ _step_counters m' = <[cid := (step + 1)%Z]> (_step_counters m)
      ∧ (∀ rec, _recorder m = Some rec →
           fs' = (Recorder.record rec (Camp.id c) step
                    (snapshot_of c run.1.2 step plan now) uuid fs1).2).
Proof.
  intros Had Hpl Hps Hrun step run. subst step run.
  unfold recommend_found in Hrun. cbv zeta in Hrun.
  assert (match adaptive with
          | Some b => b
          | None => truthy (default (VBool false) (Camp.metadata c !! "adaptive"))
          end = true) as Had' by (destruct adaptive; exact Had).
  rewrite Had' in Hrun.
  change (_adaptive_planner (set_campaign ?a ?b ?d)) with (_adaptive_planner a) in Hrun.
  change (_adaptive_planner (set_counter ?a ?b ?d)) with (_adaptive_planner a) in Hrun.
  rewrite Hpl in Hrun.
  set (c1 := if _should_transition _ c then Camp.set_phase c EXPLOIT else c) in Hrun.
  assert (Camp.posterior_state c1 = Some ps ∧ Camp.state c1 = Camp.state c
          ∧ Camp.target c1 = Camp.target c ∧ Camp.id c1 = Camp.id c
          ∧ Camp.metadata c1 = Camp.metadata c
          ∧ Camp.phase c1 = phase_after m c cid)
    as (Hps1 & Hst1 & Htg1 & Hid1 & Hmd1 & Hph1).
  { subst c1. unfold phase_after. destruct (_should_transition _ c); simpl; auto 10. }
  rewrite Hps1, Hst1, Htg1, Hph1 in Hrun.
  change (_registry (set_campaign ?a ?b ?d)) with (_registry a) in Hrun.
  change (_registry (set_counter ?a ?b ?d)) with (_registry a) in Hrun.
  unfold adaptive_run.
  match type of Hrun with context [Adaptive.plan ?a ?b ?c0 ?d ?e ?f ?g ?h ?i ?j ?k0 ?l] =>
    destruct (Adaptive.plan a b c0 d e f g h i j k0 l) as [[pl up] pr] eqn:Hplan
  end.
  cbn [fst snd].
  match type of Hrun with context [_save ?a ?b ?d] =>
    destruct (_save a b d) as [[[u|e] ms] fss] eqn:Hsave end; [|discriminate].
  injection Hrun as <- <- <-. split; [reflexivity|].
  unfold _save in Hsave.
  destruct (CampaignId._validate_campaign_id _); [|discriminate].
  assert (∃ fs1, (ms, fss)
            = (set_campaign
                 (set_campaign
                    (set_planner
                       (set_campaign
                          (set_counter m cid
                             (default 0%Z (_step_counters m !! cid) + 1)) cid c1)
                       (Some pr))
                    cid (Camp.set_posterior_state c1 (Some up)))
                 (Camp.id c1) (Camp.set_posterior_state c1 (Some up)), fs1))
    as (fs1 & Hms).
  { destruct (_storage_dir _); injection Hsave as <- <-; eauto. }
  injection Hms as -> ->. clear Hsave.
  exists (Camp.set_posterior_state c1 (Some up)), fs1.
  split; [simpl; auto 10|].
  split; [simpl; rewrite Hid1; apply lookup_insert_eq|].
  split; [reflexivity|]. split; [done|]. split; [reflexivity|].
  intros rec Hrec. unfold _record_snapshot. cbn [_recorder set_campaign set_planner
    set_counter]. rewrite Hrec. cbn [Camp.posterior_state Camp.set_posterior_state].
  unfold snapshot_of.
  change (Camp.id (Camp.set_posterior_state c1 (Some up))) with (Camp.id c1).
  change (Camp.metadata (Camp.set_posterior_state c1 (Some up)))
    with (Camp.metadata c1).
  change (Camp.state (Camp.set_posterior_state c1 (Some up))) with (Camp.state c1).
  by rewrite Hid1, Hmd1, Hst1.
Qed.

(** X10. An adaptive [recommend_next] on a manager with storage records the
    decision it returns: [load] at the step the call was given (the counter
    before the call, which the call advances by one) reads back a snapshot
    holding the entries and the configuration of the returned plan, the
    campaign's tried techniques and the posterior state the campaign is left
    with. *)
Theorem recommend_next_records_decision (m m0 m' : CampaignManager)
    (cid : string) (c : Camp.Campaign) (k : Z) (ex : bool) (pen : float)
    (adaptive : option bool) (uuid : string) (now : Z) (fs fs0 fs' : FS.t)
    (plan : AttackPlan) (rec : Recorder.SnapshotRecorder) :
  get m cid fs = (Py.Ok (Some c), m0, fs0) →
  served_adaptively m0 c adaptive →
  _recorder m = Some rec →
  recommend_next m cid k ex pen adaptive uuid now fs = (Py.Ok plan, m', fs') →
  let step := default 0%Z (_step_counters m !! cid) in
  _step_counters m' !! cid = Some (step + 1)%Z
  ∧ ∃ snap c',
      (Recorder.load rec (Camp.id c) step fs').1 = Py.Ok (Some snap)
      ∧ Snapshot.produced_plan_entries snap = entries plan
      ∧ Snapshot.planner_config snap = config_used plan
      ∧ Snapshot.step_number snap = step
      ∧ Snapshot.campaign_id snap = Camp.id c
      ∧ Snapshot.snapshot_id snap = uuid
      ∧ Snapshot.techniques_tried snap = Camp.techniques_tried (Camp.state c)
      ∧ Snapshot.evaluation_count snap = length (Camp.evaluations (Camp.state c))
      ∧ _campaigns m' !! Camp.id c = Some c'
      ∧ Camp.posterior_state c' = Some (Snapshot.posterior_state snap).
Proof.
  intros Hget (Had & [planner Hpl] & [ps Hps]) Hrec Hrun step.
  unfold recommend_next in Hrun. rewrite Hget in Hrun.
  destruct (get_setup m cid fs) as ((_ & _ & _ & Hrec0) & Hcnt0 & _).
  rewrite Hget in Hrec0, Hcnt0. cbn [fst snd] in Hrec0, Hcnt0.
  destruct (recommend_found_adaptive _ _ _ _ _ _ _ _ _ _ _ _ _ _ _ Had Hpl Hps Hrun)
    as (Hplan & c2 & fs1 & (Hid & Hst & Hmd & Htg & Hpost & Hph) & Hmem & _ & _
        & Hcnt & Hfs).
  rewrite Hcnt0 in Hcnt, Hfs. fold step in Hcnt, Hfs.
  split; [rewrite Hcnt; apply lookup_insert_eq|].
  rewrite Hrec0 in Hfs. specialize (Hfs rec Hrec).
  pose proof (record_then_load rec (Camp.id c) step
                (snapshot_of c (adaptive_run m0 c cid planner ps k ex pen now).1.2
                   step plan now) uuid fs1) as Hload.
  rewrite <- Hfs in Hload.
  eexists _, c2. split; [exact Hload|].
  match goal with |- context [Recorder.record ?a ?b ?c0 ?d ?e ?f] =>
    change (Recorder.record a b c0 d e f).1.2 with (Snapshot.set_snapshot_id d uuid)
  end.
  by repeat split.
Qed.

End RecommendRunFacts.

(*** Ingesting results *)

Section IngestFacts.
Context `{Runtime}.
Import Manager.

Lemma tried_fold (ids : list string) : ∀ old,
  NoDup ids →
  ∃ new,
    foldl (λ tried tid, if bool_decide (tid ∈ tried) then tried else tried ++ [tid])
          old ids = old ++ new
    ∧ NoDup new ∧ ∀ x, x ∈ new ↔ x ∈ ids ∧ x ∉ old.
Proof.
  induction ids as [|tid ids IH]; intros old Hnd; simpl.
  - exists []. rewrite app_nil_r. split; [done|]. split; [constructor|].
    intros x. split; [by intros ?%elem_of_nil|]. by intros [?%elem_of_nil _].
  - apply NoDup_cons in Hnd as [Htid Hnd].
    case_bool_decide as Hin.
    + destruct (IH old Hnd) as (new & -> & Hnew & Hmem).
      exists new. split; [done|]. split; [done|].
      intros x. rewrite Hmem, elem_of_cons. split; [tauto|].
      intros [[->|Hx] Hold]; [done|tauto].
    + destruct (IH (old ++ [tid]) Hnd) as (new & -> & Hnew & Hmem).
      exists (tid :: new). split; [by rewrite <- app_assoc|]. split.
      * apply NoDup_cons. split; [|done]. rewrite Hmem. tauto.
      * intros x. rewrite !elem_of_cons, Hmem, elem_of_app, list_elem_of_singleton.
        split.
        { intros [->|[Hx Hold]]; [tauto|]. tauto. }
        { intros [[->|Hx] Hold]; [tauto|].
          destruct (decide (x = tid)) as [->|Hne]; [tauto|]. tauto. }
Qed.

(** X11. [ingest_results] on a campaign it finds, when it returns: the attempts
    and evaluations are appended, the query count grows by the number of
    attempts, and the tried techniques gain, once each, exactly the technique
    ids of the new attempts that were not tried before; identity, target,
    status, phase and plan of the campaign are untouched, and the returned
    campaign is the one the manager holds. *)
Theorem ingest_results_bookkeeping (m m0 m' : CampaignManager) (cid : string)
    (c c' : Camp.Campaign) (attempts : list AttemptResult)
    (evaluations : list EvaluationResult) (now : Z) (fs fs0 fs' : FS.t) :
  get m cid fs = (Py.Ok (Some c), m0, fs0) →
  ingest_results m cid attempts evaluations now fs = (Py.Ok c', m', fs') →
  Camp.attempts (Camp.state c') = Camp.attempts (Camp.state c) ++ attempts
  ∧ Camp.evaluations (Camp.state c')
    = Camp.evaluations (Camp.state c) ++ evaluations
  ∧ Camp.queries_used (Camp.state c')
    = (Camp.queries_used (Camp.state c) + length attempts)%nat
  ∧ Camp.last_updated (Camp.state c') = now
  ∧ (∃ new,
       Camp.techniques_tried (Camp.state c')
       = Camp.techniques_tried (Camp.state c) ++ new
       ∧ NoDup new
       ∧ ∀ x, x ∈ new ↔ (∃ a, a ∈ attempts ∧ attempt_technique_id a = x)
                          ∧ x ∉ Camp.techniques_tried (Camp.state c))
  ∧ (Camp.id c' = Camp.id c ∧ Camp.name c' = Camp.name c
     ∧ Camp.target c' = Camp.target c ∧ Camp.status c' = Camp.status c
     ∧ Camp.phase c' = Camp.phase c ∧ Camp.plan c' = Camp.plan c
     ∧ Camp.metadata c' = Camp.metadata c)
  ∧ _campaigns m' !! cid = Some c'.
Proof.
  intros Hget Hrun. unfold ingest_results in Hrun. rewrite Hget in Hrun.
  unfold ingest_found in Hrun. cbv zeta in Hrun.
  destruct (tried_fold (remove_dups (attempt_technique_id <$> attempts))
              (Camp.techniques_tried (Camp.state c)) (NoDup_remove_dups _))
    as (new & Hfold & Hnew & Hmem).
  rewrite Hfold in Hrun.
  set (st' := {| Camp.attempts := _ |}) in Hrun.
  assert (∀ c1 m1, Camp.state c1 = st' →
    (Camp.id c1 = Camp.id c ∧ Camp.name c1 = Camp.name c
     ∧ Camp.target c1 = Camp.target c ∧ Camp.status c1 = Camp.status c
     ∧ Camp.phase c1 = Camp.phase c ∧ Camp.plan c1 = Camp.plan c
     ∧ Camp.metadata c1 = Camp.metadata c) →
    match _save (set_campaign m0 cid c1) c1 fs0 with
    | (Py.Raise e, m, fs) => (Py.Raise e, m, fs)
    | (Py.Ok _, m, fs) => (Py.Ok c1, m, fs)
    end = (Py.Ok c', m1, fs') →
    Camp.state c' = st'
    ∧ (Camp.id c' = Camp.id c ∧ Camp.name c' = Camp.name c
       ∧ Camp.target c' = Camp.target c ∧ Camp.status c' = Camp.status c
       ∧ Camp.phase c' = Camp.phase c ∧ Camp.plan c' = Camp.plan c
       ∧ Camp.metadata c' = Camp.metadata c)
    ∧ _campaigns m1 !! cid = Some c') as Hsaved.
  { intros c1 m1 Hst Hsame Hs.
    destruct (save_outcome (set_campaign m0 cid c1) c1 fs0) as (r & fs2 & Hsave).
    rewrite Hsave in Hs. destruct r as [u|e]; [|done]. simpl in Hs.
    injection Hs as <- <- <-. split; [done|]. split; [done|].
    simpl. destruct (decide (Camp.id c1 = cid)) as [->|Hne].
    - apply lookup_insert_eq.
    - rewrite lookup_insert_ne by done. apply lookup_insert_eq. }
  assert (Camp.state c' = st'
    ∧ (Camp.id c' = Camp.id c ∧ Camp.name c' = Camp.name c
       ∧ Camp.target c' = Camp.target c ∧ Camp.status c' = Camp.status c
       ∧ Camp.phase c' = Camp.phase c ∧ Camp.plan c' = Camp.plan c
       ∧ Camp.metadata c' = Camp.metadata c)
    ∧ _campaigns m' !! cid = Some c') as (Hst & Hsame & Hmem').
  { destruct (truthy _);
      [destruct (_adaptive_planner m0);
         [destruct (Camp.posterior_state _);
            [destruct (Adaptive.update_posteriors _ _ _ _ _) as [ps [e|]];
               [done|]|]|]|];
      (eapply Hsaved; [| |exact Hrun]; simpl; auto 10). }
  rewrite Hst. subst st'. cbn [Camp.attempts Camp.evaluations Camp.queries_used
    Camp.last_updated Camp.techniques_tried].
  split; [done|]. split; [done|]. split; [done|]. split; [done|].
  split; [|done].
  exists new. split; [done|]. split; [done|].
  intros x. rewrite Hmem, elem_of_remove_dups, list_elem_of_fmap.
  split; intros [(a & Ha1 & Ha2) Hx]; (split; [|done]); exists a; done.
Qed.

End IngestFacts.

(*** The shape of an adaptive plan *)

Section PlanShapeFacts.
Context `{Runtime}.
Import Adaptive PyList.

Lemma get_or_init_new s tid b bl x q :
  posteriors s !! x = None →
  posteriors (get_or_init s tid b bl).2 !! x = Some q →
  x = tid ∧ observations q = 0%nat.
Proof.
  intros Hx. unfold get_or_init.
  destruct (posteriors s !! tid) eqn:Htid; simpl; [congruence|].
  destruct (decide (x = tid)) as [->|Hne].
  - rewrite lookup_insert_eq. by intros [= <-].
  - rewrite lookup_insert_ne by done. congruence.
Qed.

Lemma get_or_init_prior_strength s tid b bl :
  Posterior.prior_strength (get_or_init s tid b bl).2 = Posterior.prior_strength s.
Proof. unfold get_or_init. by destruct (posteriors s !! tid). Qed.

Lemma loop_shape p target prior ex pen tr igw cw mc (l : list AttackTechnique) :
  ∀ g s acc g' s' acc',
  foldl (score_candidate p target prior ex pen tr igw cw mc) (g, s, acc) l
    = (g', s', acc') →
  ∃ ext, acc' = acc ++ ext
    ∧ c_technique <$> ext = filter (λ t, skipped prior ex t = false) l
    ∧ Forall (λ c, posteriors s' !! id (c_technique c) = Some (c_posterior c)) ext
    ∧ Posterior.prior_strength s' = Posterior.prior_strength s
    ∧ (∀ x q, posteriors s' !! x = Some q →
         posteriors s !! x = Some q
         ∨ (posteriors s !! x = None ∧ observations q = 0%nat
            ∧ ∃ t, t ∈ l ∧ id t = x)).
Proof.
  induction l as [|t l IH]; intros g s acc g' s' acc' Hrun.
  - simpl in Hrun. injection Hrun as <- <- <-. exists [].
    rewrite app_nil_r. repeat split; auto.
  - rewrite foldl_unfold_cons in Hrun. rewrite filter_cons.
    destruct (skipped prior ex t) eqn:Hsk.
    + rewrite body_skipped in Hrun by done.
      destruct (IH _ _ _ _ _ _ Hrun) as (ext & -> & Htech & Hpost & Hk & Hnew).
      exists ext. rewrite decide_False by done.
      split; [done|]. split; [done|]. split; [done|]. split; [done|].
      intros x q Hq. destruct (Hnew x q Hq) as [?|(? & ? & t' & ? & ?)]; [by left|].
      right. split; [done|]. split; [done|]. exists t'. split; [by right|done].
    + destruct (body_scored p target prior ex pen tr igw cw mc g s acc t Hsk)
        as (c & Hbody & Hct & Hcp & _).
      rewrite Hbody in Hrun.
      set (s1 := (get_or_init s (id t) (base_of p target prior t)
                    (blended_of p target prior t)).2) in *.
      destruct (IH _ _ _ _ _ _ Hrun) as (ext & -> & Htech & Hpost & Hk & Hnew).
      exists (c :: ext). rewrite decide_True by done.
      split; [by rewrite <- app_assoc|].
      split; [by rewrite fmap_cons, Hct, Htech|].
      split.
      { constructor; [|done]. rewrite Hct, Hcp.
        eapply loop_keeps; [exact Hrun|]. apply get_or_init_stored. }
      split; [by rewrite Hk; apply get_or_init_prior_strength|].
      intros x q Hq. destruct (Hnew x q Hq) as [Hs1|(Hs1 & Hobs & t' & Ht' & Hid)].
      * destruct (posteriors s !! x) as [q0|] eqn:Hx.
        { left. pose proof (get_or_init_keeps s (id t) (base_of p target prior t)
                              (blended_of p target prior t) x q0 Hx) as Hkeep.
          fold s1 in Hkeep. congruence. }
        { right. destruct (get_or_init_new _ _ _ _ _ _ Hx Hs1) as [-> Hobs].
          split; [done|]. split; [done|]. exists t. split; [left|done]. }
      * right. destruct (posteriors s !! x) as [q0|] eqn:Hx.
        { pose proof (get_or_init_keeps s (id t) (base_of p target prior t)
                        (blended_of p target prior t) x q0 Hx) as Hkeep.
          fold s1 in Hkeep. congruence. }
        split; [done|]. split; [done|]. exists t'. split; [by right|done].
Qed.


Lemma build_entry_fields p target ps (rc : nat * Candidate) :
  rank (build_entry p target ps rc) = rc.1
  ∧ entry_technique_id (build_entry p target ps rc) = id (c_technique rc.2)
  ∧ technique_name (build_entry p target ps rc) = name (c_technique rc.2)
  ∧ entry_tags (build_entry p target ps rc) = tags (c_technique rc.2)
  ∧ utility (entry_score (build_entry p target ps rc)) = Some (c_utility rc.2)
  ∧ sb_observations (entry_score (build_entry p target ps rc))
    = observations (c_posterior rc.2).
Proof. by destruct rc. Qed.

(** X12. The plan of the adaptive planner: the ranks are 1, 2, ... in order; at
    most [max_techniques] entries are returned; each entry is a technique of
    the registry that passes the hard filters and the cost bound, with a
    utility and with a posterior in the returned state whose observation
    count the entry reports; no entry is followed by one of strictly greater
    utility; and a registry without repeated ids gives a plan without
    repeated ids. *)
Theorem adaptive_plan_shape (p : AdaptivePlanner) (now : Z) (target : TargetProfile)
    (registry : TechniqueRegistry) (st : option PosteriorState)
    (prior : option (list EvaluationResult)) (k : Z) (ex : bool) (pen : float)
    (tr : option Diversity.FamilyTracker) (step : Z) (ph : CampaignPhase) :
  let run := Adaptive.plan p now target registry st prior k ex pen tr step ph in
  let es := entries run.1.1 in
  rank <$> es = seq 1 (length es)
  ∧ ((0 ≤ k)%Z → (length es ≤ Z.to_nat k)%nat)
  ∧ (∀ e, e ∈ es →
       ∃ t q, t ∈ get_all registry
         ∧ entry_technique_id e = id t ∧ technique_name e = name t
         ∧ entry_tags e = tags t
         ∧ Filters.passes_all_filters t target = true
         ∧ (base_cost t <=? default 1.0 (filters_max_cost p))%float = true
         ∧ is_Some (utility (entry_score e))
         ∧ posteriors run.1.2 !! id t = Some q
         ∧ sb_observations (entry_score e) = observations q)
  ∧ Sorted (λ e1 e2, ∀ u1 u2, utility (entry_score e1) = Some u1 →
                       utility (entry_score e2) = Some u2 →
                       (u1 <? u2)%float = false) es
  ∧ (NoDup (id <$> get_all registry) → NoDup (entry_technique_id <$> es))
  ∧ plan_target run.1.1 = target.
Proof.
  intros run es. subst run es. rewrite plan_unfold. cbv zeta. cbn [fst snd entries
    plan_target].
  unfold sampling_run, entries_of.
  match goal with |- context [foldl ?f (?g, ?s, []) ?l] =>
    destruct (foldl f (g, s, []) l) as [[g' s'] cands] eqn:Hrun end.
  cbn [fst snd].
  destruct (loop_shape _ _ _ _ _ _ _ _ _ _ _ _ _ _ _ _ Hrun)
    as (ext & Hext & Htech & Hpost & _ & _).
  simpl in Hext. subst ext.
  set (L := slice_to k (sort_desc c_utility cands)).
  destruct (enumerate1_ranks L) as [Hranks Hsnd].
  assert (∀ c, c ∈ L → c ∈ cands) as HL.
  { intros c Hc. apply elem_of_sort_desc with (key := c_utility).
    by apply elem_of_slice_to in Hc. }
  split; [|split; [|split; [|split; [|split]]]].
  - rewrite <- list_fmap_compose.
    rewrite (list_fmap_ext _ fst (enumerate1 L)) by (by intros i [? ?] _).
    rewrite Hranks, length_fmap. f_equal.
    by rewrite <- Hsnd at 1; rewrite length_fmap.
  - intros Hk. rewrite length_fmap. rewrite <- (length_fmap snd), Hsnd.
    by apply slice_to_length.
  - intros e He. apply list_elem_of_fmap in He as (rc & -> & Hrc).
    destruct (build_entry_fields (registered p registry) target s' rc)
      as (_ & Hid & Hname & Htags & Hut & Hobs).
    assert (rc.2 ∈ cands) as Hc.
    { apply HL. rewrite <- Hsnd. apply list_elem_of_fmap. by exists rc. }
    assert (c_technique rc.2 ∈ plan_filtered p target registry) as Hfil.
    { assert (c_technique rc.2 ∈ c_technique <$> cands) as Hin
        by (apply list_elem_of_fmap; eauto).
      rewrite Htech in Hin. by apply list_elem_of_filter in Hin as [_ ?]. }
    unfold plan_filtered in Hfil. apply list_elem_of_filter in Hfil as [[Hf Hcost] Hreg].
    rewrite Forall_forall in Hpost.
    exists (c_technique rc.2), (c_posterior rc.2).
    rewrite Hut. repeat split; eauto.
  - apply (Sorted_fmap _
             (λ a b : nat * Candidate, (c_utility a.2 <? c_utility b.2)%float = false)).
    + intros x y Hxy u1 u2.
      destruct (build_entry_fields (registered p registry) target s' x)
        as (_ & _ & _ & _ & -> & _).
      destruct (build_entry_fields (registered p registry) target s' y)
        as (_ & _ & _ & _ & -> & _).
      by intros [= <-] [= <-].
    + apply (Sorted_snd (λ a b, (c_utility a <? c_utility b)%float = false)).
      rewrite Hsnd.
      apply slice_to_descending, sort_desc_descending.
  - intros Hnd. rewrite <- list_fmap_compose.
    rewrite (list_fmap_ext _ (id ∘ c_technique ∘ snd) (enumerate1 L))
      by (by intros i [? ?] _).
    rewrite (list_fmap_compose snd), Hsnd.
    apply (sublist_NoDup _ (id ∘ c_technique <$> sort_desc c_utility cands));
      [|apply fmap_sublist, slice_to_sublist].
    rewrite sort_desc_perm, list_fmap_compose, Htech.
    apply (sublist_NoDup _ (id <$> get_all registry)); [done|].
    apply fmap_sublist. etrans; [apply sublist_filter|]. apply sublist_filter.
  - reflexivity.
Qed.


(** X13. [plan] records no evidence: every posterior of the state it is given is
    returned as it was, the prior strength is kept, and a posterior the call
    adds belongs to a registry technique that passes the hard filters and
    has no observations. *)
Theorem plan_only_initialises (p : AdaptivePlanner) (now : Z) (target : TargetProfile)
    (registry : TechniqueRegistry) (st : option PosteriorState)
    (prior : option (list EvaluationResult)) (k : Z) (ex : bool) (pen : float)
    (tr : option Diversity.FamilyTracker) (step : Z) (ph : CampaignPhase) :
  let run := Adaptive.plan p now target registry st prior k ex pen tr step ph in
  let s0 := initial_state p st in
  (∀ x q, posteriors s0 !! x = Some q → posteriors run.1.2 !! x = Some q)
  ∧ (∀ x q, posteriors run.1.2 !! x = Some q → posteriors s0 !! x = None →
       observations q = 0%nat
       ∧ ∃ t, t ∈ get_all registry ∧ id t = x
              ∧ Filters.passes_all_filters t target = true)
  ∧ Posterior.prior_strength run.1.2 = Posterior.prior_strength s0.
Proof.
  intros run s0. subst run s0. rewrite plan_unfold. cbv zeta. cbn [fst snd].
  unfold sampling_run.
  match goal with |- context [foldl ?f (?g, ?s, []) ?l] =>
    destruct (foldl f (g, s, []) l) as [[g' s'] cands] eqn:Hrun end.
  cbn [fst snd].
  destruct (loop_shape _ _ _ _ _ _ _ _ _ _ _ _ _ _ _ _ Hrun)
    as (ext & _ & _ & _ & Hk & Hnew).
  split; [|split; [|done]].
  - intros x q Hq. eapply loop_keeps; [exact Hrun|exact Hq].
  - intros x q Hq Hnone.
    destruct (Hnew x q Hq) as [Hold|(_ & Hobs & t & Ht & Hid)]; [congruence|].
    split; [done|]. exists t. unfold plan_filtered in Ht.
    apply list_elem_of_filter in Ht as [[Hf _] Hreg]. done.
Qed.

End PlanShapeFacts.

(*** The shape of a rule-based plan *)

Section EnginePlanFacts.
Context `{Runtime}.
Import Engine PyList.

Lemma diversity_step_techniques (pen : float) (l : list ScoredTechnique) : ∀ acc,
  (foldl (diversity_step pen) acc l).1.*1 = acc.1.*1 ++ l.*1.
Proof.
  induction l as [|s l IH]; intros acc; simpl; [by rewrite app_nil_r|].
  rewrite IH. unfold diversity_step. cbn [fst snd].
  rewrite fmap_app, <- app_assoc. simpl.
  by destruct (0 <? default 0 (acc.2 !! _))%nat.
Qed.

Lemma ranked_techniques e target (prior : option (list EvaluationResult))
    (techniques : list AttackTechnique) :
  (sort_desc (λ s : ScoredTechnique, total s.2)
     (_apply_diversity_bonus e (_score_techniques e techniques target prior))).*1
  ≡ₚ techniques.
Proof.
  rewrite sort_desc_perm. unfold _apply_diversity_bonus.
  rewrite diversity_step_techniques. simpl. rewrite sort_desc_perm.
  unfold _score_techniques. rewrite <- list_fmap_compose.
  by rewrite (list_fmap_ext _ (λ t, t) techniques) by done; rewrite list_fmap_id.
Qed.

(** X14. The plan of the rule-based engine: ranks 1, 2, ... in order; every entry
    is a registry technique that passes the hard filters and the cost bound;
    no entry is followed by one of strictly greater total; without a limit,
    and also with the limit 0, the plan holds every such technique once; a
    positive limit bounds the number of entries. *)
Theorem engine_plan_shape (e : PrioritizerEngine) (now : Z) (target : TargetProfile)
    (registry : TechniqueRegistry) (prior : option (list EvaluationResult))
    (max_techniques : option Z) :
  let pl := Engine.plan e now target registry prior max_techniques in
  let es := entries pl in
  let eligible := _apply_hard_filters e (get_all registry) target in
  rank <$> es = seq 1 (length es)
  ∧ (∀ en, en ∈ es →
       ∃ t, t ∈ get_all registry ∧ entry_technique_id en = id t
            ∧ technique_name en = name t ∧ entry_tags en = tags t
            ∧ Filters.passes_all_filters t target = true
            ∧ (base_cost t <=? default 1.0 (Engine.filters_max_cost e))%float = true)
  ∧ Sorted (λ e1 e2, (total (entry_score e1) <? total (entry_score e2))%float = false) es
  ∧ (max_techniques = None ∨ max_techniques = Some 0%Z →
       entry_technique_id <$> es ≡ₚ id <$> eligible)
  ∧ (∀ n, max_techniques = Some n → (0 < n)%Z → (length es ≤ Z.to_nat n)%nat)
  ∧ config_used pl = _config e ∧ plan_target pl = target.
Proof.
  intros pl es eligible. subst pl es eligible. unfold Engine.plan. cbv zeta.
  set (eligible := _apply_hard_filters e (get_all registry) target).
  match goal with |- context [sort_desc ?key (_apply_diversity_bonus e ?x)] =>
    set (ranked := sort_desc key (_apply_diversity_bonus e x)) end.
  unfold _build_plan. cbn [entries config_used plan_target].
  match goal with |- context [enumerate1 ?x] => set (final := x) end.
  unfold ScoredTechnique in *.
  destruct (enumerate1_ranks final) as [Hranks Hsnd].
  assert (final `sublist_of` ranked) as Hsub.
  { subst final. destruct max_techniques as [n|]; [|done].
    destruct (n =? 0)%Z; [done|apply slice_to_sublist]. }
  assert (descending (λ s : AttackTechnique * ScoreBreakdown, total s.2) final) as Hdesc.
  { subst final. pose proof (sort_desc_descending (λ s : AttackTechnique * ScoreBreakdown, total s.2)
      (_apply_diversity_bonus e (_score_techniques e eligible target prior))) as Hr.
    fold ranked in Hr.
    destruct max_techniques as [n|]; [|done].
    destruct (n =? 0)%Z; [done|by apply slice_to_descending]. }
  split; [|split; [|split; [|split; [|split; [|done]]]]].
  - rewrite <- list_fmap_compose.
    rewrite (list_fmap_ext _ fst (enumerate1 final)) by (by intros i [? ?] _).
    rewrite Hranks, length_fmap. f_equal.
    by rewrite <- Hsnd at 1; rewrite length_fmap.
  - intros en Hen. apply list_elem_of_fmap in Hen as (rs & -> & Hrs).
    cbn [entry_technique_id technique_name entry_tags].
    assert (rs.2.1 ∈ eligible) as Hel.
    { rewrite <- (ranked_techniques e target prior eligible). fold ranked.
      apply list_elem_of_fmap. exists rs.2. split; [done|].
      apply (elem_of_sublist final); [|done].
      rewrite <- Hsnd. apply list_elem_of_fmap. by exists rs. }
    subst eligible. unfold _apply_hard_filters in Hel.
    apply list_elem_of_filter in Hel as [[Hf Hc] Hreg]. by exists rs.2.1.
  - apply (Sorted_fmap _
             (λ a b : nat * (AttackTechnique * ScoreBreakdown), (total a.2.2 <? total b.2.2)%float = false));
      [done|].
    apply (Sorted_snd (λ a b : AttackTechnique * ScoreBreakdown, (total a.2 <? total b.2)%float = false)).
    by rewrite Hsnd.
  - intros Hmax. rewrite <- list_fmap_compose.
    rewrite (list_fmap_ext _ (id ∘ fst ∘ snd) (enumerate1 final))
      by (by intros i [? ?] _).
    rewrite (list_fmap_compose snd), Hsnd, list_fmap_compose.
    assert (final = ranked) as -> by (subst final; by destruct Hmax as [->| ->]).
    subst ranked. by rewrite ranked_techniques.
  - intros n -> Hn. rewrite length_fmap, <- (length_fmap snd), Hsnd. subst final.
    rewrite (proj2 (Z.eqb_neq n 0)) by lia. apply slice_to_length. lia.
Qed.

End EnginePlanFacts.

(*** Posterior updates *)

Section EvidenceFacts.
Context `{Runtime}.
Import Adaptive Reward Correlation.

Lemma clamp_unit (x : float) : Py.between 0 (Py.max 0 (Py.min 1 x)) 1 = true.
Proof.
  unfold Py.between, Py.max, Py.min.
  destruct (x <? 1)%float eqn:Hhi.
  - destruct (0 <? x)%float eqn:Hlo.
    + by rewrite !float_ltb_leb.
    + vm_compute. reflexivity.
  - change (0 <? 1)%float with true. cbv iota. vm_compute. reflexivity.
Qed.

Lemma builtin_rewards_in_range :
  rewards_in_range BinaryRewardPolicy ∧ rewards_in_range WeightedRewardPolicy.
Proof.
  split; intros ev r; unfold BinaryRewardPolicy, WeightedRewardPolicy.
  - destruct (success ev) as [[]|]; intros [= <-]; vm_compute; reflexivity.
  - destruct (score ev) as [s|].
    + intros [= <-]. apply clamp_unit.
    + destruct (success ev) as [[]|]; intros [= <-]; vm_compute; reflexivity.
Qed.

Lemma spill_one_observed rate reward st s x :
  observed (spill_one rate reward st s) x = observed st x.
Proof.
  unfold observed. destruct (decide (x = s)) as [->|Hne].
  - rewrite spill_one_same. unfold sibling_start, get_or_init. simpl.
    by destruct (posteriors st !! s).
  - by rewrite spill_one_other.
Qed.

Lemma propagate_update_observed c t reward st x :
  observed (propagate_update c t reward st) x = observed st x.
Proof.
  unfold propagate_update. case_decide; [done|].
  generalize (elements (get_siblings c t)). intros l. revert st.
  induction l as [|s l IH]; intros st; simpl; [done|].
  by rewrite IH, spill_one_observed.
Qed.


Lemma update_one_raised p registry target (l : list EvaluationResult) st e :
  foldl (update_one p registry target) (st, Some e) l = (st, Some e).
Proof. induction l as [|ev l IH]; simpl; [done|exact IH]. Qed.

Lemma observations_of_single p registry x ev :
  length (observations_of p registry x [ev])
  = if decide (comparability_technique_id ev = x
               ∧ passed_over p registry ev = false) then 1%nat else 0%nat.
Proof.
  unfold observations_of. rewrite filter_cons, filter_nil. by destruct (decide _).
Qed.

Lemma update_one_spec p registry target st ev :
  let out := update_one p registry target (st, None) ev in
  (passed_over p registry ev = true → out = (st, None))
  ∧ (out.2 = None →
     ∀ x, observed out.1 x
          = (observed st x
             + length (observations_of p registry x [ev]))%nat)
  ∧ (rewards_in_range (reward_policy p) → out.2 = None).
Proof.
  cbv zeta.
  assert (passed_over p registry ev = true →
          update_one p registry target (st, None) ev = (st, None)) as Hskip.
  { unfold passed_over, update_one. rewrite !orb_true_iff, !bool_decide_eq_true.
    intros [[Hid|Hrew]|Hget].
    - by rewrite bool_decide_eq_true_2.
    - rewrite Hrew. by case_bool_decide.
    - rewrite Hget. case_bool_decide; [done|]. by destruct (compute_reward ev). }
  destruct (passed_over p registry ev) eqn:Hpo.
  { rewrite (Hskip eq_refl). split; [done|]. split; [|done]. intros _ x.
    rewrite observations_of_single.
    rewrite decide_False by (intros [_ ?]; congruence). cbn [fst snd]. lia. }
  split; [done|]. unfold passed_over in Hpo. unfold update_one.
  apply orb_false_iff in Hpo as [Hpo Hget]. apply orb_false_iff in Hpo as [Hid Hrew].
  rewrite Hid. apply bool_decide_eq_false in Hrew, Hget.
  destruct (compute_reward ev) as [reward|] eqn:Hrew'; [|done].
  destruct (Registry.get registry (comparability_technique_id ev)) as [t|] eqn:Hget';
    [|done].
  destruct (get_or_init st (comparability_technique_id ev) _ _) as [post st1] eqn:Hgi.
  unfold update.
  destruct (Py.between 0 reward 1) eqn:Hrange; simpl.
  - split; [|done]. intros _ x.
    assert (observed st1 (comparability_technique_id ev) = observations post
            ∧ (∀ y, y ≠ comparability_technique_id ev → observed st1 y = observed st y)
            ∧ observed st (comparability_technique_id ev) = observations post)
      as (Hself & Hother & Hstart).
    { unfold observed, get_or_init in *.
      destruct (posteriors st !! comparability_technique_id ev) as [q|] eqn:Hq.
      - injection Hgi as <- <-. rewrite Hq. done.
      - injection Hgi as <- <-. simpl. rewrite lookup_insert_eq.
        split; [done|]. split; [|done]. intros y Hy. by rewrite lookup_insert_ne. }
    match goal with |- observed (match correlation p with
                                  | Some c => propagate_update c ?a ?b ?s
                                  | None => _ end) x = _ =>
      assert (observed (match correlation p with
                        | Some c => propagate_update c a b s
                        | None => s end) x = observed s x) as ->
        by (destruct (correlation p); [apply propagate_update_observed|done])
    end.
    rewrite observations_of_single.
    unfold observed at 1. simpl.
    destruct (decide (x = comparability_technique_id ev)) as [->|Hne].
    + rewrite lookup_insert_eq. simpl. rewrite decide_True; [|split; [done|]].
      * rewrite Hstart. lia.
      * unfold passed_over. rewrite Hid, Hrew'. simpl.
        by rewrite Hget'.
    + rewrite lookup_insert_ne by done. fold (observed st1 x).
      rewrite decide_False by (intros [? _]; done). rewrite Hother by done. lia.
  - split; [done|]. intros Hpol. specialize (Hpol ev reward Hrew'). congruence.
Qed.

(** X15. The observation count of a technique after [update_posteriors] is its
    count before plus the number of evaluations that are observations of it
    (they name it, have a reward, and the registry knows it): spillover to
    siblings, inconclusive results and unknown techniques add nothing. *)
Theorem update_posteriors_counts (p : AdaptivePlanner) (st : PosteriorState)
    (results : list EvaluationResult) (registry : TechniqueRegistry)
    (target : TargetProfile) :
  (update_posteriors p st results registry target).2 = None →
  ∀ x, observed (update_posteriors p st results registry target).1 x
       = (observed st x + length (observations_of p registry x results))%nat.
Proof.
  unfold update_posteriors. revert st.
  induction results as [|ev l IH]; intros st Hok x.
  - unfold observations_of. rewrite filter_nil. simpl. lia.
  - rewrite foldl_unfold_cons in Hok |- *.
    destruct (update_one_spec p registry target st ev) as (_ & Hstep & _).
    destruct (update_one p registry target (st, None) ev) as [st1 [e|]] eqn:Hone.
    { rewrite update_one_raised in Hok. done. }
    rewrite IH by done. cbn [fst snd] in Hstep. rewrite (Hstep eq_refl x).
    rewrite observations_of_single.
    unfold observations_of. rewrite (filter_cons _ ev l).
    destruct (decide _); simpl; lia.
Qed.

(** X16. [update_posteriors] raises nothing when every reward of the policy is in
    [0, 1], as the rewards of [BinaryRewardPolicy] and [WeightedRewardPolicy]
    are; and a list of evaluations that are all passed over leaves the state
    as it was. *)
Theorem update_posteriors_total (p : AdaptivePlanner) (st : PosteriorState)
    (results : list EvaluationResult) (registry : TechniqueRegistry)
    (target : TargetProfile) :
  (rewards_in_range (reward_policy p) →
     (update_posteriors p st results registry target).2 = None)
  ∧ rewards_in_range BinaryRewardPolicy
  ∧ rewards_in_range WeightedRewardPolicy
  ∧ (Forall (λ ev, passed_over p registry ev = true) results →
     update_posteriors p st results registry target = (st, None)).
Proof.
  split; [|split; [apply builtin_rewards_in_range|
           split; [apply builtin_rewards_in_range|]]].
  - intros Hpol. unfold update_posteriors. revert st.
    induction results as [|ev l IH]; intros st; [done|].
    rewrite foldl_unfold_cons.
    destruct (update_one_spec p registry target st ev) as (_ & _ & Hstep).
    destruct (update_one p registry target (st, None) ev) as [st1 [e|]] eqn:Hone.
    { by specialize (Hstep Hpol). }
    apply IH.
  - unfold update_posteriors. revert st.
    induction results as [|ev l IH]; intros st Hall; [done|].
    rewrite foldl_unfold_cons.
    apply Forall_cons in Hall as [Hev Hall].
    destruct (update_one_spec p registry target st ev) as (Hskip & _).
    rewrite (Hskip Hev). by apply IH.
Qed.

End EvidenceFacts.

(*** Evidence from ingested results *)

Section IngestLearningFacts.
Context `{Runtime}.
Import Manager Adaptive.

(** X17. What [ingest_results] does to the posterior state of the campaign it
    finds, when it returns.  For a campaign served adaptively the state is
    replaced by one in which every technique has as many more observations
    as the new evaluations hold observations of it (evaluations ingested
    before are not counted again).  For any other campaign the posterior
    state is left as it was. *)
Theorem ingest_results_learns (m m0 m' : CampaignManager) (cid : string)
    (c c' : Camp.Campaign) (attempts : list AttemptResult)
    (evaluations : list EvaluationResult) (now : Z) (fs fs0 fs' : FS.t) :
  get m cid fs = (Py.Ok (Some c), m0, fs0) →
  ingest_results m cid attempts evaluations now fs = (Py.Ok c', m', fs') →
  (served_adaptively m0 c None →
     ∃ pl ps ps',
       _adaptive_planner m = Some pl ∧ Camp.posterior_state c = Some ps
       ∧ Camp.posterior_state c' = Some ps'
       ∧ ∀ x, observed ps' x
              = (observed ps x
                 + length (observations_of pl (_registry m) x evaluations))%nat)
  ∧ (¬ served_adaptively m0 c None →
     Camp.posterior_state c' = Camp.posterior_state c).
Proof.
  intros Hget Hrun. unfold ingest_results in Hrun. rewrite Hget in Hrun.
  destruct (get_setup m cid fs) as (Hsetup & _ & Hpl & _).
  rewrite Hget in Hsetup, Hpl. cbn [fst snd] in Hsetup, Hpl.
  destruct Hsetup as (Hreg & _).
  unfold ingest_found in Hrun. cbv zeta in Hrun.
  set (st' := {| Camp.attempts := _ |}) in Hrun.
  assert (∀ c1 m1,
    match _save (set_campaign m0 cid c1) c1 fs0 with
    | (Py.Raise e, m, fs) => (Py.Raise e, m, fs)
    | (Py.Ok _, m, fs) => (Py.Ok c1, m, fs)
    end = (Py.Ok c', m1, fs') → c' = c1) as Hsaved.
  { intros c1 m1 Hs.
    destruct (_save (set_campaign m0 cid c1) c1 fs0) as [[[u|e] m2] fs2]; [|done].
    by injection Hs as <- _ _. }
  assert (Hcount : ∀ pl results st,
    (foldl (update_one pl (_registry m0) (Camp.target c)) (st, None) results).2
      = None →
    ∀ x, observed
             (foldl (update_one pl (_registry m0) (Camp.target c)) (st, None)
                results).1 x
           = (observed st x
              + length (observations_of pl (_registry m0) x results))%nat).
  { intros pl results. induction results as [|ev l IH]; intros st Hok.
    - intros x. unfold observations_of. rewrite filter_nil.
      simpl. lia.
    - rewrite foldl_unfold_cons in Hok |- *.
      destruct (update_one_spec pl (_registry m0) (Camp.target c) st ev)
        as (_ & Hstep & _).
      destruct (update_one pl (_registry m0) (Camp.target c) (st, None) ev)
        as [st1 [e|]] eqn:Hone.
      { rewrite update_one_raised in Hok. done. }
      pose proof (IH st1 Hok) as Hobs. cbn [fst snd] in Hstep.
      intros x.
      rewrite Hobs, (Hstep eq_refl x), observations_of_single.
      unfold observations_of. rewrite (filter_cons _ ev l).
      destruct (decide _); simpl; lia. }
  change (Camp.metadata (Camp.set_state c st')) with (Camp.metadata c) in Hrun.
  change (Camp.posterior_state (Camp.set_state c st'))
    with (Camp.posterior_state c) in Hrun.
  change (Camp.target (Camp.set_state c st')) with (Camp.target c) in Hrun.
  unfold served_adaptively. cbn [default from_option].
  destruct (truthy (default (VBool false) (Camp.metadata c !! "adaptive")))
    eqn:Htr.
  2: { apply Hsaved in Hrun as ->. split; [by intros [? _]|done]. }
  rewrite <- Hpl.
  destruct (_adaptive_planner m0) as [pl|] eqn:Hplanner.
  2: { apply Hsaved in Hrun as ->. split; [by intros (_ & [? [=]] & _)|done]. }
  destruct (Camp.posterior_state c) as [ps|] eqn:Hpost.
  2: { apply Hsaved in Hrun as ->. split; [by intros (_ & _ & [? [=]])|done]. }
  split; [|intros Hn; exfalso; apply Hn; eauto].
  intros _. unfold update_posteriors in Hrun.
  specialize (Hcount pl evaluations ps).
  destruct (foldl (update_one pl (_registry m0) (Camp.target c)) (ps, None)
              evaluations) as [ps' [e|]] eqn:Hfold; [done|].
  apply Hsaved in Hrun as ->.
  pose proof (Hcount eq_refl) as Hobs. cbn [fst] in Hobs.
  exists pl, ps, ps'. split; [done|]. split; [done|]. split; [done|].
  intros x. rewrite <- Hreg. apply Hobs.
Qed.

End IngestLearningFacts.

(*** Technique families *)

Section FamilyFacts.
Import Correlation.

Lemma family_key_nonempty (t : AttackTechnique) : _family_key t ≠ "".
Proof. unfold _family_key. by destruct (domain t). Qed.

Lemma register_index (rate : float) (l : list AttackTechnique) :
  let c := foldl register_one (new rate) l in
  spillover_rate c = rate
  ∧ (∀ f y, y ∈ default ∅ (_families c !! f)
            ↔ ∃ t, t ∈ l ∧ id t = y ∧ _family_key t = f)
  ∧ (NoDup (id <$> l) →
     ∀ x f, _id_to_family c !! x = Some f
            ↔ ∃ t, t ∈ l ∧ id t = x ∧ _family_key t = f).
Proof.
  induction l as [|t l IH] using rev_ind; cbv zeta.
  - simpl. split; [done|]. split.
    + intros f y. rewrite lookup_empty. simpl. split; [set_solver|].
      intros (t & Ht & _). by apply elem_of_nil in Ht.
    + intros _ x f. rewrite lookup_empty. split; [done|].
      intros (t & Ht & _). by apply elem_of_nil in Ht.
  - rewrite foldl_app. simpl. cbv zeta in IH.
    destruct IH as (Hrate & Hfam & Hid).
    set (c := foldl register_one (new rate) l) in *.
    split; [done|]. split.
    + intros f y. destruct (decide (f = _family_key t)) as [->|Hne].
      * rewrite lookup_insert_eq. simpl. rewrite elem_of_union, elem_of_singleton, Hfam.
        split.
        { intros [->|(t' & Ht' & Hy & Hf)].
          - exists t. rewrite elem_of_app, list_elem_of_singleton. auto.
          - exists t'. rewrite elem_of_app. auto. }
        { intros (t' & Ht' & Hy & Hf). apply elem_of_app in Ht' as [Ht'|Ht'].
          - right. eauto.
          - apply list_elem_of_singleton in Ht' as ->. by left. }
      * rewrite lookup_insert_ne by done. rewrite Hfam. split.
        { intros (t' & Ht' & Hy & Hf). exists t'. rewrite elem_of_app. auto. }
        { intros (t' & Ht' & Hy & Hf). apply elem_of_app in Ht' as [Ht'|Ht'].
          - eauto.
          - apply list_elem_of_singleton in Ht' as ->. done. }
    + rewrite fmap_app. intros Hnd. apply NoDup_app in Hnd as (Hnd & Hdisj & _).
      specialize (Hid Hnd).
      assert (∀ t', t' ∈ l → id t' ≠ id t) as Hfresh.
      { intros t' Ht' Heq. apply (Hdisj (id t')).
        - apply list_elem_of_fmap. eauto.
        - rewrite Heq. simpl. left. }
      intros x f. destruct (decide (x = id t)) as [->|Hne].
      * rewrite lookup_insert_eq. split.
        { intros [= <-]. exists t. rewrite elem_of_app, list_elem_of_singleton. auto. }
        { intros (t' & Ht' & Hx & Hf). apply elem_of_app in Ht' as [Ht'|Ht'].
          - by destruct (Hfresh t' Ht').
          - apply list_elem_of_singleton in Ht' as ->. by rewrite Hf. }
      * rewrite lookup_insert_ne by done. rewrite Hid. split.
        { intros (t' & Ht' & Hx & Hf). exists t'. rewrite elem_of_app. auto. }
        { intros (t' & Ht' & Hx & Hf). apply elem_of_app in Ht' as [Ht'|Ht'].
          - eauto.
          - apply list_elem_of_singleton in Ht' as ->. done. }
Qed.

(** X18. After [register_techniques] on a catalog without repeated ids, the
    siblings of a technique are exactly the other catalog techniques with
    the same family key; being a sibling is symmetric; a technique outside
    the catalog has no siblings, and [propagate_update] for it changes
    nothing.  The spillover rate is kept. *)
Theorem siblings_are_family_members (c0 : FamilyCorrelation)
    (catalog : list AttackTechnique) :
  NoDup (id <$> catalog) →
  let c := register_techniques c0 catalog in
  (∀ s x, s ∈ get_siblings c x
          ↔ s ≠ x ∧ ∃ ts tx, ts ∈ catalog ∧ tx ∈ catalog ∧ id ts = s ∧ id tx = x
                             ∧ _family_key ts = _family_key tx)
  ∧ (∀ s x, s ∈ get_siblings c x → x ∈ get_siblings c s)
  ∧ (∀ x reward st, x ∉ id <$> catalog →
       get_siblings c x = ∅ ∧ propagate_update c x reward st = st)
  ∧ spillover_rate c = spillover_rate c0.
Proof.
  intros Hnd c. subst c. unfold register_techniques.
  destruct (register_index (spillover_rate c0) catalog) as (Hrate & Hfam & Hid).
  specialize (Hid Hnd).
  set (c := foldl register_one (new (spillover_rate c0)) catalog) in *.
  assert (∀ s x, s ∈ get_siblings c x
          ↔ s ≠ x ∧ ∃ ts tx, ts ∈ catalog ∧ tx ∈ catalog ∧ id ts = s ∧ id tx = x
                             ∧ _family_key ts = _family_key tx) as Hchar.
  { intros s x. unfold get_siblings.
    destruct (_id_to_family c !! x) as [f|] eqn:Hx.
    - apply Hid in Hx as (tx & Htx & Hidx & Hf).
      rewrite decide_False by (rewrite <- Hf; apply family_key_nonempty).
      rewrite elem_of_difference, elem_of_singleton, Hfam. split.
      + intros [(ts & Hts & Hids & Hfs) Hne]. split; [done|].
        exists ts, tx. repeat split; try done. congruence.
      + intros (Hne & ts & tx' & Hts & Htx' & Hids & Hidx' & Hfs). split; [|done].
        exists ts. repeat split; try done.
        assert (_id_to_family c !! x = Some (_family_key tx')) as H1
          by (apply Hid; eauto).
        assert (_id_to_family c !! x = Some f) as H2 by (apply Hid; eauto).
        congruence.
    - split; [set_solver|]. intros (_ & ts & tx & _ & Htx & _ & Hidx & _).
      assert (_id_to_family c !! x = Some (_family_key tx)) as H1
        by (apply Hid; eauto).
      congruence. }
  split; [exact Hchar|]. split; [|split; [|done]].
  - intros s x. rewrite !Hchar.
    intros (Hne & ts & tx & Hts & Htx & Hids & Hidx & Hf). split; [done|].
    exists tx, ts. done.
  - intros x reward st Hx.
    assert (get_siblings c x = ∅) as Hnone.
    { apply set_eq. intros s. rewrite Hchar. split; [|set_solver].
      intros (_ & ts & tx & _ & Htx & _ & Hidx & _). exfalso. apply Hx.
      apply list_elem_of_fmap. eauto. }
    split; [done|]. unfold propagate_update. by rewrite Hnone, decide_True.
Qed.

End FamilyFacts.

(*** Layer analysis *)

Section AnalyzerFacts.
Import Analyzer PyList.

Lemma SFcompare_Lt_trans (x y z : spec_float) :
  SFcompare x y = Some Lt → SFcompare y z = Some Lt → SFcompare x z = Some Lt.
Proof.
  destruct x as [sx|sx| |sx mx ex], y as [sy|sy| |sy my ey], z as [sz|sz| |sz mz ez];
    simpl; try destruct sx; try destruct sy; try destruct sz; simpl; try congruence.
  all: change (Pos.compare_cont Eq ?a ?b) with (Pos.compare a b).
  all: destruct (Z.compare_spec ex ey); destruct (Z.compare_spec ey ez);
       destruct (Z.compare_spec ex ez); simpl; try congruence; try lia.
  all: destruct (Pos.compare_spec mx my); destruct (Pos.compare_spec my mz);
       destruct (Pos.compare_spec mx mz); simpl; try congruence; try lia.
Qed.

Lemma float_ltb_trans (a b c : float) :
  (a <? b)%float = true → (b <? c)%float = true → (a <? c)%float = true.
Proof.
  rewrite !FloatAxioms.ltb_spec. unfold SFltb.
  destruct (SFcompare (Prim2SF a) (Prim2SF b)) as [[]|] eqn:E1; try discriminate.
  destruct (SFcompare (Prim2SF b) (Prim2SF c)) as [[]|] eqn:E2; try discriminate.
  by rewrite (SFcompare_Lt_trans _ _ _ E1 E2).
Qed.

Lemma float_ltb_irrefl (a : float) : (a <? a)%float = false.
Proof.
  destruct (a <? a)%float eqn:E; [|done].
  by rewrite (float_ltb_asym _ _ E) in E.
Qed.

Lemma max_by_spec {A} (key : A → float) (l : list A) : ∀ x,
  max_by key x l ∈ x :: l
  ∧ (max_by key x l = x ∨ (key x <? key (max_by key x l))%float = true)
  ∧ ∀ y, y ∈ x :: l → (key (max_by key x l) <? key y)%float = false.
Proof.
  unfold max_by. induction l as [|z l IH]; intros x; simpl.
  - split; [left|]. split; [by left|]. intros y Hy.
    apply list_elem_of_singleton in Hy as ->. apply float_ltb_irrefl.
  - destruct (key x <? key z)%float eqn:Hxz.
    + destruct (IH z) as (Hin & Hfrom & Hmax).
      set (m := foldl _ z l) in *.
      split; [by right|]. split.
      { right. destruct Hfrom as [->|Hzm]; [done|]. by eapply float_ltb_trans. }
      intros y Hy. apply elem_of_cons in Hy as [->|Hy]; [|by apply Hmax].
      destruct (key m <? key x)%float eqn:Hmx; [|done].
      destruct Hfrom as [Hm|Hzm].
      * rewrite Hm in Hmx. by rewrite (float_ltb_asym _ _ Hxz) in Hmx.
      * pose proof (float_ltb_trans _ _ _ Hxz Hzm) as Hxm.
        by rewrite (float_ltb_asym _ _ Hxm) in Hmx.
    + destruct (IH x) as (Hin & Hfrom & Hmax).
      set (m := foldl _ x l) in *.
      split.
      { apply elem_of_cons in Hin as [->|Hin]; [left|right; by right]. }
      split; [done|].
      intros y Hy. apply elem_of_cons in Hy as [->|Hy]; [apply Hmax; left|].
      apply elem_of_cons in Hy as [->|Hy]; [|apply Hmax; by right].
      destruct (key m <? key z)%float eqn:Hmz; [|done].
      destruct Hfrom as [Hm|Hxm].
      * rewrite Hm in Hmz. congruence.
      * pose proof (float_ltb_trans _ _ _ Hxm Hmz). congruence.
Qed.


Lemma NoDup_fmap_eq {A B} (f : A → B) (l : list A) (x y : A) :
  NoDup (f <$> l) → x ∈ l → y ∈ l → f x = f y → x = y.
Proof.
  induction l as [|z l IH]; simpl; intros Hnd Hx Hy Hf.
  - by apply elem_of_nil in Hx.
  - apply NoDup_cons in Hnd as [Hz Hnd].
    apply elem_of_cons in Hx as [->|Hx]; apply elem_of_cons in Hy as [->|Hy].
    + done.
    + destruct Hz. rewrite Hf. apply list_elem_of_fmap. eauto.
    + destruct Hz. rewrite <- Hf. apply list_elem_of_fmap. eauto.
    + by apply IH.
Qed.

Lemma traverse_ok {A B} (f : A → Py.result B) (l : list A) (ys : list B) :
  Py.traverse f l = Py.Ok ys → Forall2 (λ x y, f x = Py.Ok y) l ys.
Proof.
  revert ys. induction l as [|x l IH]; intros ys; simpl.
  - intros [= <-]. constructor.
  - destruct (f x) as [y|e] eqn:Hx; [|done]. simpl.
    destruct (Py.traverse f l) as [ys'|e]; [|done]. simpl.
    intros [= <-]. constructor; [done|by apply IH].
Qed.

Lemma traverse_all_ok {A B} (f : A → Py.result B) (l : list A) :
  (∀ x, x ∈ l → ∃ y, f x = Py.Ok y) → ∃ ys, Py.traverse f l = Py.Ok ys.
Proof.
  induction l as [|x l IH]; intros Hall; simpl; [by eexists|].
  destruct (Hall x) as [y ->]; [left|]. simpl.
  destruct IH as [ys ->]; [intros z Hz; apply Hall; by right|].
  simpl. by eexists.
Qed.

Lemma traverse_raises {A B} (f : A → Py.result B) (l : list A) (x : A) :
  x ∈ l → Py.is_ok (f x) = false → ∃ e, Py.traverse f l = Py.Raise e.
Proof.
  induction l as [|z l IH]; intros Hin Hx; [by apply elem_of_nil in Hin|].
  simpl. apply elem_of_cons in Hin as [<-|Hin].
  - destruct (f x); [done|]. by eexists.
  - destruct (f z) as [y|e]; [|by eexists]. simpl.
    destruct (IH Hin Hx) as [e ->]. by eexists.
Qed.

Lemma assess_layer_fields a l rs ids x :
  _assess_layer a l rs ids = Py.Ok x →
  layer x = l
  ∧ is_primary_weakness x = false
  ∧ total_attempts (evidence x) = length rs
  ∧ is_insufficient_evidence x
    = ((Z.of_nat (length rs) <? _min_attempts a)%Z || (length rs =? 0)%nat).
Proof.
  unfold _assess_layer. destruct rs as [|r rs].
  - intros [= <-]. cbn. by rewrite orb_true_r.
  - change (length (r :: rs) =? 0)%nat with false. cbv iota.
    destruct (_wilson_center _ _ _); cbn [Py.bind]; [|done].
    destruct (_wilson_interval _ _ _); cbn [Py.bind]; [|done].
    destruct (_ =? 0)%Z; [done|].
    destruct (validate_unit _ _); cbn [Py.bind]; [|done].
    destruct (validate_unit _ _); cbn [Py.bind]; [|done].
    intros [= <-]. cbn. by rewrite orb_false_r.
Qed.

Lemma assess_layer_zero_raises a l rs ids :
  rs ≠ [] → _min_attempts a = 0%Z → Py.is_ok (_assess_layer a l rs ids) = false.
Proof.
  intros Hne Hmin. unfold _assess_layer. destruct rs as [|r rs]; [done|].
  change (length (r :: rs) =? 0)%nat with false. cbv iota.
  destruct (_wilson_center _ _ _); cbn [Py.bind]; [|done].
  destruct (_wilson_interval _ _ _); cbn [Py.bind]; [|done].
  rewrite Hmin. done.
Qed.

Lemma assessed_layers a (f : Surface → list EvaluationResult)
    (g : Surface → list string) (ls : list Surface) (xs : list LayerAssessment) :
  Forall2 (λ l x, _assess_layer a l (f l) (g l) = Py.Ok x) ls xs →
  layer <$> xs = ls
  ∧ ∀ x, x ∈ xs →
      is_primary_weakness x = false
      ∧ total_attempts (evidence x) = length (f (layer x))
      ∧ is_insufficient_evidence x
        = ((Z.of_nat (length (f (layer x))) <? _min_attempts a)%Z
           || (length (f (layer x)) =? 0)%nat).
Proof.
  induction 1 as [|l x ls xs Hx _ [IH1 IH2]].
  - split; [done|]. intros x Hx. by apply elem_of_nil in Hx.
  - apply assess_layer_fields in Hx as (Hl & Hp & Ht & Hi).
    split; [by rewrite fmap_cons, Hl, IH1|].
    intros y Hy. apply elem_of_cons in Hy as [->|Hy]; [|by apply IH2].
    by rewrite Hl.
Qed.

(** X19. [analyze] on results none of which names a known technique returns
    assessments that are all insufficient, none the primary weakness.  With
    [min_attempts = 0] it raises as soon as one result names a known
    technique.  When it returns, there is one assessment per surface, in an
    order in which no assessment is followed by one of strictly greater
    risk; each counts the results whose technique is known and lies on its
    layer, and is marked insufficient below [min_attempts] results (and
    with none); at most one assessment is the primary weakness, it has
    sufficient evidence, no assessment with sufficient evidence has a
    strictly greater risk, and there is one as soon as some layer has
    sufficient evidence. *)
Theorem analyze_layers (a : WeakestLayerAnalyzer) (results : list EvaluationResult)
    (techniques : gmap string AttackTechnique) :
  ((∀ r, r ∈ results → techniques !! comparability_technique_id r = None) →
     ∃ out, analyze a results techniques = Py.Ok out
            ∧ ∀ x, x ∈ out → is_insufficient_evidence x = true
                             ∧ is_primary_weakness x = false
                             ∧ total_attempts (evidence x) = 0%nat)
  ∧ (_min_attempts a = 0%Z →
     (∃ r, r ∈ results ∧ is_Some (techniques !! comparability_technique_id r)) →
     ∃ e, analyze a results techniques = Py.Raise e)
  ∧ (∀ out, analyze a results techniques = Py.Ok out →
       layer <$> out ≡ₚ all_Surface
       ∧ descending risk_score out
       ∧ (∀ x, x ∈ out →
            let n := length (layer_results techniques (layer x) results) in
            total_attempts (evidence x) = n
            ∧ is_insufficient_evidence x
              = ((Z.of_nat n <? _min_attempts a)%Z || (n =? 0)%nat))
       ∧ (∀ x y, x ∈ out → y ∈ out → is_primary_weakness x = true →
            is_insufficient_evidence x = false
            ∧ (is_primary_weakness y = true → y = x)
            ∧ (is_insufficient_evidence y = false →
               (risk_score x <? risk_score y)%float = false))
       ∧ ((∃ x, x ∈ out ∧ is_primary_weakness x = true)
          ↔ ∃ y, y ∈ out ∧ is_insufficient_evidence y = false)).
Proof.
  assert (Hret : ∀ out, analyze a results techniques = Py.Ok out →
       layer <$> out ≡ₚ all_Surface
       ∧ descending risk_score out
       ∧ (∀ x, x ∈ out →
            let n := length (layer_results techniques (layer x) results) in
            total_attempts (evidence x) = n
            ∧ is_insufficient_evidence x
              = ((Z.of_nat n <? _min_attempts a)%Z || (n =? 0)%nat))
       ∧ (∀ x y, x ∈ out → y ∈ out → is_primary_weakness x = true →
            is_insufficient_evidence x = false
            ∧ (is_primary_weakness y = true → y = x)
            ∧ (is_insufficient_evidence y = false →
               (risk_score x <? risk_score y)%float = false))
       ∧ ((∃ x, x ∈ out ∧ is_primary_weakness x = true)
          ↔ ∃ y, y ∈ out ∧ is_insufficient_evidence y = false)).
  { intros out. unfold analyze.
    destruct (Py.traverse _ all_Surface) as [A0|e] eqn:Htr; [|done].
    cbn [Py.bind]. cbv zeta. intros [= <-].
    apply traverse_ok in Htr.
    set (suff := filter (λ x, is_insufficient_evidence x = false) A0).
    set (A1 := match suff with [] => A0 | _ :: _ => _ end).
    destruct (assessed_layers a (λ l, layer_results techniques l results)
                (λ l, remove_dups (comparability_technique_id
                                     <$> layer_results techniques l results))
                all_Surface A0 Htr) as [HL0 H0].
    assert (NoDup (layer <$> A0)) as Hnd0.
    { rewrite HL0. apply (bool_decide_unpack _). vm_compute. exact I. }
    assert (∃ mark : LayerAssessment → bool,
      A1 = (λ y, if mark y then set_primary y else y) <$> A0
      ∧ (∀ x y, x ∈ A0 → y ∈ A0 → mark x = true →
           is_insufficient_evidence x = false
           ∧ (mark y = true → y = x)
           ∧ (is_insufficient_evidence y = false →
              (risk_score x <? risk_score y)%float = false))
      ∧ ((∃ x, x ∈ A0 ∧ mark x = true)
         ↔ ∃ y, y ∈ A0 ∧ is_insufficient_evidence y = false))
      as (mark & HA1 & Hmark & Hsome).
    { unfold A1. destruct suff as [|x0 rest] eqn:Hsuff.
      - exists (λ _, false). split.
        { symmetry. apply list_fmap_id. }
        split; [done|]. split; [by intros (? & _ & ?)|].
        intros (y & Hy & Hins).
        assert (y ∈ suff) as Hin by (apply list_elem_of_filter; done).
        rewrite Hsuff in Hin. by apply elem_of_nil in Hin.
      - destruct (max_by_spec risk_score rest x0) as (Hin & _ & Hmax).
        set (p := max_by risk_score x0 rest) in *.
        assert (p ∈ suff) as Hp by (by rewrite Hsuff).
        apply list_elem_of_filter in Hp as [Hpins HpA0].
        exists (λ y, bool_decide (layer y = layer p)). split; [done|]. split.
        + intros x y Hx Hy Hmx. apply bool_decide_eq_true in Hmx.
          assert (x = p) as -> by (by apply (NoDup_fmap_eq layer A0)).
          split; [done|]. split.
          * intros Hmy. apply bool_decide_eq_true in Hmy.
            by apply (NoDup_fmap_eq layer A0).
          * intros Hyins. apply Hmax. rewrite <- Hsuff.
            apply list_elem_of_filter. done.
        + split; [|intros _; exists p; split; [done|by apply bool_decide_eq_true]].
          intros _. by exists p. }
    assert (∀ x, x ∈ A1 → ∃ x0, x0 ∈ A0 ∧ layer x = layer x0
              ∧ evidence x = evidence x0 ∧ risk_score x = risk_score x0
              ∧ is_insufficient_evidence x = is_insufficient_evidence x0
              ∧ is_primary_weakness x = mark x0) as H1.
    { intros x Hx. rewrite HA1 in Hx.
      apply list_elem_of_fmap in Hx as (x0 & -> & Hx0).
      exists x0. destruct (H0 x0 Hx0) as (Hp & _).
      destruct (mark x0); simpl; auto 10. }
    assert (∀ x0, x0 ∈ A0 → (if mark x0 then set_primary x0 else x0) ∈ A1) as H1'.
    { intros x0 Hx0. rewrite HA1. apply list_elem_of_fmap. eauto. }
    assert (∀ x, x ∈ sort_desc risk_score A1 ↔ x ∈ A1) as Hout
      by (intros x; by rewrite sort_desc_perm).
    split; [|split; [apply sort_desc_descending|split; [|split]]].
    - rewrite sort_desc_perm, HA1, <- list_fmap_compose.
      rewrite (list_fmap_ext _ layer A0)
        by (by intros i y _; simpl; destruct (mark y)).
      by rewrite HL0.
    - intros x Hx. apply Hout in Hx.
      destruct (H1 x Hx) as (x0 & Hx0 & Hl & He & _ & Hi & _).
      destruct (H0 x0 Hx0) as (_ & Ht & Hins). rewrite Hl, He, Hi. done.
    - intros x y Hx Hy Hpx. apply Hout in Hx, Hy.
      destruct (H1 x Hx) as (x0 & Hx0 & Hlx & Hex & Hrx & Hix & Hmx).
      destruct (H1 y Hy) as (y0 & Hy0 & Hly & Hey & Hry & Hiy & Hmy).
      rewrite Hmx in Hpx.
      destruct (Hmark x0 y0 Hx0 Hy0 Hpx) as (Hins & Huniq & Hmax).
      split; [congruence|]. split.
      + rewrite Hmy. intros Hm. specialize (Huniq Hm). subst y0.
        rewrite HA1 in Hx, Hy.
        apply list_elem_of_fmap in Hx as (x1 & -> & Hx1).
        apply list_elem_of_fmap in Hy as (y1 & -> & Hy1).
        assert (x1 = y1) as ->; [|done].
        apply (NoDup_fmap_eq layer A0); [done..|].
        assert (∀ z, layer (if mark z then set_primary z else z) = layer z) as Hlz
          by (intros z; by destruct (mark z)).
        rewrite !Hlz in Hlx, Hly. congruence.
      + rewrite Hiy, Hrx, Hry. apply Hmax.
    - split.
      + intros (x & Hx & Hpx). apply Hout in Hx.
        destruct (H1 x Hx) as (x0 & Hx0 & _ & _ & _ & Hix & Hmx).
        rewrite Hmx in Hpx. destruct (Hmark x0 x0 Hx0 Hx0 Hpx) as (Hins & _).
        exists x. split; [by apply Hout|congruence].
      + intros (y & Hy & Hins). apply Hout in Hy.
        destruct (H1 y Hy) as (y0 & Hy0 & _ & _ & _ & Hiy & _).
        destruct (proj2 Hsome) as (x0 & Hx0 & Hmx0);
          [exists y0; split; [done|congruence]|].
        exists (if mark x0 then set_primary x0 else x0). split.
        * apply Hout. by apply H1'.
        * by rewrite Hmx0. }
  split; [|split; [|exact Hret]].
  - intros Hnone.
    assert (∀ l, layer_results techniques l results = []) as Hempty.
    { intros l. clear -Hnone. unfold layer_results.
      induction results as [|r rs IH]; [done|].
      rewrite filter_cons. rewrite decide_False.
      - apply IH. intros r' Hr'. apply Hnone. by right.
      - rewrite (Hnone r) by left. done. }
    destruct (Py.traverse
                (λ layer0,
                   _assess_layer a layer0 (layer_results techniques layer0 results)
                     (remove_dups (comparability_technique_id
                                     <$> layer_results techniques layer0 results)))
                all_Surface) as [A0|e] eqn:Htr.
    2: { destruct (traverse_all_ok
                    (λ layer0,
                       _assess_layer a layer0
                         (layer_results techniques layer0 results)
                         (remove_dups (comparability_technique_id
                                         <$> layer_results techniques layer0 results)))
                    all_Surface) as [ys Hys].
         - intros l _. rewrite Hempty. by eexists.
         - rewrite Hys in Htr. done. }
    assert (∃ out, analyze a results techniques = Py.Ok out) as [out Hout].
    { unfold analyze. rewrite Htr. cbn [Py.bind]. by eexists. }
    exists out. split; [done|].
    destruct (Hret out Hout) as (_ & _ & Hcnt & Hprim & _).
    intros x Hx. destruct (Hcnt x Hx) as [Ht Hi]. cbv zeta in Ht, Hi.
    rewrite Hempty in Ht, Hi. simpl in Ht, Hi. rewrite orb_true_r in Hi.
    split; [done|]. split; [|done].
    destruct (is_primary_weakness x) eqn:Hp; [|done].
    destruct (Hprim x x Hx Hx Hp) as [Hins _]. congruence.
  - intros Hmin (r & Hr & [t Ht]).
    unfold analyze.
    destruct (traverse_raises
                (λ layer0,
                   _assess_layer a layer0 (layer_results techniques layer0 results)
                     (remove_dups (comparability_technique_id
                                     <$> layer_results techniques layer0 results)))
                all_Surface (surface t)) as [e ->].
    + destruct (surface t); unfold all_Surface;
        repeat first [apply list_elem_of_here | apply list_elem_of_further].
    + assert (layer_results techniques (surface t) results ≠ []) as Hne.
      { intros Hnil.
        assert (r ∈ layer_results techniques (surface t) results) as Hin.
        { unfold layer_results. apply list_elem_of_filter. by rewrite Ht. }
        rewrite Hnil in Hin. by apply elem_of_nil in Hin. }
      by apply assess_layer_zero_raises.
    + by eexists.
Qed.

End AnalyzerFacts.

(*** Replay of a recorded decision *)

Section ReplayOkFacts.
Context `{Runtime}.
Import Manager Replayer Adaptive PyList.

Lemma sub_self_spec (x : spec_float) :
  SF64sub x x = S754_nan ∨ SF64sub x x = S754_zero false.
Proof.
  unfold SF64sub, SFsub. destruct x as [s|s| |s m e]; simpl.
  - destruct s; simpl; auto.
  - destruct s; simpl; auto.
  - auto.
  - right. rewrite Z.min_id, Z.sub_diag. reflexivity.
Qed.

Lemma abs_sub_self (u tol : float) :
  (0 <=? tol)%float = true → (tol <? PrimFloat.abs (u - u))%float = false.
Proof.
  intros Htol.
  rewrite FloatAxioms.ltb_spec, FloatAxioms.abs_spec, FloatAxioms.sub_spec.
  rewrite FloatAxioms.leb_spec in Htol.
  destruct (sub_self_spec (Prim2SF u)) as [-> | ->]; simpl.
  - unfold SFltb, SFcompare. by destruct (Prim2SF tol).
  - unfold SFleb in Htol. change (Prim2SF 0) with (S754_zero false) in Htol.
    unfold SFltb. destruct (Prim2SF tol) as [s|s| |s m e]; simpl in *; try done.
    + by destruct s.
    + by destruct s.
Qed.

Lemma compare_same_entries (tol : float) (es : list PlanEntry) :
  (0 <=? tol)%float = true →
  concat (compare_entries tol <$> imap (λ i p, (i, p)) (zip es es)) = [].
Proof.
  intros Htol.
  assert (∀ f : nat → PlanEntry * PlanEntry → nat * (PlanEntry * PlanEntry),
    (∀ i p, (f i p).2 = p) →
    concat (compare_entries tol <$> imap f (zip es es)) = []) as Hg;
    [|by apply Hg].
  induction es as [|e es IH]; intros f Hf; [done|].
  cbn [zip zip_with]. rewrite imap_cons, fmap_cons. cbn [concat].
  rewrite (IH (f ∘ S)) by (intros i p; apply Hf). rewrite app_nil_r.
  specialize (Hf 0%nat (e, e)). destruct (f 0%nat (e, e)) as [j q].
  simpl in Hf. subst q. unfold compare_entries.
  rewrite bool_decide_eq_false_2 by (intros Hne; by apply Hne).
  destruct (utility (entry_score e)) as [u|]; [|done].
  by rewrite abs_sub_self.
Qed.

Lemma slice_to_its_length {A} (k : Z) (l : list A) :
  slice_to (Z.of_nat (length (slice_to k l))) l = slice_to k l.
Proof.
  unfold slice_to at 1. rewrite (proj2 (Z.leb_le 0 _)) by lia.
  rewrite Nat2Z.id. unfold slice_to.
  destruct (0 <=? k)%Z; rewrite length_take;
    (destruct (Nat.min_spec (Z.to_nat k) (length l)) as [[? ->]|[? ->]]
     || destruct (Nat.min_spec (length l - Z.to_nat (- k)) (length l))
          as [[? ->]|[? ->]]);
    try done; rewrite !take_ge by lia; done.
Qed.


Lemma entries_of_length p target registry k (r : LoopState) :
  length (entries_of p target registry k r)
  = length (slice_to k (sort_desc c_utility r.2)).
Proof.
  unfold entries_of. rewrite length_fmap.
  destruct (enumerate1_ranks (slice_to k (sort_desc c_utility r.2))) as [_ Hsnd].
  rewrite <- Hsnd at 2. by rewrite length_fmap.
Qed.

Lemma config_lookups (a b c d e f g h : ConfigValue) :
  let cfg : gmap string ConfigValue :=
    list_to_map [("adaptive", a); ("step_number", b); ("step_seed", c);
                 ("prior_strength", d); ("cost_weight", e); ("exclude_tried", f);
                 ("repeat_penalty", g); ("campaign_phase", h)] in
  cfg !! "exclude_tried" = Some f ∧ cfg !! "repeat_penalty" = Some g
  ∧ cfg !! "campaign_phase" = Some h.
Proof. vm_compute. auto. Qed.

Lemma replay_of_plan p now now2 target registry ps k ex pen tried step ph
    cfg eng randint (snap : Snapshot.DecisionSnapshot) :
  let run := Adaptive.plan p now target registry (Some ps) (Some []) k ex pen
               (Some (rebuild_tracker registry tried)) step ph in
  Snapshot.posterior_state snap = run.1.2 →
  Snapshot.step_number snap = step →
  Snapshot.planner_config snap = config_used run.1.1 →
  Snapshot.produced_plan_entries snap = entries run.1.1 →
  Snapshot.techniques_tried snap = tried →
  ∃ plan2,
    replay {| registry := registry; planner := Some run.2 |} cfg eng randint now2
      snap target = Py.Ok plan2
    ∧ entries plan2 = entries run.1.1
    ∧ config_used plan2 = config_used run.1.1.
Proof.
  cbv zeta. rewrite plan_unfold. cbv zeta. cbn [fst snd entries config_used].
  intros Hps Hstep Hcfg Hent Htried.
  unfold replay. cbn [Replayer.planner Replayer.registry].
  rewrite Hps, Hstep, Hcfg, Hent, Htried.
  destruct (config_lookups (VBool true) (VInt step) (VInt (_derive_step_seed p step))
              (VFloat (prior_strength p)) (VFloat (cost_weight p)) (VBool ex)
              (VFloat pen) (VStr (CampaignPhase_value ph))) as (H1 & H2 & H3).
  cbv zeta in H1, H2, H3. rewrite H1, H2, H3.
  cbn [default from_option Datatypes.id truthy cv_float cv_phase_str].
  assert (CampaignPhase_of_value (CampaignPhase_value ph) = Py.Ok ph) as ->
    by (by destruct ph).
  eexists. split; [reflexivity|].
  rewrite plan_unfold. cbv zeta. cbn [fst snd entries config_used].
  change (_derive_step_seed (registered p registry) step)
    with (_derive_step_seed p step).
  change (prior_strength (registered p registry)) with (prior_strength p).
  change (cost_weight (registered p registry)) with (cost_weight p).
  split; [|reflexivity].
  set (r := sampling_run p target registry (Some []) ex pen
              (Some (rebuild_tracker registry tried)) ph
              (Random (_derive_step_seed p step)) (initial_state p (Some ps))).
  change (initial_state (registered p registry) (Some r.1.2)) with r.1.2.
  pose proof (sampling_run_again p target registry (Some []) ex pen
                (Some (rebuild_tracker registry tried)) ph
                (Random (_derive_step_seed p step)) (initial_state p (Some ps)))
    as Hagain. cbv zeta in Hagain. fold r in Hagain. rewrite Hagain.
  rewrite entries_of_length. unfold entries_of.
  rewrite registered_again, slice_to_its_length. reflexivity.
Qed.


(** X20. The replayer that is given the manager's registry and planner reproduces
    the snapshot that an adaptive [recommend_next] recorded for a campaign
    without evaluations: [replay] returns the entries and the configuration
    of the recorded plan, and [verify], with a tolerance that is not
    negative, reports a match and no divergence. *)
Theorem replay_reproduces_decision (m m0 m' : CampaignManager) (cid : string)
    (c : Camp.Campaign) (k : Z) (ex : bool) (pen : float)
    (adaptive : option bool) (uuid : string) (now : Z) (fs fs0 fs' : FS.t)
    (plan : AttackPlan) (rec : Recorder.SnapshotRecorder)
    (snap : Snapshot.DecisionSnapshot) (cfg : PlannerConfig)
    (eng : Engine.PrioritizerEngine) (randint now2 : Z) (tol : float) :
  get m cid fs = (Py.Ok (Some c), m0, fs0) →
  served_adaptively m0 c adaptive →
  Camp.evaluations (Camp.state c) = [] →
  _recorder m = Some rec →
  recommend_next m cid k ex pen adaptive uuid now fs = (Py.Ok plan, m', fs') →
  (Recorder.load rec (Camp.id c) (default 0%Z (_step_counters m !! cid)) fs').1
    = Py.Ok (Some snap) →
  (0 <=? tol)%float = true →
  let r := {| registry := _registry m; planner := _adaptive_planner m' |} in
  (∃ plan2, replay r cfg eng randint now2 snap (Camp.target c) = Py.Ok plan2
            ∧ entries plan2 = entries plan
            ∧ config_used plan2 = config_used plan)
  ∧ verify r cfg eng randint now2 snap (Camp.target c) tol = Py.Ok (true, []).
Proof.
  intros Hget (Had & [planner Hpl] & [ps Hps]) Hnone Hrec Hrun Hload Htol r.
  subst r. unfold recommend_next in Hrun. rewrite Hget in Hrun.
  destruct (get_setup m cid fs) as ((Hreg0 & _ & _ & Hrec0) & Hcnt0 & _).
  rewrite Hget in Hreg0, Hrec0, Hcnt0. cbn [fst snd] in Hreg0, Hrec0, Hcnt0.
  destruct (recommend_found_adaptive _ _ _ _ _ _ _ _ _ _ _ _ _ _ _ Had Hpl Hps Hrun)
    as (Hplan & c2 & fs1 & _ & _ & Hpl' & _ & _ & Hfs).
  rewrite Hrec0 in Hfs. specialize (Hfs rec Hrec). rewrite Hcnt0 in Hfs.
  rewrite Hfs, record_then_load in Hload. injection Hload as <-.
  unfold adaptive_run in *. rewrite Hnone, Hreg0, Hcnt0 in *.
  match type of Hplan with _ = (Adaptive.plan ?p ?n ?t ?rg ?s ?pr ?k0 ?e ?pn
                                  (Some (rebuild_tracker _ ?tr)) ?st ?ph).1.1 =>
    destruct (replay_of_plan p n now2 t rg ps k0 e pn tr st ph cfg eng randint
                (Snapshot.set_snapshot_id
                   (snapshot_of c (Adaptive.plan p n t rg s pr k0 e pn
                                     (Some (rebuild_tracker rg tr)) st ph).1.2
                      st plan n) uuid))
      as (plan2 & Hreplay & Hentries & Hconfig)
  end; try (rewrite Hplan; reflexivity); try reflexivity.
  rewrite Hpl'. rewrite <- Hplan in Hentries, Hconfig.
  split; [by exists plan2|].
  match type of Hreplay with replay _ _ _ _ _ ?sn _ = _ =>
    assert (Snapshot.produced_plan_entries sn = entries plan) as Hsnap
      by reflexivity;
    generalize dependent sn end.
  intros snap Hreplay Hsnap.
  unfold verify. rewrite Hreplay, Hsnap.
  rewrite Hentries, compare_same_entries by done.
  rewrite (bool_decide_eq_false_2 (length (entries plan) ≠ length (entries plan)))
    by (intros Hne; by apply Hne).
  reflexivity.
Qed.

End ReplayOkFacts.

(*** Verification of a replay *)

Section VerifyFacts.
Context `{Runtime}.
Import Replayer Adaptive.

Lemma compare_entries_nil tol i o e :
  compare_entries tol (i, (o, e)) = [] ↔ entries_agree tol o e.
Proof.
  unfold compare_entries, entries_agree.
  destruct (decide (entry_technique_id o = entry_technique_id e)) as [Heq|Hne].
  - rewrite bool_decide_eq_false_2 by (intros Hn; by apply Hn).
    cbn [app].
    destruct (utility (entry_score o)) as [u|], (utility (entry_score e)) as [u'|];
      try (split; [intros _; split; [done|]; by intros ?? [=]|done]).
    destruct (tol <? PrimFloat.abs (u - u'))%float eqn:Hlt.
    + split; [done|]. intros [_ Hu]. by rewrite (Hu u u') in Hlt.
    + split; [|done]. intros _. split; [done|]. by intros ?? [= <-] [= <-].
  - rewrite bool_decide_eq_true_2 by done.
    split; [done|]. by intros [? _].
Qed.

Lemma compare_all_nil {A} tol (f : nat → PlanEntry * PlanEntry → A)
    (g : A → nat * (PlanEntry * PlanEntry)) (l : list (PlanEntry * PlanEntry)) :
  (∀ i p, (g (f i p)).2 = p) →
  concat ((λ a, compare_entries tol (g a)) <$> imap f l) = []
  ↔ Forall (λ p, entries_agree tol p.1 p.2) l.
Proof.
  revert f. induction l as [|[o e] l IH]; intros f Hf.
  - split; [constructor|done].
  - rewrite imap_cons. cbn [fmap list_fmap concat].
    specialize (IH (f ∘ S) (λ i p, Hf (S i) p)).
    pose proof (Hf 0%nat (o, e)) as H0.
    destruct (g (f 0%nat (o, e))) as [i0 p0]. cbn [snd] in H0. subst p0.
    split.
    + intros Hnil. apply app_eq_nil in Hnil as [H1 H2].
      constructor; [by apply (compare_entries_nil tol i0)|by apply IH].
    + intros Hall. inversion Hall as [|?? Hhd Htl]; subst.
      cbn [fst snd] in Hhd.
      apply (compare_entries_nil tol i0) in Hhd. rewrite Hhd. cbn [app].
      by apply IH.
Qed.

Lemma Forall2_zip_length {A B} (P : A → B → Prop) (l1 : list A) (l2 : list B) :
  Forall2 P l1 l2
  ↔ length l1 = length l2 ∧ Forall (λ p, P p.1 p.2) (zip l1 l2).
Proof.
  revert l2. induction l1 as [|a l1 IH]; intros [|b l2]; cbn.
  - split; [by split|constructor].
  - split; [by inversion 1|by intros [[=] _]].
  - split; [by inversion 1|by intros [[=] _]].
  - rewrite Forall2_cons, Forall_cons, IH. cbn. split.
    + intros (? & ? & ?). by repeat split; [f_equal|..].
    + intros ([= ?] & ? & ?). done.
Qed.

(** X21. [verify] raises what [replay] raises.  When [replay] returns a plan, the
    flag [verify] returns says whether its list of divergences is empty, and
    the list is empty exactly when the recorded and the replayed entries are
    equally many and agree pairwise: same technique id, and utilities that,
    where both are present, differ by no more than the tolerance.  Plans of
    different lengths are always reported. *)
Theorem verify_matches_exactly (r : DecisionReplayer) (cfg : PlannerConfig)
    (eng : Engine.PrioritizerEngine) (randint now : Z)
    (snap : Snapshot.DecisionSnapshot) (target : TargetProfile) (tol : float) :
  (∀ e, replay r cfg eng randint now snap target = Py.Raise e →
        verify r cfg eng randint now snap target tol = Py.Raise e)
  ∧ (∀ p2, replay r cfg eng randint now snap target = Py.Ok p2 →
       ∃ divs,
         verify r cfg eng randint now snap target tol
         = Py.Ok (bool_decide (length divs = 0%nat), divs)
         ∧ (divs = []
            ↔ Forall2 (entries_agree tol)
                (Snapshot.produced_plan_entries snap) (entries p2))
         ∧ (length (Snapshot.produced_plan_entries snap) ≠ length (entries p2) →
            PlanLengthMismatch (length (Snapshot.produced_plan_entries snap))
              (length (entries p2)) ∈ divs)).
Proof.
  unfold verify. split.
  - intros e ->. done.
  - intros p2 ->. cbv zeta. eexists. split; [reflexivity|]. split.
    + rewrite Forall2_zip_length.
      rewrite <- (compare_all_nil tol (λ i p, (i, p)) (λ a, a)) by done.
      split.
      * intros Hnil. apply app_eq_nil in Hnil as [Hlen Hcmp].
        split; [|exact Hcmp].
        destruct (decide (length (Snapshot.produced_plan_entries snap)
                          = length (entries p2))) as [|Hne]; [done|].
        by rewrite bool_decide_eq_true_2 in Hlen.
      * intros [Hlen Hcmp].
        rewrite bool_decide_eq_false_2 by (intros Hn; by apply Hn).
        cbn [app]. exact Hcmp.
    + intros Hne. rewrite bool_decide_eq_true_2 by done.
      apply list_elem_of_here.
Qed.

End VerifyFacts.

(*** Ranges and the rebuilt tracker *)

Section RangeFacts.
Import Engine Adaptive Analyzer.

(** X22. [normalize_score] is in [0, 1] for every raw score, also one that is
    infinite or not a number, and is 0.5 when the weights leave no positive
    span; so the V1 base score the adaptive planner starts from is in
    [0, 1]. *)
Theorem normalize_score_in_unit_interval (e : PrioritizerEngine) (raw : float) :
  Py.between 0 (normalize_score e raw) 1 = true
  ∧ ((_score_hi e - _score_lo e <=? 0)%float = true →
     normalize_score e raw = 0.5%float)
  ∧ (∀ (p : AdaptivePlanner) t target prior,
       Py.between 0 (_compute_v1_base_score p t target prior) 1 = true).
Proof.
  assert (∀ e raw, Py.between 0 (normalize_score e raw) 1 = true) as Hrange.
  { intros e0 raw0. unfold normalize_score.
    destruct (_ <=? 0)%float; [vm_compute; reflexivity|apply clamp_unit]. }
  split; [apply Hrange|]. split.
  - unfold normalize_score. by intros ->.
  - intros p t target prior. apply Hrange.
Qed.

Lemma max_zero_nonneg (x : float) : (0 <=? Py.max 0 x)%float = true.
Proof.
  unfold Py.max. destruct (0 <? x)%float eqn:E; [by apply float_ltb_leb|].
  vm_compute. reflexivity.
Qed.

Lemma min_one_le (x : float) : (Py.min 1 x <=? 1)%float = true.
Proof.
  unfold Py.min. destruct (x <? 1)%float eqn:E; [by apply float_ltb_leb|].
  vm_compute. reflexivity.
Qed.

(** X23. [_assess_layer] on a layer without results returns the rate 0, the
    interval (0, 1) and the risk 0, marked insufficient.  On a layer with
    results it raises when [min_attempts] is 0: [ZeroDivisionError], unless
    the square of z has overflowed before.  An assessment it returns counts
    every result given and the successful ones among them, lists their
    attempt ids, has its confidence interval, its risk and its evidence
    quality within [0, 1], and is marked insufficient exactly when there
    are fewer than [min_attempts] results or none. *)
Theorem assess_layer_evidence (a : WeakestLayerAnalyzer) (l : Surface)
    (results : list EvaluationResult) (ids : list string) :
  (results = [] →
     ∃ x, _assess_layer a l results ids = Py.Ok x
          ∧ smoothed_success_rate (evidence x) = 0%float
          ∧ confidence_interval (evidence x) = (0%float, 1%float)
          ∧ risk_score x = 0%float
          ∧ is_insufficient_evidence x = true)
  ∧ (results ≠ [] → _min_attempts a = 0%Z →
     ∃ e, _assess_layer a l results ids = Py.Raise e
          ∧ (Py.is_ok (Py.pow2 (_z a)) = true →
             e = Py.ZeroDivisionError "division by zero"))
  ∧ (∀ x, _assess_layer a l results ids = Py.Ok x →
       layer x = l ∧ techniques_tested x = ids
       ∧ total_attempts (evidence x) = length results
       ∧ success_count (evidence x)
         = length (filter (λ r, success r = Some true) results)
       ∧ (success_count (evidence x) ≤ total_attempts (evidence x))%nat
       ∧ supporting_attempt_ids (evidence x) = attempt_id <$> results
       ∧ ((0 <=? (confidence_interval (evidence x)).1)%float = true
          ∧ ((confidence_interval (evidence x)).2 <=? 1)%float = true)
       ∧ Py.between 0 (risk_score x) 1 = true
       ∧ Py.between 0 (evidence_quality (evidence x)) 1 = true
       ∧ (is_insufficient_evidence x = true
          ↔ (Z.of_nat (length results) < _min_attempts a)%Z ∨ results = [])
       ∧ (results ≠ [] → _min_attempts a ≠ 0%Z)).
Proof.
  split; [|split].
  - intros ->. eexists. split; [reflexivity|]. done.
  - intros Hne Hmin. unfold _assess_layer.
    destruct results as [|r rs]; [done|].
    change (length (r :: rs) =? 0)%nat with false. cbv iota.
    unfold _wilson_center, _wilson_interval.
    change (length (r :: rs) =? 0)%nat with false. cbv iota.
    destruct (Py.pow2 (_z a)) as [z2|e]; cbn [Py.bind Py.is_ok].
    + rewrite Hmin. change (0 * 2 =? 0)%Z with true. cbv iota. eauto.
    + eexists. split; [reflexivity|]. done.
  - intros x. unfold _assess_layer.
    destruct results as [|r rs].
    + intros [= <-]. cbn. repeat split; try done; try lia; auto.
    + change (length (r :: rs) =? 0)%nat with false. cbv iota.
      unfold _wilson_center, _wilson_interval.
      change (length (r :: rs) =? 0)%nat with false. cbv iota.
      destruct (Py.pow2 (_z a)) as [z2|e]; cbn [Py.bind]; [|done].
      destruct (_min_attempts a * 2 =? 0)%Z eqn:Hzero; [done|].
      unfold validate_unit.
      match goal with |- context [Py.bind (if ?b then _ else _) _] =>
        destruct b eqn:Hq; [|done] end. cbn [Py.bind].
      match goal with |- context [Py.bind (if ?b then _ else _) _] =>
        destruct b eqn:Hr; [|done] end. cbn [Py.bind].
      intros [= <-].
      cbn [layer techniques_tested evidence total_attempts success_count
           supporting_attempt_ids confidence_interval is_insufficient_evidence
           smoothed_success_rate risk_score evidence_quality fst snd].
      split; [done|]. split; [done|]. split; [done|]. split; [done|].
      split; [exact (length_filter (λ r0, success r0 = Some true) (r :: rs))|].
      split; [done|].
      split; [split; [apply max_zero_nonneg|apply min_one_le]|].
      split; [exact Hr|]. split; [exact Hq|].
      split.
      * rewrite Z.ltb_lt. split; [by left|]. by intros [?|?].
      * intros _ Hmin. rewrite Hmin in Hzero. done.
Qed.

End RangeFacts.

Section TrackerFacts.
Import Manager Diversity.

Lemma Surface_value_inj (s1 s2 : Surface) :
  Surface_value s1 = Surface_value s2 → s1 = s2.
Proof. by destruct s1, s2. Qed.

(** X24. The tracker rebuilt from a campaign's tried techniques: for every
    surface it counts the tried ids that the registry knows on that surface
    (an id tried twice counts twice, an unknown id is skipped), and it holds
    the family keys of exactly those techniques; its thresholds are the
    defaults. *)
Theorem rebuild_tracker_counts (registry : TechniqueRegistry) (tried : list string) :
  let f := rebuild_tracker registry tried in
  (∀ s, default 0%nat (_surface_counts f !! Surface_value s)
        = length (filter (λ tid, surface <$> Registry.get registry tid = Some s)
                         tried))
  ∧ (∀ key, key ∈ _tried_families f
            ↔ ∃ tid t, tid ∈ tried ∧ Registry.get registry tid = Some t
                       ∧ _get_family_key t = key)
  ∧ min_surface_coverage f = 1%Z ∧ untested_layer_bonus f = 0.3%float
  ∧ repeat_family_penalty f = 0.15%float ∧ below_coverage_bonus f = 0.15%float.
Proof.
  cbv zeta. unfold rebuild_tracker.
  induction tried as [|tid tried IH] using rev_ind.
  - simpl. split; [intros s; by rewrite lookup_empty|]. split; [|done].
    intros key. split; [set_solver|]. intros (tid & t & Hin & _).
    by apply elem_of_nil in Hin.
  - rewrite foldl_app. simpl. destruct IH as (Hcnt & Hfam & Hmin & Hun & Hrep & Hbel).
    set (f := foldl _ (new None None None None) tried) in *.
    destruct (Registry.get registry tid) as [t|] eqn:Hget.
    + split; [|split; [|done]].
      * intros s. rewrite filter_app, length_app, filter_cons, filter_nil.
        simpl. rewrite Hget. simpl.
        destruct (decide (Some (surface t) = Some s)) as [[= <-]|Hne].
        -- rewrite lookup_insert_eq. simpl. rewrite Hcnt. lia.
        -- rewrite lookup_insert_ne by (intros Heq; apply Hne; f_equal;
                                         by apply Surface_value_inj).
           rewrite Hcnt. simpl. lia.
      * intros key. cbn [mark_tried _tried_families].
        rewrite elem_of_union, elem_of_singleton, Hfam. split.
        -- intros [->|(tid' & t' & Hin & Hg & Hk)].
           ++ exists tid, t. rewrite elem_of_app, list_elem_of_singleton. auto.
           ++ exists tid', t'. rewrite elem_of_app. auto.
        -- intros (tid' & t' & Hin & Hg & Hk).
           apply elem_of_app in Hin as [Hin|Hin]; [right; eauto|].
           apply list_elem_of_singleton in Hin as ->. left. congruence.
    + split; [|split; [|done]].
      * intros s. rewrite filter_app, length_app, filter_cons, filter_nil.
        rewrite Hget. simpl. rewrite Hcnt. lia.
      * intros key. rewrite Hfam. split.
        -- intros (tid' & t' & Hin & Hg & Hk). exists tid', t'.
           rewrite elem_of_app. auto.
        -- intros (tid' & t' & Hin & Hg & Hk).
           apply elem_of_app in Hin as [Hin|Hin]; [eauto|].
           apply list_elem_of_singleton in Hin as ->. congruence.
Qed.

End TrackerFacts.

(*** The diversity bonus of the rebuilt tracker *)

Section TrackerBonusFacts.
Import Manager Diversity.

Lemma family_key_surface (t1 t2 : AttackTechnique) :
  _get_family_key t1 = _get_family_key t2 → surface t1 = surface t2.
Proof.
  unfold _get_family_key.
  destruct (domain t1), (domain t2), (surface t1), (surface t2);
    cbn; intros Heq; try reflexivity; discriminate Heq.
Qed.

(** What the rebuilt tracker holds for a surface and for a family. *)
Lemma rebuild_tracker_state (registry : TechniqueRegistry) (tried : list string) :
  let f := rebuild_tracker registry tried in
  (∀ s, match _surface_counts f !! Surface_value s with
        | None => ∀ tid t, tid ∈ tried → Registry.get registry tid = Some t →
                           surface t ≠ s
        | Some n => (1 ≤ n)%nat
                    ∧ ∃ tid t, tid ∈ tried ∧ Registry.get registry tid = Some t
                               ∧ surface t = s
        end)
  ∧ (∀ key, key ∈ _tried_families f
            ↔ ∃ tid t, tid ∈ tried ∧ Registry.get registry tid = Some t
                       ∧ _get_family_key t = key)
  ∧ min_surface_coverage f = 1%Z ∧ untested_layer_bonus f = 0.3%float
  ∧ repeat_family_penalty f = 0.15%float.
Proof.
  cbv zeta. unfold rebuild_tracker.
  induction tried as [|tid tried IH] using rev_ind.
  - simpl. split.
    { intros s. rewrite lookup_empty. intros tid t Hin. by apply elem_of_nil in Hin. }
    split; [|done].
    intros key. split; [set_solver|]. intros (tid & t & Hin & _).
    by apply elem_of_nil in Hin.
  - rewrite foldl_app. simpl. destruct IH as (Hcnt & Hfam & Hmin & Hun & Hrep).
    set (f := foldl _ (new None None None None) tried) in *.
    destruct (Registry.get registry tid) as [t|] eqn:Hget.
    + split; [|split; [|done]].
      * intros s. cbn [mark_tried _surface_counts].
        destruct (decide (surface t = s)) as [<-|Hne].
        -- rewrite lookup_insert_eq. split; [lia|].
           exists tid, t. rewrite elem_of_app, list_elem_of_singleton. auto.
        -- rewrite lookup_insert_ne
             by (intros Heq; apply Hne; by apply Surface_value_inj).
           specialize (Hcnt s).
           destruct (_surface_counts f !! Surface_value s) as [n|].
           ++ destruct Hcnt as (Hn & tid' & t' & Hin & Hg & Hs).
              split; [done|]. exists tid', t'. rewrite elem_of_app. auto.
           ++ intros tid' t' Hin Hg.
              apply elem_of_app in Hin as [Hin|Hin]; [by eapply Hcnt|].
              apply list_elem_of_singleton in Hin as ->. congruence.
      * intros key. cbn [mark_tried _tried_families].
        rewrite elem_of_union, elem_of_singleton, Hfam. split.
        -- intros [->|(tid' & t' & Hin & Hg & Hk)].
           ++ exists tid, t. rewrite elem_of_app, list_elem_of_singleton. auto.
           ++ exists tid', t'. rewrite elem_of_app. auto.
        -- intros (tid' & t' & Hin & Hg & Hk).
           apply elem_of_app in Hin as [Hin|Hin]; [right; eauto|].
           apply list_elem_of_singleton in Hin as ->. left. congruence.
    + split; [|split; [|done]].
      * intros s. specialize (Hcnt s).
        destruct (_surface_counts f !! Surface_value s) as [n|].
        -- destruct Hcnt as (Hn & tid' & t' & Hin & Hg & Hs).
           split; [done|]. exists tid', t'. rewrite elem_of_app. auto.
        -- intros tid' t' Hin Hg.
           apply elem_of_app in Hin as [Hin|Hin]; [by eapply Hcnt|].
           apply list_elem_of_singleton in Hin as ->. congruence.
      * intros key. rewrite Hfam. split.
        -- intros (tid' & t' & Hin & Hg & Hk). exists tid', t'.
           rewrite elem_of_app. auto.
        -- intros (tid' & t' & Hin & Hg & Hk).
           apply elem_of_app in Hin as [Hin|Hin]; [eauto|].
           apply list_elem_of_singleton in Hin as ->. congruence.
Qed.

(** X25. The diversity bonus under the tracker that [recommend_next] rebuilds.  A
    technique on a surface where no known technique was tried gets the
    untested-layer bonus 0.3 and no penalty.  On a surface where one was
    tried it gets no bonus (the coverage threshold is 1, so the
    below-coverage bonus never applies) and the penalty 0.15 exactly when a
    tried technique has its family key; a tried technique itself gets
    -0.15. *)
Theorem rebuilt_tracker_bonus (registry : TechniqueRegistry) (tried : list string)
    (t : AttackTechnique) :
  let f := rebuild_tracker registry tried in
  let tried_on_surface :=
    ∃ tid t', tid ∈ tried ∧ Registry.get registry tid = Some t'
              ∧ surface t' = surface t in
  let family_tried :=
    ∃ tid t', tid ∈ tried ∧ Registry.get registry tid = Some t'
              ∧ _get_family_key t' = _get_family_key t in
  (¬ tried_on_surface → compute_diversity_bonus f t = 0.3%float)
  ∧ (tried_on_surface → ¬ family_tried → compute_diversity_bonus f t = 0%float)
  ∧ (family_tried → compute_diversity_bonus f t = (-0.15)%float)
  ∧ (id t ∈ tried → Registry.get registry (id t) = Some t →
     compute_diversity_bonus f t = (-0.15)%float).
Proof.
  cbv zeta.
  destruct (rebuild_tracker_state registry tried) as (Hcnt & Hfam & Hmin & Hun & Hrep).
  specialize (Hcnt (surface t)). specialize (Hfam (_get_family_key t)).
  unfold compute_diversity_bonus. rewrite Hmin, Hun, Hrep.
  set (f := rebuild_tracker registry tried) in *.
  assert (Hpen : (∃ tid t', tid ∈ tried ∧ Registry.get registry tid = Some t'
                            ∧ _get_family_key t' = _get_family_key t) →
                 (if bool_decide (_get_family_key t ∈ _tried_families f)
                  then (match _surface_counts f !! Surface_value (surface t) with
                        | Some n => if (Z.of_nat n <? 1)%Z
                                    then (0 + below_coverage_bonus f)%float
                                    else 0%float
                        | None => (0 + 0.3)%float
                        end - 0.15)%float
                  else match _surface_counts f !! Surface_value (surface t) with
                       | Some n => if (Z.of_nat n <? 1)%Z
                                   then (0 + below_coverage_bonus f)%float
                                   else 0%float
                       | None => (0 + 0.3)%float
                       end) = (-0.15)%float).
  { intros Hft. rewrite bool_decide_eq_true_2 by (by apply Hfam).
    destruct Hft as (tid & t' & Hin & Hg & Hk).
    destruct (_surface_counts f !! Surface_value (surface t)) as [n|].
    - destruct Hcnt as [Hn _].
      destruct (Z.ltb_spec (Z.of_nat n) 1); [lia|]. reflexivity.
    - exfalso. apply (Hcnt tid t' Hin Hg). by apply family_key_surface. }
  split; [|split; [|split]].
  - intros Hno.
    rewrite bool_decide_eq_false_2.
    + destruct (_surface_counts f !! Surface_value (surface t)) as [n|];
        [|reflexivity].
      destruct Hcnt as [_ Hex]. by destruct Hno.
    + intros Hin. apply Hfam in Hin as (tid & t' & Hin & Hg & Hk).
      apply Hno. exists tid, t'. split; [done|]. split; [done|].
      by apply family_key_surface.
  - intros (tid & t' & Hin & Hg & Hs) Hnf.
    rewrite bool_decide_eq_false_2 by (intros Hk; by apply Hnf, Hfam).
    destruct (_surface_counts f !! Surface_value (surface t)) as [n|].
    + destruct Hcnt as [Hn _].
      destruct (Z.ltb_spec (Z.of_nat n) 1); [lia|]. reflexivity.
    + by destruct (Hcnt tid t' Hin Hg).
  - exact Hpen.
  - intros Hin Hg. apply Hpen. by exists (id t), t.
Qed.

End TrackerBonusFacts.

(** ** The properties on the example data *)

Section Witnesses.
#[local] Existing Instance Examples.example_runtime.
Import Manager.

(** The family of DAN, ROLEPLAY and HYPO, with spillover 0.3. *)
Lemma propagate_update_spillover_witness :
  let c := Correlation.register_techniques (Correlation.new 0.3)
             (get_all Examples.catalog) in
  let st := {| posteriors := ∅; Posterior.prior_strength := 8.0%float |} in
  let st' := Correlation.propagate_update c Scenario.dan 1 st in
  (∃ p, posteriors st' !! id Examples.ROLEPLAY = Some p
        ∧ alpha p = (1 + 8 * 0.5 + 1 * 0.3)%float ∧ observations p = 0%nat)
  ∧ (∃ p, posteriors st' !! id Examples.HYPO = Some p
          ∧ alpha p = (1 + 8 * 0.5 + 1 * 0.3)%float ∧ observations p = 0%nat)
  ∧ posteriors st' !! Scenario.dan = None.
Proof.
  cbv zeta.
  destruct (propagate_update_spillover
              (Correlation.register_techniques (Correlation.new 0.3)
                 (get_all Examples.catalog))
              Scenario.dan 1
              {| posteriors := ∅; Posterior.prior_strength := 8.0%float |})
    as (Hsib & Hself & _).
  split; [|split].
  - destruct (Hsib (id Examples.ROLEPLAY)) as (p & Hp & Ha & _ & Ho & _).
    { apply (bool_decide_unpack _). vm_compute. exact I. }
    exists p. split; [exact Hp|]. split; [exact Ha | exact Ho].
  - destruct (Hsib (id Examples.HYPO)) as (p & Hp & Ha & _ & Ho & _).
    { apply (bool_decide_unpack _). vm_compute. exact I. }
    exists p. split; [exact Hp|]. split; [exact Ha | exact Ho].
  - exact Hself.
Defined.

Lemma get_or_init_present_ignores_priors_witness :
  let st := {| posteriors := ∅; Posterior.prior_strength := 8.0%float |} in
  let '(p1, st1) := get_or_init st Scenario.dan 0.5 (Some 0.53%float) in
  get_or_init st1 Scenario.dan 0.9 (Some 0.05%float) = (p1, st1)
  ∧ get_or_init st1 Scenario.dan 0.1 None = (p1, st1).
Proof.
  cbv zeta.
  pose proof (get_or_init_present_ignores_priors
                {| posteriors := ∅; Posterior.prior_strength := 8.0%float |}
                Scenario.dan 0.5 (Some 0.53%float)) as (_ & Hagain & _).
  pose proof (Hagain 0.9%float (Some 0.05%float)) as H1.
  pose proof (Hagain 0.1%float None) as H2.
  destruct (get_or_init _ Scenario.dan 0.5 (Some 0.53%float)) as [p1 st1].
  split; [exact H1 | exact H2].
Defined.


Lemma score_signal_gain_cases_witness :
  Scorers.score_signal_gain Examples.DAN
    (Some [Examples.evaluation "att-0" Scenario.dan (Some false)]) None = 0.1%float
  ∧ Scorers.score_signal_gain Examples.DAN
      (Some [Examples.evaluation "att-0" Scenario.dan None]) None = 0.5%float
  ∧ Scorers.score_signal_gain Examples.HYPO
      (Some [Examples.evaluation "att-0" Scenario.dan None]) None = 1.0%float
  ∧ Scorers.score_signal_gain Examples.DAN (Some []) None = 0.7%float.
Proof.
  split; [|split; [|split]].
  - destruct (score_signal_gain_cases Examples.DAN
                (Some [Examples.evaluation "att-0" Scenario.dan (Some false)]))
      as (_ & _ & _ & Hdone).
    apply Hdone; [discriminate|].
    intros r Hr. apply list_elem_of_singleton in Hr. subst r. discriminate.
  - destruct (score_signal_gain_cases Examples.DAN
                (Some [Examples.evaluation "att-0" Scenario.dan None]))
      as (_ & _ & Hinc & _).
    apply Hinc. eexists. split; [left | reflexivity].
  - destruct (score_signal_gain_cases Examples.HYPO
                (Some [Examples.evaluation "att-0" Scenario.dan None]))
      as (_ & Huntried & _).
    apply Huntried; [discriminate | reflexivity].
  - destruct (score_signal_gain_cases Examples.DAN (Some [])) as (Hnone & _).
    apply Hnone. reflexivity.
Defined.

(** The recommendation that excludes tried techniques, after DAN was
    evaluated, does not return DAN. *)
Lemma recommend_next_excludes_evaluated_witness :
  Forall (λ e, entry_technique_id e ≠ Scenario.dan)
    (entries (Scenario.plan_of Scenario.excluding_recommendation)).
Proof.
  assert (Py.is_ok Scenario.excluding_recommendation.1.1 = true) as Hok
    by (vm_compute; reflexivity).
  unfold Scenario.plan_of.
  destruct Scenario.excluding_recommendation as [[[plan|e] m'] fs'] eqn:Hout;
    [|discriminate Hok].
  cbn [fst].
  destruct (_campaigns Scenario.ingested.1.2 !! Scenario.cid) as [c|] eqn:Hc;
    [|vm_compute in Hc; discriminate Hc].
  assert (get Scenario.ingested.1.2 Scenario.cid Scenario.ingested.2
          = (Py.Ok (Some c), Scenario.ingested.1.2, Scenario.ingested.2)) as Hget
    by (unfold get; rewrite Hc; reflexivity).
  assert (Examples.evaluation "att-0" Scenario.dan (Some false)
          ∈ Camp.evaluations (Camp.state c)) as Hev.
  { vm_compute in Hc. injection Hc as <-. left. }
  assert (served_adaptively Scenario.ingested.1.2 c None) as Hserved.
  { vm_compute in Hc. injection Hc as <-.
    split; [vm_compute; reflexivity|].
    split; vm_compute; eexists; reflexivity. }
  apply Forall_forall. intros e He.
  destruct (recommend_next_excludes_evaluated _ _ _ _ _ _ _ _ _ _ _ _ _ _
              Hget Hserved Hout e He) as [_ Hne].
  exact (Hne _ Hev).
Defined.

End Witnesses.

Section FurtherWitnesses.
#[local] Existing Instance Examples.example_runtime.
Import Manager.

Lemma returned_campaign_reloads_witness :
  ∃ c, Scenario.created.1.1 = Py.Ok c ∧ reloads "store" c Scenario.created.2.
Proof.
  assert (Py.is_ok Scenario.created.1.1 = true) as Hok by (vm_compute; reflexivity).
  destruct Scenario.created as [[[c|e] m'] fs'] eqn:Hc; [|discriminate Hok].
  exists c. split; [reflexivity|].
  exact (proj1 (returned_campaign_reloads Scenario.manager "store" FS.empty eq_refl)
           _ _ _ _ _ _ _ _ c m' fs' Hc).
Defined.

Lemma unknown_campaign_is_reported_witness :
  ∃ fs', get Scenario.manager "nosuch" FS.empty = (Py.Ok None, Scenario.manager, fs')
    ∧ update_status Scenario.manager "nosuch" PAUSED FS.empty
      = (Py.Raise (Py.ValueError "Campaign nosuch not found"), Scenario.manager, fs').
Proof.
  destruct (unknown_campaign_is_reported Scenario.manager "nosuch" FS.empty)
    as (fs' & Hget & _ & _ & _ & _ & Hstatus).
  - reflexivity.
  - vm_compute. reflexivity.
  - intros dir _. apply lookup_empty.
  - exists fs'. split; [exact Hget|exact (Hstatus PAUSED)].
Defined.

Lemma invalid_campaign_id_is_refused_witness :
  ∃ e, get Scenario.manager "../outside" FS.empty
       = (Py.Raise e, Scenario.manager, FS.empty).
Proof.
  eexists.
  refine (proj1 (invalid_campaign_id_is_refused Scenario.manager "../outside"
                   FS.empty _ eq_refl _)).
  vm_compute. reflexivity.
Defined.

Lemma ingest_results_bookkeeping_witness :
  ∃ c c', _campaigns Scenario.created.1.2 !! Scenario.cid = Some c
    ∧ Scenario.ingested.1.1 = Py.Ok c'
    ∧ Camp.queries_used (Camp.state c')
      = (Camp.queries_used (Camp.state c) + 1)%nat.
Proof.
  destruct (_campaigns Scenario.created.1.2 !! Scenario.cid) as [c|] eqn:Hc;
    [|vm_compute in Hc; discriminate Hc].
  assert (Py.is_ok Scenario.ingested.1.1 = true) as Hok by (vm_compute; reflexivity).
  destruct Scenario.ingested as [[[c'|e] m'] fs'] eqn:Hing; [|discriminate Hok].
  exists c, c'. split; [reflexivity|]. split; [reflexivity|].
  assert (get Scenario.created.1.2 Scenario.cid Scenario.created.2
          = (Py.Ok (Some c), Scenario.created.1.2, Scenario.created.2)) as Hget
    by (unfold get; rewrite Hc; reflexivity).
  destruct (ingest_results_bookkeeping _ _ _ _ _ _ _ _ _ _ _ _ Hget Hing)
    as (_ & _ & Hq & _).
  exact Hq.
Defined.

Lemma recommend_next_records_decision_witness :
  ∃ c snap plan,
    _campaigns Scenario.created.1.2 !! Scenario.cid = Some c
    ∧ Scenario.first_recommendation.1.1 = Py.Ok plan
    ∧ (Recorder.load Scenario.recorder (Camp.id c)
         (default 0%Z (_step_counters Scenario.created.1.2 !! Scenario.cid))
         Scenario.first_recommendation.2).1 = Py.Ok (Some snap)
    ∧ Snapshot.produced_plan_entries snap = entries plan.
Proof.
  destruct (_campaigns Scenario.created.1.2 !! Scenario.cid) as [c|] eqn:Hc;
    [|vm_compute in Hc; discriminate Hc].
  assert (Py.is_ok Scenario.first_recommendation.1.1 = true) as Hok
    by (vm_compute; reflexivity).
  destruct Scenario.first_recommendation as [[[plan|e] m'] fs'] eqn:Hrun;
    [|discriminate Hok].
  assert (get Scenario.created.1.2 Scenario.cid Scenario.created.2
          = (Py.Ok (Some c), Scenario.created.1.2, Scenario.created.2)) as Hget
    by (unfold get; rewrite Hc; reflexivity).
  assert (served_adaptively Scenario.created.1.2 c None) as Hserved.
  { vm_compute in Hc. injection Hc as <-.
    split; [vm_compute; reflexivity|].
    split; vm_compute; eexists; reflexivity. }
  assert (_recorder Scenario.created.1.2 = Some Scenario.recorder) as Hrec
    by (vm_compute; reflexivity).
  destruct (recommend_next_records_decision _ _ _ _ _ _ _ _ _ _ _ _ _ _ _ _
              Hget Hserved Hrec Hrun) as (_ & snap & c2 & Hload & Hent & _).
  exists c, snap, plan. split; [reflexivity|]. split; [reflexivity|].
  split; [exact Hload|exact Hent].
Defined.

Lemma update_posteriors_counts_witness :
  let st := {| posteriors := ∅; Posterior.prior_strength := 8.0%float |} in
  let results := [Examples.evaluation "att-0" Scenario.dan (Some false);
                  Examples.evaluation "att-1" Scenario.dan None] in
  observed (Adaptive.update_posteriors Examples.planner42 st results
              Examples.catalog Examples.chatbot).1 Scenario.dan = 1%nat.
Proof.
  cbv zeta. rewrite update_posteriors_counts.
  - vm_compute. reflexivity.
  - vm_compute. reflexivity.
Defined.

Lemma siblings_are_family_members_witness :
  let c := Correlation.register_techniques (Correlation.new 0.3)
             (get_all Examples.catalog) in
  id Examples.HYPO ∈ Correlation.get_siblings c (id Examples.ROLEPLAY)
  ∧ Correlation.get_siblings c "AP-TX-UNKNOWN" = ∅.
Proof.
  cbv zeta.
  destruct (siblings_are_family_members (Correlation.new 0.3)
              (get_all Examples.catalog)) as (Hiff & _ & Hout & _).
  - apply (bool_decide_unpack _). vm_compute. exact I.
  - split.
    + apply Hiff. split.
      * apply (bool_decide_unpack _). vm_compute. exact I.
      * exists Examples.HYPO, Examples.ROLEPLAY.
        split; [do 2 apply list_elem_of_further; apply list_elem_of_here|].
        split; [apply list_elem_of_further; apply list_elem_of_here|].
        split; [reflexivity|]. split; reflexivity.
    + refine (proj1 (Hout "AP-TX-UNKNOWN" 0%float
                       {| posteriors := ∅; Posterior.prior_strength := 8.0%float |} _)).
      apply (bool_decide_unpack _). vm_compute. exact I.
Defined.

Lemma replay_reproduces_decision_witness :
  ∃ c snap,
    _campaigns Scenario.created.1.2 !! Scenario.cid = Some c
    ∧ (Recorder.load Scenario.recorder (Camp.id c)
         (default 0%Z (_step_counters Scenario.created.1.2 !! Scenario.cid))
         Scenario.first_recommendation.2).1 = Py.Ok (Some snap)
    ∧ Replayer.verify
        {| Replayer.registry := _registry Scenario.created.1.2;
           Replayer.planner := _adaptive_planner Scenario.first_recommendation.1.2 |}
        Examples.empty_config Examples.example_engine 7 200 snap (Camp.target c)
        Replayer.default_tolerance = Py.Ok (true, []).
Proof.
  destruct (_campaigns Scenario.created.1.2 !! Scenario.cid) as [c|] eqn:Hc;
    [|vm_compute in Hc; discriminate Hc].
  assert (Py.is_ok Scenario.first_recommendation.1.1 = true) as Hok
    by (vm_compute; reflexivity).
  assert (Py.is_ok (Recorder.load Scenario.recorder (Camp.id c)
            (default 0%Z (_step_counters Scenario.created.1.2 !! Scenario.cid))
            Scenario.first_recommendation.2).1 = true
          ∧ is_Some (default None
               (match (Recorder.load Scenario.recorder (Camp.id c)
                  (default 0%Z (_step_counters Scenario.created.1.2 !! Scenario.cid))
                  Scenario.first_recommendation.2).1 with
                | Py.Ok s => Some s | Py.Raise _ => None end))) as [Hl1 Hl2].
  { vm_compute in Hc. injection Hc as <-. split; [vm_compute; reflexivity|].
    vm_compute. eexists. reflexivity. }
  destruct Scenario.first_recommendation as [[[plan|e] m'] fs'] eqn:Hrun;
    [|discriminate Hok].
  cbn [fst snd] in *.
  destruct (Recorder.load Scenario.recorder (Camp.id c) _ fs') as [[[snap|]|e] fs2]
    eqn:Hload; cbn [fst snd] in *;
    [|destruct Hl2 as [? Hn]; discriminate Hn|discriminate Hl1].
  assert (get Scenario.created.1.2 Scenario.cid Scenario.created.2
          = (Py.Ok (Some c), Scenario.created.1.2, Scenario.created.2)) as Hget
    by (unfold get; rewrite Hc; reflexivity).
  assert (served_adaptively Scenario.created.1.2 c None
          ∧ Camp.evaluations (Camp.state c) = []) as [Hserved Hnone].
  { vm_compute in Hc. injection Hc as <-. split; [|reflexivity].
    split; [vm_compute; reflexivity|].
    split; vm_compute; eexists; reflexivity. }
  assert (_recorder Scenario.created.1.2 = Some Scenario.recorder) as Hrec
    by (vm_compute; reflexivity).
  exists c, snap. split; [reflexivity|].
  split; [cbn [fst snd]; rewrite Hload; reflexivity|].
  refine (proj2 (replay_reproduces_decision _ _ _ _ _ _ _ _ _ _ _ _ _ _ _ _ snap
                   Examples.empty_config Examples.example_engine 7 200
                   Replayer.default_tolerance Hget Hserved Hnone Hrec Hrun _ _)).
  - rewrite Hload. reflexivity.
  - vm_compute. reflexivity.
Defined.

Lemma create_new_campaign_witness :
  ∃ c, Scenario.created.1.1 = Py.Ok c
       ∧ Camp.status c = ACTIVE
       ∧ Camp.metadata c !! "campaign_seed" = Some (VInt 42)
       ∧ _step_counters Scenario.created.1.2 !! Scenario.cid = Some 0%Z.
Proof.
  assert (Py.is_ok Scenario.created.1.1 = true) as Hok by (vm_compute; reflexivity).
  destruct Scenario.created as [[[c|e] m'] fs'] eqn:Hc; [|discriminate Hok].
  destruct (create_new_campaign _ _ _ _ _ _ _ _ _ _ _ _ _ Hc)
    as ((_ & _ & _ & Hst & _) & _ & _ & (_ & _ & Hseed) & _ & Hcnt & _).
  exists c. split; [reflexivity|]. split; [exact Hst|].
  split; [exact Hseed|exact Hcnt].
Defined.

Lemma update_status_sets_status_witness :
  ∃ c c', _campaigns Scenario.created.1.2 !! Scenario.cid = Some c
    ∧ (update_status Scenario.created.1.2 Scenario.cid PAUSED Scenario.created.2).1.1
      = Py.Ok c'
    ∧ c' = Camp.set_status c PAUSED.
Proof.
  destruct (_campaigns Scenario.created.1.2 !! Scenario.cid) as [c|] eqn:Hc;
    [|vm_compute in Hc; discriminate Hc].
  assert (Py.is_ok (update_status Scenario.created.1.2 Scenario.cid PAUSED
                      Scenario.created.2).1.1 = true) as Hok
    by (vm_compute; reflexivity).
  destruct (update_status Scenario.created.1.2 Scenario.cid PAUSED
              Scenario.created.2) as [[[c'|e] m'] fs'] eqn:Hrun;
    [|discriminate Hok].
  assert (get Scenario.created.1.2 Scenario.cid Scenario.created.2
          = (Py.Ok (Some c), Scenario.created.1.2, Scenario.created.2)) as Hget
    by (unfold get; rewrite Hc; reflexivity).
  exists c, c'. split; [reflexivity|]. split; [reflexivity|].
  exact (proj1 (update_status_sets_status _ _ _ _ _ _ _ _ _ _ Hget Hrun)).
Defined.

Lemma recommend_next_rule_based_witness :
  ∃ c m',
    _campaigns Scenario.created.1.2 !! Scenario.cid = Some c
    ∧ recommend_next Scenario.created.1.2 Scenario.cid 5 true 0.5 (Some false)
        "bbbbbbbbbbbb" 102 Scenario.created.2
      = (Py.Ok (Engine.plan (_engine Scenario.created.1.2) 102 (Camp.target c)
                  (_registry Scenario.created.1.2)
                  (Some (Camp.evaluations (Camp.state c))) (Some 5%Z)),
         m', Scenario.created.2).
Proof.
  destruct (_campaigns Scenario.created.1.2 !! Scenario.cid) as [c|] eqn:Hc;
    [|vm_compute in Hc; discriminate Hc].
  assert (get Scenario.created.1.2 Scenario.cid Scenario.created.2
          = (Py.Ok (Some c), Scenario.created.1.2, Scenario.created.2)) as Hget
    by (unfold get; rewrite Hc; reflexivity).
  destruct (recommend_next_rule_based _ _ _ _ 5%Z true 0.5%float (Some false)
              "bbbbbbbbbbbb" 102%Z _ _ Hget) as (m' & Hrun & _).
  - intros [Hflag _]. discriminate Hflag.
  - exists c, m'. split; [reflexivity|exact Hrun].
Defined.

Lemma ingest_results_learns_witness :
  ∃ c c' ps ps',
    _campaigns Scenario.created.1.2 !! Scenario.cid = Some c
    ∧ Scenario.ingested.1.1 = Py.Ok c'
    ∧ Camp.posterior_state c = Some ps
    ∧ Camp.posterior_state c' = Some ps'
    ∧ observed ps' Scenario.dan = (observed ps Scenario.dan + 1)%nat.
Proof.
  destruct (_campaigns Scenario.created.1.2 !! Scenario.cid) as [c|] eqn:Hc;
    [|vm_compute in Hc; discriminate Hc].
  assert (Py.is_ok Scenario.ingested.1.1 = true) as Hok by (vm_compute; reflexivity).
  destruct Scenario.ingested as [[[c'|e] m'] fs'] eqn:Hing; [|discriminate Hok].
  assert (get Scenario.created.1.2 Scenario.cid Scenario.created.2
          = (Py.Ok (Some c), Scenario.created.1.2, Scenario.created.2)) as Hget
    by (unfold get; rewrite Hc; reflexivity).
  assert (served_adaptively Scenario.created.1.2 c None) as Hserved.
  { vm_compute in Hc. injection Hc as <-.
    split; [vm_compute; reflexivity|].
    split; vm_compute; eexists; reflexivity. }
  destruct (proj1 (ingest_results_learns _ _ _ _ _ _ _ _ _ _ _ _ Hget Hing) Hserved)
    as (pl & ps & ps' & Hpl & Hps & Hps' & Hobs).
  exists c, c', ps, ps'. split; [reflexivity|]. split; [reflexivity|].
  split; [exact Hps|]. split; [exact Hps'|].
  rewrite (Hobs Scenario.dan). f_equal.
  vm_compute in Hpl. injection Hpl as <-. vm_compute. reflexivity.
Defined.

End FurtherWitnesses.

Section AnalyzerRuns.
Import Analyzer PyList.

Lemma assess_layer_evidence_witness :
  ∃ x, _assess_layer default_analyzer GUARDRAIL three_of_five ["t"] = Py.Ok x
       ∧ total_attempts (evidence x) = 5%nat
       ∧ success_count (evidence x) = 3%nat
       ∧ is_insufficient_evidence x = false
       ∧ Py.between 0 (risk_score x) 1 = true.
Proof.
  destruct (_assess_layer default_analyzer GUARDRAIL three_of_five ["t"])
    as [x|e] eqn:Hx; [|vm_compute in Hx; discriminate Hx].
  exists x. split; [reflexivity|].
  destruct (assess_layer_evidence default_analyzer GUARDRAIL three_of_five ["t"])
    as (_ & _ & Hret).
  destruct (Hret x Hx) as (_ & _ & Htotal & Hsucc & _ & _ & _ & Hrisk & _ & Hins & _).
  split; [exact Htotal|]. split; [exact Hsucc|]. split; [|exact Hrisk].
  destruct (is_insufficient_evidence x); [|reflexivity].
  destruct (proj1 Hins eq_refl) as [Hlt|Hnil];
    [vm_compute in Hlt; discriminate Hlt | discriminate Hnil].
Defined.

Lemma analyze_layers_witness :
  let results :=
    Examples.evaluation "att" (id Examples.DAN)
      <$> [Some true; Some false; Some true; None; Some true] in
  let techniques : gmap string AttackTechnique :=
    {[ id Examples.DAN := Examples.DAN ]} in
  ∃ out, analyze default_analyzer results techniques = Py.Ok out
         ∧ length out = 6%nat
         ∧ ∃ x, x ∈ out ∧ layer x = GUARDRAIL ∧ is_primary_weakness x = true
                ∧ total_attempts (evidence x) = 5%nat.
Proof.
  cbv zeta.
  set (results := Examples.evaluation "att" (id Examples.DAN)
                    <$> [Some true; Some false; Some true; None; Some true]).
  set (techniques := ({[ id Examples.DAN := Examples.DAN ]}
                      : gmap string AttackTechnique)).
  destruct (analyze default_analyzer results techniques) as [out|e] eqn:Hout;
    [|vm_compute in Hout; discriminate Hout].
  exists out. split; [reflexivity|].
  destruct (analyze_layers default_analyzer results techniques) as (_ & _ & Hret).
  destruct (Hret out Hout) as (Hperm & _ & Hcount & Hprim & Hsome).
  split.
  { rewrite <- (length_fmap layer), Hperm. reflexivity. }
  assert (∃ y, y ∈ out ∧ layer y = GUARDRAIL) as (y & Hy & Hly).
  { assert (GUARDRAIL ∈ layer <$> out) as Hin.
    { rewrite Hperm. unfold all_Surface.
      repeat first [apply list_elem_of_here | apply list_elem_of_further]. }
    apply list_elem_of_fmap in Hin as (y & Hly & Hy). eauto. }
  destruct (Hcount y Hy) as [Hty Hiy]. cbv zeta in Hty, Hiy. rewrite Hly in Hty, Hiy.
  assert (is_insufficient_evidence y = false) as Hsuff
    by (rewrite Hiy; vm_compute; reflexivity).
  destruct (proj2 Hsome (ex_intro _ y (conj Hy Hsuff))) as (x & Hx & Hpx).
  destruct (Hprim x x Hx Hx Hpx) as (Hsx & _).
  destruct (Hcount x Hx) as [Htx Hix]. cbv zeta in Htx, Hix.
  exists x. split; [exact Hx|].
  assert (layer x = GUARDRAIL) as Hlx.
  { rewrite Hix in Hsx. destruct (layer x); try reflexivity;
      vm_compute in Hsx; discriminate Hsx. }
  split; [exact Hlx|]. split; [exact Hpx|].
  rewrite Htx, Hlx. vm_compute. reflexivity.
Defined.

End AnalyzerRuns.
